(** * Geospatial-Data-Management: a shallow embedding of the Python services

    The development follows the repository's modules:
    - [Py]: the Python values, exceptions and the [try]/[except] idiom the
      services share;
    - [SpatialAnalysis]: [SpatialAnalyzer] of [spatial_analysis.py];
    - [MLModels]: [SpatialMLPredictor] of [ml_models.py];
    - [DatabaseIntegration] and [App]: the persistence wrapper of
      [database_integration.py] and the HTTP routes of [app.py];
    - [DataProcessor]: [clean_data] of [data_processor.py];
    - [ModelReports], [DatabaseWrites], [ConnectionManager] and
      [DataValidation]: further functions of these files:
      [get_model_info] and [evaluate_model]; [close], [insert_landmark] and
      [import_from_geojson]; the WebSocket register; [validate_data].

    Python floats are modelled by the rationals they denote ([Q]); the
    routines of geopy, shapely, scikit-learn, pandas and PostGIS that the
    services call are parameters: Section variables or classes.  The second
    half of the file states and proves the properties, module by module. *)

From Stdlib Require Import ZArith QArith Qround Qabs Lia Lqa Sorted Permutation.
From stdpp Require Import base option list sorting gmap strings pretty.

Set Default Proof Using "Type".
Open Scope string_scope.

(** ** Python values, exceptions, results *)
Module Py.

(** The JSON-like values a property bag or a frame cell holds. *)
Inductive value :=
| VStr (s : string)
| VInt (z : Z)
| VFloat (q : Q)
| VBool (b : bool)
| VNone
| VNaN.

(** The exception classes the modelled code raises or catches. *)
Inductive exn_class :=
| Exception
| ValueError
| KeyError
| AttributeError.

Definition class_name (c : exn_class) : string :=
  match c with
  | Exception => "Exception"
  | ValueError => "ValueError"
  | KeyError => "KeyError"
  | AttributeError => "AttributeError"
  end.

(** A raised exception: its class and [str(e)]. *)
Record exn := Raise { exn_cls : exn_class; exn_str : string }.

Inductive res (A : Type) :=
| Ok (a : A)
| Err (e : exn).
Arguments Ok {A} a.
Arguments Err {A} e.

Definition bind {A B} (r : res A) (k : A → res B) : res B :=
  match r with
  | Ok a => k a
  | Err e => Err e
  end.

(** [try: body / except Exception as e: raise Exception(f"{prefix}{str(e)}")] *)
Definition reraise {A} (prefix : string) (r : res A) : res A :=
  match r with
  | Ok a => Ok a
  | Err e => Err (Raise Exception (prefix +:+ exn_str e))
  end.

(** [[f(x) for x in l]]: the first exception raised ends the loop. *)
Fixpoint traverse {A B} (f : A → res B) (l : list A) : res (list B) :=
  match l with
  | [] => Ok []
  | x :: xs =>
      match f x with
      | Err e => Err e
      | Ok y =>
          match traverse f xs with
          | Err e => Err e
          | Ok ys => Ok (y :: ys)
          end
      end
  end.

(** Code that updates an object of type [S] and may raise: the updates made
    before an exception stay. *)
Definition stex (S A : Type) : Type := S → res A * S.

Definition st_ret {S A} (a : A) : stex S A := λ s, (Ok a, s).

Definition st_bind {S A B} (m : stex S A) (k : A → stex S B) : stex S B :=
  λ s, match m s with
       | (Ok a, s') => k a s'
       | (Err e, s') => (Err e, s')
       end.

Definition lift {S A} (r : res A) : stex S A := λ s, (r, s).

Definition modify {S} (f : S → S) : stex S unit := λ s, (Ok tt, f s).

Definition get {S} : stex S S := λ s, (Ok s, s).

(** [try: m / except Exception as e: raise Exception(f"{prefix}{str(e)}")] *)
Definition st_reraise {S A} (prefix : string) (m : stex S A) : stex S A :=
  λ s, let '(r, s') := m s in (reraise prefix r, s').

(** [l[:n]] for a Python [int] [n]: a negative [n] counts from the end. *)
Definition slice_to {A} (l : list A) (n : Z) : list A :=
  if (0 <=? n)%Z then take (Z.to_nat n) l
  else take (length l - Z.to_nat (- n)) l.

(** [round(x, ndigits)]: to the nearest multiple of [10^-ndigits], ties to
    the even one. *)
Definition round_half_even (q : Q) : Z :=
  let f := Qfloor q in
  match (q - inject_Z f ?= 1 # 2)%Q with
  | Lt => f
  | Gt => (f + 1)%Z
  | Eq => if Z.even f then f else (f + 1)%Z
  end.

Definition round (q : Q) (ndigits : nat) : Q :=
  Qmake (round_half_even (q * inject_Z (10 ^ Z.of_nat ndigits)))
        (Z.to_pos (10 ^ Z.of_nat ndigits)).

(** [list.sort(key=...)]: a stable sort; equal keys keep their order. *)
Fixpoint insert_by {A} (key : A → Q) (x : A) (l : list A) : list A :=
  match l with
  | [] => [x]
  | y :: l' =>
      if Qle_bool (key x) (key y) then x :: l else y :: insert_by key x l'
  end.

Definition sort_by {A} (key : A → Q) (l : list A) : list A :=
  foldr (insert_by key) [] l.

(** The order a list sorted with [key] is in. *)
Definition by_key {A} (key : A → Q) (a b : A) : Prop := (key a <= key b)%Q.

End Py.

#[global] Instance res_ret : MRet Py.res := @Py.Ok.
#[global] Instance res_bind : MBind Py.res := λ A B k r, Py.bind r k.
#[global] Instance stex_ret {S} : MRet (Py.stex S) := @Py.st_ret S.
#[global] Instance stex_bind {S} : MBind (Py.stex S) :=
  λ A B k m, Py.st_bind m k.

(** ** Geometries *)
Module Shapely.

(** A GeoJSON geometry: coordinates are (longitude, latitude). *)
Inductive geometry :=
| Point (x y : Q)
| LineString (coords : list (Q * Q))
| Polygon (rings : list (list (Q * Q))).

#[global] Instance Q_eq_dec : EqDecision Q.
Proof. solve_decision. Defined.

#[global] Instance geometry_eq_dec : EqDecision geometry.
Proof. solve_decision. Defined.

(** The operations of shapely the services call on a geometry. *)
Class Ops := {
  centroid : geometry → Q * Q;
  area : geometry → Q;
  length : geometry → Q;
  bounds : geometry → Q * Q * Q * Q;
  is_empty : geometry → bool;
  is_valid : geometry → bool;
  buffer : geometry → Q → geometry
}.

End Shapely.

(** ** spatial_analysis.py *)
Module SpatialAnalysis.
Import Py.
Abbreviation geometry := Shapely.geometry.

(** One row of [self.gdf]: the feature's properties, its geometry and the
    centroid columns [load_data] adds.  The centroid coordinates are
    finite, as the data model requires of every feature. *)
Record row := Row {
  props : gmap string value;
  geom : geometry;
  centroid_lat : Q;
  centroid_lon : Q
}.

(** [self.gdf]: [None] before any load, else the rows in index order
    (a [RangeIndex]: the index label of a row is its position). *)
Record analyzer := Analyzer { gdf : option (list row) }.

(** The frame's property columns are the keys some feature carries. *)
Definition has_column (rows : list row) (k : string) : bool :=
  existsb (λ r, bool_decide (is_Some (props r !! k))) rows.

(** [row[k]] for an existing column: a feature without the key holds NaN. *)
Definition cell (r : row) (k : string) : value :=
  default VNaN (props r !! k).

(** [row.get(k, dflt)] *)
Definition row_get (rows : list row) (r : row) (k : string) (dflt : value)
  : value :=
  if has_column rows k then cell r k else dflt.

(** An element of the list [find_nearest_landmarks] returns. *)
Record nearest := Nearest {
  near_id : value;
  near_name : value;
  near_description : value;
  near_type : value;
  distance_km : Q;
  geometry_of : geometry;
  properties : row
}.

Record cluster_stat := ClusterStat {
  count : nat;
  cluster_centroid_lat : Q;
  cluster_centroid_lon : Q;
  landmarks : list value
}.

Record clustering := Clustering {
  labels : list Z;
  cluster_stats : gmap Z cluster_stat;
  method_used : string;
  n_clusters_found : nat
}.

(** A grid cell: the square with lower-left corner [(cell_lon, cell_lat)]. *)
Record density_cell := DensityCell {
  cell_id : nat;
  cell_lon : Q;
  cell_lat : Q;
  landmark_count : nat;
  density : Q;
  center_lat : Q;
  center_lon : Q
}.

Record density_report := DensityReport {
  density_data : list density_cell;
  max_density : Q;
  total_cells : nat;
  occupied_cells : nat
}.

Record accessibility := Accessibility {
  landmark_id : value;
  landmark_name : value;
  avg_distance_km : Q;
  min_distance_km : Q;
  max_distance_km : Q;
  avg_travel_time_hours : Q;
  min_travel_time_hours : Q;
  max_travel_time_hours : Q;
  accessibility_score : Q
}.

Record accessibility_report := AccessibilityReport {
  accessibility_data : list accessibility;
  most_accessible : accessibility;
  least_accessible : accessibility
}.

Definition landmark_label (idx : nat) : value :=
  VStr ("Landmark " +:+ pretty idx).

Section Analyzer.
Local Open Scope Q_scope.
(** [geodesic((lat1, lon1), (lat2, lon2)).kilometers] of geopy. *)
Variable geodesic : Q * Q → Q * Q → Q.

Definition nearest_entry (rows : list row) (lat lon : Q)
           (idx : nat) (r : row) : nearest :=
  let d := geodesic (lat, lon) (centroid_lat r, centroid_lon r) in
  {| near_id := row_get rows r "id" (VInt (Z.of_nat idx));
     near_name := row_get rows r "name" (landmark_label idx);
     near_description := row_get rows r "description" (VStr "");
     near_type := row_get rows r "type" (VStr "unknown");
     distance_km := round d 2;
     geometry_of := geom r;
     properties := r |}.

Definition find_nearest_landmarks (self : analyzer) (lat lon : Q) (n : Z)
  : list nearest :=
  match gdf self with
  | None => []
  | Some rows =>
      let distances := imap (nearest_entry rows lat lon) rows in
      slice_to (sort_by distance_km distances) n
  end.

(** *** density_analysis *)

Definition Qlt_bool (a b : Q) : bool := negb (Qle_bool b a).
Definition qmin (a b : Q) : Q := if Qle_bool a b then a else b.
Definition qmax (a b : Q) : Q := if Qle_bool a b then b else a.

(** [self.gdf[col].min()] and [.max()]; the frame of an empty load has
    no centroid columns, and [k] is what the [KeyError] prints. *)
Definition column_min (col : row → Q) (k : string) (rows : list row)
  : res Q :=
  match rows with
  | [] => Err (Raise KeyError k)
  | r :: rs => Ok (foldr qmin (col r) (map col rs))
  end.

Definition column_max (col : row → Q) (k : string) (rows : list row)
  : res Q :=
  match rows with
  | [] => Err (Raise KeyError k)
  | r :: rs => Ok (foldr qmax (col r) (map col rs))
  end.

(** [np.arange(start, stop, step)]: [start + i * step] for
    [0 <= i < ceil((stop - start) / step)]. *)
Definition arange (start stop step : Q) : res (list Q) :=
  if Qeq_bool step 0
  then Err (Raise ValueError "Maximum allowed size exceeded")
  else Ok (map (λ i : nat, start + inject_Z (Z.of_nat i) * step)%Q
               (seq 0 (Z.to_nat (Qceiling ((stop - start) / step))))).

(** [cell.contains(point)] of shapely, for the square cell with
    lower-left corner [c] and edge [grid_size]: the point lies in the
    interior, the boundary excluded. *)
Definition cell_contains (grid_size : Q) (c : Q * Q) (x y : Q) : bool :=
  Qlt_bool (fst c) x && Qlt_bool x (fst c + grid_size)
  && Qlt_bool (snd c) y && Qlt_bool y (snd c + grid_size).

(** Whether a grid line at [lo] has [x] strictly inside the cell it opens. *)
Definition in_slot (grid_size lo x : Q) : bool :=
  Qlt_bool lo x && Qlt_bool x (lo + grid_size).

Definition grid_cells (min_lon max_lon min_lat max_lat grid_size : Q)
  : res (list (Q * Q)) :=
  lons ← arange min_lon max_lon grid_size;
  lats ← arange min_lat max_lat grid_size;
  mret (flat_map (λ lon, map (λ lat, (lon, lat)) lats) lons).

(** The landmarks whose centroid the cell contains; the centroid of the
    geometry is what the centroid columns hold. *)
Definition count_in_cell (grid_size : Q) (rows : list row) (c : Q * Q)
  : nat :=
  length (List.filter
            (λ r, cell_contains grid_size c (centroid_lon r) (centroid_lat r))
            rows).

Definition density_entry (grid_size : Q) (rows : list row)
           (i : nat) (c : Q * Q) : option density_cell :=
  let n := count_in_cell grid_size rows c in
  if (0 <? n)%nat
  then Some {| cell_id := i;
               cell_lon := fst c;
               cell_lat := snd c;
               landmark_count := n;
               density := inject_Z (Z.of_nat n) / (grid_size * grid_size);
               center_lat := snd c + grid_size / 2;
               center_lon := fst c + grid_size / 2 |}
  else None.

Definition density_analysis (self : analyzer) (grid_size : Q)
  : res (option density_report) :=
  match gdf self with
  | None => Ok None
  | Some rows =>
      min_lon ← column_min centroid_lon "'centroid_lon'" rows;
      max_lon ← column_max centroid_lon "'centroid_lon'" rows;
      min_lat ← column_min centroid_lat "'centroid_lat'" rows;
      max_lat ← column_max centroid_lat "'centroid_lat'" rows;
      cells ← grid_cells min_lon max_lon min_lat max_lat grid_size;
      let data := omap id (imap (density_entry grid_size rows) cells) in
      mret (Some {| density_data := data;
                    max_density := foldr qmax 0 (map density data);
                    total_cells := length cells;
                    occupied_cells := length data |})
  end.

(** *** accessibility_analysis *)

Definition Qsum (l : list Q) : Q := foldr Qplus 0 l.

(** [np.mean], [np.min], [np.max] guarded by [if distances else 0]. *)
Definition mean_or_0 (l : list Q) : Q :=
  match l with
  | [] => 0
  | _ => Qsum l / inject_Z (Z.of_nat (length l))
  end.

Definition min_or_0 (l : list Q) : Q :=
  match l with [] => 0 | d :: ds => foldr qmin d ds end.

Definition max_or_0 (l : list Q) : Q :=
  match l with [] => 0 | d :: ds => foldr qmax d ds end.

(** The distances from row [idx] to every row with another index. *)
Definition distances_to_others (rows : list row) (idx : nat) (r : row)
  : list Q :=
  omap id
    (imap (λ other_idx other,
             if decide (idx = other_idx) then None
             else Some (geodesic (centroid_lat r, centroid_lon r)
                                 (centroid_lat other, centroid_lon other)))
          rows).

(** The entry of one landmark.  The travel times divide by the speed with
    [Q]'s total division. *)
Definition accessibility_entry (rows : list row) (transport_speed : Q)
           (idx : nat) (r : row) : accessibility :=
  let distances := distances_to_others rows idx r in
  let avg_distance := mean_or_0 distances in
  let min_distance := min_or_0 distances in
  let max_distance := max_or_0 distances in
  {| landmark_id := row_get rows r "id" (VInt (Z.of_nat idx));
     landmark_name := row_get rows r "name" (landmark_label idx);
     avg_distance_km := round avg_distance 2;
     min_distance_km := round min_distance 2;
     max_distance_km := round max_distance 2;
     avg_travel_time_hours := round (avg_distance / transport_speed) 2;
     min_travel_time_hours := round (min_distance / transport_speed) 2;
     max_travel_time_hours := round (max_distance / transport_speed) 2;
     accessibility_score := round (1 / (avg_distance + 1)) 4 |}.

(** [max(l, key=...)] and [min(l, key=...)]: the first extremal element;
    [ValueError] on an empty list. *)
Definition max_by {A} (key : A → Q) (l : list A) : res A :=
  match l with
  | [] => Err (Raise ValueError "max() arg is an empty sequence")
  | x :: xs =>
      Ok (foldl (λ best y, if Qlt_bool (key best) (key y) then y else best)
                x xs)
  end.

Definition min_by {A} (key : A → Q) (l : list A) : res A :=
  match l with
  | [] => Err (Raise ValueError "min() arg is an empty sequence")
  | x :: xs =>
      Ok (foldl (λ best y, if Qlt_bool (key y) (key best) then y else best)
                x xs)
  end.

Definition accessibility_analysis (self : analyzer) (transport_speed : Q)
  : res (option accessibility_report) :=
  match gdf self with
  | None => Ok None
  | Some rows =>
      let data := imap (accessibility_entry rows transport_speed) rows in
      most ← max_by accessibility_score data;
      least ← min_by accessibility_score data;
      mret (Some {| accessibility_data := data;
                    most_accessible := most;
                    least_accessible := least |})
  end.

(** The position of a row as GeoJSON writes it: (longitude, latitude). *)
Definition lonlat (r : row) : Q * Q := (centroid_lon r, centroid_lat r).

(** What the accessibility property uses of geopy's WGS-84 geodesic: between
    points of the equator at longitudes 0, 1 and 2 degrees, a degree is
    between 110 and 112 km (111.32 km on the ellipsoid). *)
Definition degree_envelope : Prop :=
  ∀ a b : Q, a ∈ [0; 1; 2] → b ∈ [0; 1; 2] →
    110 * Qabs (a - b) <= geodesic (0, a) (0, b) <= 112 * Qabs (a - b).

(** *** spatial_clustering *)

Inductive clusterer :=
| KMeans (n_clusters : Z)
| DBSCAN
| AgglomerativeClustering (n_clusters : Z).

(** What numpy and scikit-learn make of the coordinates.  The comprehension
    of the source builds one entry [[lon, [lat]]] per row, the latitude
    nested in a list of its own; [fit_transform] stands for
    [np.array(...).reshape(-1, 2)] followed by
    [StandardScaler().fit_transform], [fit_predict] for
    [clusterer.fit_predict].  Either may raise. *)
Variable fit_transform : list (Q * list Q) → res (list (Q * Q)).
Variable fit_predict : clusterer → list (Q * Q) → res (list Z).

Definition clusterer_of (method : string) (n_clusters : Z)
  : res clusterer :=
  if String.eqb method "kmeans" then Ok (KMeans n_clusters)
  else if String.eqb method "dbscan" then Ok DBSCAN
  else if String.eqb method "hierarchical"
       then Ok (AgglomerativeClustering n_clusters)
  else Err (Raise ValueError
              "Method must be 'kmeans', 'dbscan', or 'hierarchical'").

(** [self.gdf['cluster'] = labels] *)
Definition set_cluster (r : row) (label : Z) : row :=
  {| props := <["cluster" := VInt label]> (props r);
     geom := geom r;
     centroid_lat := centroid_lat r;
     centroid_lon := centroid_lon r |}.

Definition assign_cluster (rows : list row) (labels : list Z)
  : res (list row) :=
  if decide (length labels = length rows)
  then Ok (zip_with set_cluster rows labels)
  else Err (Raise ValueError
              "Length of values does not match length of index").

(** [np.unique]: the distinct labels in increasing order. *)
Definition unique (labels : list Z) : list Z :=
  remove_dups (merge_sort Z.le labels).

(** [self.gdf[self.gdf['cluster'] == cluster_id]] *)
Definition in_cluster (cluster_id : Z) (r : row) : bool :=
  match cell r "cluster" with
  | VInt z => (z =? cluster_id)%Z
  | _ => false
  end.

Definition cluster_stat_of (rows : list row) (cluster_id : Z)
  : res cluster_stat :=
  let cluster_data := List.filter (in_cluster cluster_id) rows in
  if has_column rows "name"
  then Ok {| count := length cluster_data;
             cluster_centroid_lat :=
               Qsum (map centroid_lat cluster_data)
               / inject_Z (Z.of_nat (length cluster_data));
             cluster_centroid_lon :=
               Qsum (map centroid_lon cluster_data)
               / inject_Z (Z.of_nat (length cluster_data));
             landmarks := map (λ r, cell r "name") cluster_data |}
  else Err (Raise KeyError "'name'").

(** The loop over [np.unique(labels)]; the noise label is skipped. *)
Fixpoint cluster_statistics (rows : list row) (ids : list Z)
         (cluster_stats : gmap Z cluster_stat)
  : res (gmap Z cluster_stat) :=
  match ids with
  | [] => Ok cluster_stats
  | cluster_id :: ids' =>
      if (cluster_id =? -1)%Z
      then cluster_statistics rows ids' cluster_stats
      else
        st ← cluster_stat_of rows cluster_id;
        cluster_statistics rows ids' (<[cluster_id := st]> cluster_stats)
  end.

(** The result, and the analyzer whose frame holds the new [cluster]
    column once the labels are assigned. *)
Definition spatial_clustering (self : analyzer) (method : string)
           (n_clusters : Z) : res (option clustering) * analyzer :=
  match gdf self with
  | None => (Ok None, self)
  | Some rows =>
      let coords := map (λ r, (centroid_lon r, [centroid_lat r])) rows in
      let fitted :=
        coords_scaled ← fit_transform coords;
        cl ← clusterer_of method n_clusters;
        labels ← fit_predict cl coords_scaled;
        rows' ← assign_cluster rows labels;
        mret (labels, rows') in
      match fitted with
      | Err e => (Err e, self)
      | Ok (labels, rows') =>
          (stats ← cluster_statistics rows' (unique labels) ∅;
           mret (Some {| labels := labels;
                         cluster_stats := stats;
                         method_used := method;
                         n_clusters_found := length (unique labels) |}),
           {| gdf := Some rows' |})
      end
  end.

End Analyzer.

(** [np.array(coords).reshape(-1, 2)] followed by
    [StandardScaler().fit_transform], on the [coords] that
    [spatial_clustering] builds.  Every entry of [coords] is [[lon, [lat]]],
    a number beside a list, which cannot be laid out as a matrix of
    numbers: [np.array] raises [ValueError]; a numpy that builds an array
    of objects instead leaves the [ValueError] to the scaler, which also
    rejects the empty array of a frame without rows.  [message] is the text
    the installed versions print. *)
Definition np_array_fit_transform (message : list (Q * list Q) → string)
           (coords : list (Q * list Q)) : res (list (Q * Q)) :=
  Err (Raise ValueError (message coords)).

End SpatialAnalysis.

(** ** ml_models.py *)
Module MLModels.
Import Py.
Abbreviation geometry := Shapely.geometry.

(** A row of the [GeoDataFrame] a caller passes in; its geometry may be
    missing. *)
Record row := Row {
  geom : option geometry;
  props : gmap string value
}.

(** ['k' in gdf.columns] *)
Definition has_column (gdf : list row) (k : string) : bool :=
  existsb (λ r, bool_decide (is_Some (props r !! k))) gdf.

Definition cell (r : row) (k : string) : value :=
  default VNaN (props r !! k).

(** The estimators of scikit-learn and what the trainer calls on them.
    [estimator] is any fitted object: a model, a scaler or a label encoder. *)
Class Sklearn := {
  estimator : Type;
  metrics : Type;
  (** [train_test_split(X, y, test_size=0.2, random_state=42)] followed by
      [StandardScaler().fit_transform(X_train)] and [transform(X_test)]:
      the scaler and the scaled split. *)
  split_and_scale :
    list (list Q) → list Q →
    res (estimator * (list (list Q) * list (list Q) * list Q * list Q));
  (** [model.fit], [model.predict] on the test part and the scores, for the
      regressor of the given name. *)
  fit_regressor :
    string → list (list Q) * list (list Q) * list Q * list Q →
    res (estimator * metrics);
  (** [StandardScaler().fit_transform(features)] *)
  fit_scaler : list (list Q) → res (estimator * list (list Q));
  (** [model.fit_predict] and the silhouette score, for the clusterer of
      the given name. *)
  fit_clusterer : string → list (list Q) → res (estimator * metrics);
  (** [LabelEncoder().fit_transform(target)]: the encoder, the codes and
      [encoder.classes_]. *)
  fit_encoder : list value → res (estimator * list Q * list value);
  (** [RandomForestClassifier.fit] and the accuracy on the test part. *)
  fit_classifier :
    list (list Q) * list (list Q) * list Q * list Q → res (estimator * Q);
  (** [scaler.transform] and [model.predict(...)[0]] on one vector. *)
  transform : estimator → list Q → res (list Q);
  predict_one : estimator → list Q → res Q;
  (** [model.predict_proba(...)[0]], for a model that has the method. *)
  predict_proba : estimator → option (list Q → res (list Q));
  has_feature_importances : estimator → bool;
  sqrt : Q → Q
}.

Section Predictor.
Context `{SK : Sklearn} `{SH : Shapely.Ops}.
Local Open Scope Q_scope.

(** [self.models], [self.scalers], [self.encoders] and [self.model_path]. *)
Record predictor := Predictor {
  models : gmap string estimator;
  scalers : gmap string estimator;
  encoders : gmap string estimator;
  model_path : string
}.

(** The files under [model_path]: a pickled object, or [None] for a file
    [joblib.load] cannot read. *)
Abbreviation disk := (gmap string (option estimator)).

Inductive training_result :=
| AccessibilityTraining (training_samples test_samples : nat)
                        (results : list (string * metrics))
| ClusteringTraining (training_samples : nat)
                     (results : list (string * metrics))
| ClassificationTraining (training_samples test_samples : nat)
                         (accuracy : Q) (classes : list value).

Record prediction := Prediction {
  predicted : Q;
  confidence : Q;
  model_type : string;
  features_used : nat
}.

Definition set_model (self : predictor) (k : string) (m : estimator)
  : predictor :=
  {| models := <[k := m]> (models self); scalers := scalers self;
     encoders := encoders self; model_path := model_path self |}.

Definition set_scaler (self : predictor) (k : string) (m : estimator)
  : predictor :=
  {| models := models self; scalers := <[k := m]> (scalers self);
     encoders := encoders self; model_path := model_path self |}.

Definition set_encoder (self : predictor) (k : string) (m : estimator)
  : predictor :=
  {| models := models self; scalers := scalers self;
     encoders := <[k := m]> (encoders self); model_path := model_path self |}.

Definition pkl (self : predictor) (model_type kind : string) : string :=
  model_path self +:+ "/" +:+ model_type +:+ "_" +:+ kind +:+ ".pkl".

(** [joblib.dump(obj, path)] *)
Definition dump (fs : disk) (path : string) (obj : estimator) : disk :=
  <[path := Some obj]> fs.

(** *** _prepare_spatial_features *)
Definition italy_center : Q * Q := (12.5674, 41.8719).

Definition feature_vector (r : row) : res (list Q) :=
  match geom r with
  | None =>
      Err (Raise AttributeError "'NoneType' object has no attribute 'area'")
  | Some g =>
      let c := Shapely.centroid g in
      let '(min_x, min_y, max_x, max_y) := Shapely.bounds g in
      Ok [fst c; snd c; Shapely.area g; Shapely.length g;
          min_x; min_y; max_x; max_y;
          sqrt ((fst c - fst italy_center) ^ 2
                + (snd c - snd italy_center) ^ 2)]
  end.

Definition _prepare_spatial_features (gdf : list row) : res (list (list Q)) :=
  traverse feature_vector gdf.

(** *** _calculate_accessibility_scores *)
Definition centroid_of (r : row) : res (Q * Q) :=
  match geom r with
  | None =>
      Err (Raise AttributeError
             "'NoneType' object has no attribute 'centroid'")
  | Some g => Ok (Shapely.centroid g)
  end.

Definition planar_distance (a b : Q * Q) : Q :=
  sqrt ((fst a - fst b) ^ 2 + (snd a - snd b) ^ 2).

Definition Qsum (l : list Q) : Q := foldr Qplus 0 l.

Definition accessibility_score (cs : list (Q * Q)) (idx : nat) (c : Q * Q)
  : Q :=
  let distances :=
    omap id (imap (λ other_idx o,
                     if decide (idx = other_idx) then None
                     else Some (planar_distance c o)) cs) in
  match distances with
  | [] => 0
  | _ =>
      let avg_distance :=
        Qsum distances / inject_Z (Z.of_nat (List.length distances)) in
      1 / (avg_distance + 1)
  end.

Definition _calculate_accessibility_scores (gdf : list row) : res (list Q) :=
  cs ← traverse centroid_of gdf;
  mret (imap (accessibility_score cs) cs).

(** *** Training *)
Abbreviation M := (stex (predictor * disk)).

(** [self.models[k] = model; self.scalers[k] = scaler] and the two
    [joblib.dump] calls. *)
Definition save_model (k : string) (model scaler : estimator) : M unit :=
  modify (λ '(self, fs),
    let self := set_scaler (set_model self k model) k scaler in
    (self, dump (dump fs (pkl self k "model") model)
                (pkl self k "scaler") scaler)).

Definition save_encoder (k : string) (encoder : estimator) : M unit :=
  modify (λ '(self, fs),
    let self := set_encoder self k encoder in
    (self, dump fs (pkl self k "encoder") encoder)).

Definition _train_accessibility_model (gdf : list row) : M training_result :=
  st_reraise "Accessibility model training failed: " (
    features ← lift (_prepare_spatial_features gdf);
    accessibility_scores ← lift (_calculate_accessibility_scores gdf);
    '(scaler, split) ← lift (split_and_scale features accessibility_scores);
    '(rf, rf_metrics) ← lift (fit_regressor "random_forest" split);
    _ ← save_model "accessibility" rf scaler;
    '(_, gb_metrics) ← lift (fit_regressor "gradient_boosting" split);
    mret (AccessibilityTraining
            (List.length features) (List.length (split.1.1.2))
            [("random_forest", rf_metrics);
             ("gradient_boosting", gb_metrics)])).

Definition _train_clustering_model (gdf : list row) : M training_result :=
  st_reraise "Clustering model training failed: " (
    features ← lift (_prepare_spatial_features gdf);
    '(scaler, features_scaled) ← lift (fit_scaler features);
    '(kmeans, kmeans_metrics) ← lift (fit_clusterer "kmeans" features_scaled);
    _ ← save_model "clustering" kmeans scaler;
    '(_, dbscan_metrics) ← lift (fit_clusterer "dbscan" features_scaled);
    mret (ClusteringTraining
            (List.length features)
            [("kmeans", kmeans_metrics); ("dbscan", dbscan_metrics)])).

Definition _train_classification_model (gdf : list row) : M training_result :=
  st_reraise "Classification model training failed: " (
    features ← lift (_prepare_spatial_features gdf);
    target ← lift (if has_column gdf "type"
                   then Ok (map (λ r, cell r "type") gdf)
                   else Err (Raise ValueError
                               "'type' column not found for classification"));
    '(encoder, target_encoded, classes) ← lift (fit_encoder target);
    '(scaler, split) ← lift (split_and_scale features target_encoded);
    '(model, accuracy) ← lift (fit_classifier split);
    _ ← save_model "classification" model scaler;
    _ ← save_encoder "classification" encoder;
    mret (ClassificationTraining
            (List.length features) (List.length (split.1.1.2))
            accuracy classes)).

Definition train_model (gdf : list row) (model_type : string)
  : M training_result :=
  st_reraise "Model training failed: " (
    if String.eqb model_type "accessibility"
    then _train_accessibility_model gdf
    else if String.eqb model_type "clustering"
    then _train_clustering_model gdf
    else if String.eqb model_type "classification"
    then _train_classification_model gdf
    else lift (Err (Raise ValueError
                      ("Unsupported model type: " +:+ model_type)))).

(** *** _load_model and predict *)

(** [if os.path.exists(path): store(joblib.load(path))]: [None] when the
    load raises. *)
Definition load_into (store : predictor → estimator → predictor)
           (fs : disk) (path : string) (self : predictor)
  : option predictor :=
  match fs !! path with
  | None => Some self
  | Some (Some obj) => Some (store self obj)
  | Some None => None
  end.

(** The exception of a failed load is caught and printed: what was loaded
    before it stays. *)
Definition _load_model (model_type : string) : M unit :=
  modify (λ '(self, fs),
    (match load_into (λ p, set_model p model_type) fs
                     (pkl self model_type "model") self with
     | None => self
     | Some self1 =>
         match load_into (λ p, set_scaler p model_type) fs
                         (pkl self model_type "scaler") self1 with
         | None => self1
         | Some self2 =>
             if String.eqb model_type "classification"
             then default self2
                    (load_into (λ p, set_encoder p model_type) fs
                               (pkl self model_type "encoder") self2)
             else self2
         end
     end, fs)).

Definition confidence_of (model : estimator) (features_scaled : list Q)
  : res Q :=
  match predict_proba model with
  | Some proba =>
      probabilities ← proba features_scaled;
      mret (foldr (λ a b, if Qle_bool a b then b else a) 0 probabilities)
  | None => Ok (if has_feature_importances model then 0.8 else 0.0)
  end.

Definition predict (features : list Q) (model_type : string) : M prediction :=
  st_reraise "Prediction failed: " (
    '(self, _) ← get;
    _ ← (if decide (is_Some (models self !! model_type)) then mret tt
         else _load_model model_type);
    '(self, _) ← get;
    match models self !! model_type with
    | None =>
        lift (Err (Raise ValueError
                     ("Model '" +:+ model_type +:+ "' not found or trained")))
    | Some model =>
        features_scaled ← lift (match scalers self !! model_type with
                                | Some scaler => transform scaler features
                                | None => Ok features
                                end);
        p ← lift (predict_one model features_scaled);
        c ← lift (confidence_of model features_scaled);
        mret {| predicted := p; confidence := c; model_type := model_type;
                features_used := List.length features |}
    end).

End Predictor.

End MLModels.

(** ** database_integration.py *)
Module DatabaseIntegration.
Import Py.
Abbreviation geometry := Shapely.geometry.

(** A row of the table [geospatial_data]; the key is its [id]. *)
Record landmark := Landmark {
  name : string;
  description : option string;
  landmark_type : option string;
  geom : option geometry;
  properties : option (gmap string value);
  created_at : Z;
  updated_at : Z
}.

(** The assignments of an [UPDATE ... SET] clause. *)
Inductive assignment :=
| SetName (v : string)
| SetDescription (v : string)
| SetLandmarkType (v : string)
| SetGeometry (wkt : string)
| SetProperties (v : gmap string value)
| SetUpdatedAt.

(** The statements [update_landmark] and [delete_landmark] send. *)
Inductive statement :=
| Update (update_fields : list assignment) (landmark_id : Z)
| Delete (landmark_id : Z).

(** [self.connection] of psycopg2: [None], or a connection that is open or
    closed. *)
Inductive connection := Open | Closed.

(** The wrapper's connection and the database behind it: whether the server
    accepts connections, the table, the server clock and the statements
    executed so far, newest first. *)
Record db := Db {
  conn : option connection;
  server_up : bool;
  geospatial_data : gmap Z landmark;
  now : Z;
  executed : list statement
}.

Definition with_conn (st : db) (c : option connection) : db :=
  {| conn := c; server_up := server_up st;
     geospatial_data := geospatial_data st; now := now st;
     executed := executed st |}.

(** [connect]: a failure is logged and leaves [self.connection = None]. *)
Definition connect (st : db) : db :=
  with_conn st (if server_up st then Some Open else None).

(** [get_connection]: reconnects when there is no open connection. *)
Definition get_connection (st : db) : db :=
  match conn st with
  | Some Open => st
  | _ => connect st
  end.

Section Queries.
(** [ST_GeomFromText(wkt, 4326)] of PostGIS: [None] for text it rejects. *)
Variable ST_GeomFromText : string → option geometry.

Definition assign (clock : Z) (a : assignment) (l : landmark)
  : option landmark :=
  match a with
  | SetName v =>
      Some (Landmark v (description l) (landmark_type l) (geom l)
                     (properties l) (created_at l) (updated_at l))
  | SetDescription v =>
      Some (Landmark (name l) (Some v) (landmark_type l) (geom l)
                     (properties l) (created_at l) (updated_at l))
  | SetLandmarkType v =>
      Some (Landmark (name l) (description l) (Some v) (geom l)
                     (properties l) (created_at l) (updated_at l))
  | SetGeometry wkt =>
      g ← ST_GeomFromText wkt;
      Some (Landmark (name l) (description l) (landmark_type l) (Some g)
                     (properties l) (created_at l) (updated_at l))
  | SetProperties v =>
      Some (Landmark (name l) (description l) (landmark_type l) (geom l)
                     (Some v) (created_at l) (updated_at l))
  | SetUpdatedAt =>
      Some (Landmark (name l) (description l) (landmark_type l) (geom l)
                     (properties l) (created_at l) clock)
  end.

Definition well_formed (a : assignment) : bool :=
  match a with
  | SetGeometry wkt => bool_decide (is_Some (ST_GeomFromText wkt))
  | _ => true
  end.

(** The server's side of [cursor.execute]: the new table and
    [cursor.rowcount], or the message of the error the server reports. *)
Definition run (q : statement) (clock : Z) (table : gmap Z landmark)
  : string + gmap Z landmark * Z :=
  match q with
  | Delete i =>
      match table !! i with
      | Some _ => inr (delete i table, 1%Z)
      | None => inr (table, 0%Z)
      end
  | Update fields i =>
      if forallb well_formed fields
      then match table !! i with
           | Some l =>
               match foldl (λ acc a, acc ≫= assign clock a) (Some l) fields
               with
               | Some l' => inr (<[i := l']> table, 1%Z)
               | None => inl "parse error - invalid geometry"
               end
           | None => inr (table, 0%Z)
           end
      else inl "parse error - invalid geometry"
  end.

(** [cursor.execute] on a connection: a server that is gone closes it. *)
Definition send (q : statement) (st : db) : string + gmap Z landmark * Z :=
  if server_up st then run q (now st) (geospatial_data st)
  else inl "server closed the connection unexpectedly".

Definition after (q : statement) (table : gmap Z landmark) (st : db) : db :=
  {| conn := conn st; server_up := server_up st; geospatial_data := table;
     now := now st; executed := q :: executed st |}.

(** [execute_query(query, params, fetch=False)] for a statement that is not a
    [SELECT]: the row count. *)
Definition execute_query (q : statement) : stex db Z :=
  st_reraise "Database error: " (λ st,
    let st := get_connection st in
    match conn st with
    | None =>
        (Err (Raise AttributeError
                "'NoneType' object has no attribute 'cursor'"), st)
    | Some _ =>
        match send q st with
        | inl msg =>
            (Err (Raise Exception msg),
             if server_up st then st else with_conn st (Some Closed))
        | inr (table, rowcount) => (Ok rowcount, after q table st)
        end
    end).

Definition field {A} (set : A → assignment) (v : option A)
  : list assignment :=
  match v with
  | Some x => [set x]
  | None => []
  end.

Definition update_landmark (landmark_id : Z) (name description : option string)
           (landmark_type geometry_wkt : option string)
           (properties : option (gmap string value)) : stex db bool :=
  st_reraise "Landmark update failed: " (
    let update_fields :=
      (field SetName name ++ field SetDescription description
       ++ field SetLandmarkType landmark_type
       ++ field SetGeometry geometry_wkt
       ++ field SetProperties properties)%list in
    match update_fields with
    | [] => mret false
    | _ =>
        result ← execute_query
                   (Update (update_fields ++ [SetUpdatedAt])%list landmark_id);
        mret (0 <? result)%Z
    end).

Definition delete_landmark (landmark_id : Z) : stex db bool :=
  st_reraise "Landmark deletion failed: " (
    result ← execute_query (Delete landmark_id);
    mret (0 <? result)%Z).

End Queries.

End DatabaseIntegration.

(** ** app.py: the DELETE route *)
Module App.
Import Py.
Import DatabaseIntegration.

(** [HTTPException(status_code, detail)] of FastAPI. *)
Record http_exn := HTTPException { status_code : Z; detail : string }.

(** [str(e)] of an [HTTPException]. *)
Definition http_str (e : http_exn) : string :=
  pretty (status_code e) +:+ ": " +:+ detail e.

(** What a route answers: a JSON body, or the exception it raises. *)
Inductive response (A : Type) :=
| Returns (body : A)
| Raises (e : http_exn).
Arguments Returns {A} body.
Arguments Raises {A} e.

(** A WebSocket client; [send_json] fails on one that is gone. *)
Record websocket := WebSocket { ws_id : nat; ws_alive : bool }.

#[global] Instance websocket_eq_dec : EqDecision websocket.
Proof. solve_decision. Defined.

Inductive event :=
| LandmarkDeleted (landmark_id : Z).

(** The process: the database manager's connection and database, the
    connection manager's clients, and the events delivered so far. *)
Record app := AppState {
  database : db;
  active_connections : list websocket;
  delivered : list (nat * event)
}.

(** [list.remove(x)]: drops the first element equal to [x]. *)
Fixpoint list_remove (x : websocket) (l : list websocket) : list websocket :=
  match l with
  | [] => []
  | y :: l' => if decide (x = y) then l' else y :: list_remove x l'
  end.

(** The [for connection in self.active_connections] loop of [broadcast]:
    the iterator is at position [i] of the list, which shrinks under it
    when a client is removed. *)
Fixpoint broadcast_from (fuel i : nat) (message : event)
         (conns : list websocket) (sent : list (nat * event))
  : list websocket * list (nat * event) :=
  match fuel with
  | O => (conns, sent)
  | S fuel' =>
      match conns !! i with
      | None => (conns, sent)
      | Some c =>
          if ws_alive c
          then broadcast_from fuel' (S i) message conns
                              ((ws_id c, message) :: sent)
          else broadcast_from fuel' (S i) message (list_remove c conns) sent
      end
  end.

Definition broadcast (message : event) (st : app) : app :=
  let '(conns, sent) :=
    broadcast_from (length (active_connections st)) 0 message
                   (active_connections st) (delivered st) in
  {| database := database st; active_connections := conns;
     delivered := sent |}.

Section Routes.
Variable ST_GeomFromText : string → option geometry.

(** [DatabaseManager.execute_query]: one statement, as the wrapper's, but a
    failure is an [HTTPException] with status 500.  This connection has no
    autocommit: once the server has rejected a statement its transaction is
    aborted, which the state does not record. *)
Definition execute_query (q : statement) (st : app) : response Z * app :=
  let d := get_connection (database st) in
  let st' r := {| database := r; active_connections := active_connections st;
                  delivered := delivered st |} in
  match conn d with
  | None =>
      (Raises (HTTPException 500
         "Database error: 'NoneType' object has no attribute 'cursor'"),
       st' d)
  | Some _ =>
      match send ST_GeomFromText q d with
      | inl msg =>
          (Raises (HTTPException 500 ("Database error: " +:+ msg)),
           st' (if server_up d then d else with_conn d (Some Closed)))
      | inr (table, rowcount) => (Returns rowcount, st' (after q table d))
      end
  end.

(** [except Exception as e: raise HTTPException(500, f"...{str(e)}")] *)
Definition failed_to_delete {A} (r : response A) : response A :=
  match r with
  | Returns body => Returns body
  | Raises e =>
      Raises (HTTPException 500 ("Failed to delete landmark: " +:+ http_str e))
  end.

(** [DELETE /api/landmarks/{landmark_id}] *)
Definition delete_landmark (landmark_id : Z) (st : app)
  : response string * app :=
  match execute_query (Delete landmark_id) st with
  | (Raises e, st1) => (failed_to_delete (Raises e), st1)
  | (Returns result, st1) =>
      if (result =? 0)%Z
      then (failed_to_delete
              (Raises (HTTPException 404 "Landmark not found")), st1)
      else (Returns "Landmark deleted successfully",
            broadcast (LandmarkDeleted landmark_id) st1)
  end.

End Routes.

End App.

(** ** data_processor.py: clean_data *)
Module DataProcessor.
Import Py.
Abbreviation geometry := Shapely.geometry.

(** A feature of [data['features']], which is also a row of the frame
    [GeoDataFrame.from_features] builds; the geometry may be null. *)
Record feature := Feature {
  geom : option geometry;
  properties : gmap string value
}.

Record report := Report {
  original_count : nat;
  issues_found : list string;
  fixes_applied : list string;
  final_count : nat
}.

(** [self.cleaning_report]: the empty dict until [clean_data] first runs. *)
Record processor := Processor { cleaning_report : option report }.

(** What [clean_data] uses of pandas on a column. *)
Class Pandas := {
  (** [series.dtype == 'object'] *)
  is_object_dtype : list value → bool;
  (** [str(v)], cell by cell, as [astype(str)] does *)
  astype_str : value → string;
  (** [str.strip] *)
  strip : string → string
}.

Section Clean.
Context `{SH : Shapely.Ops} `{PD : Pandas}.

(** The property columns: every key some feature carries. *)
Definition columns (gdf : list feature) : list string :=
  elements (⋃ (map (λ f, dom (properties f)) gdf) : gset string).

Definition cell (f : feature) (col : string) : value :=
  default VNaN (properties f !! col).

Definition set_cell (col : string) (f : feature) (v : value) : feature :=
  {| geom := geom f; properties := <[col := v]> (properties f) |}.

Definition set_report (r : report) : stex processor unit :=
  modify (λ _, {| cleaning_report := Some r |}).

(** The two [append] calls of a cleaning step. *)
Definition note (issue applied : string) : stex processor unit :=
  modify (λ self,
    {| cleaning_report :=
         (λ r, {| original_count := original_count r;
                  issues_found := (issues_found r ++ [issue])%list;
                  fixes_applied := (fixes_applied r ++ [applied])%list;
                  final_count := final_count r |}) <$> cleaning_report self |}).

Definition note_fix (applied : string) : stex processor unit :=
  modify (λ self,
    {| cleaning_report :=
         (λ r, {| original_count := original_count r;
                  issues_found := issues_found r;
                  fixes_applied := (fixes_applied r ++ [applied])%list;
                  final_count := final_count r |}) <$> cleaning_report self |}).

Definition set_final_count (n : nat) : stex processor unit :=
  modify (λ self,
    {| cleaning_report :=
         (λ r, {| original_count := original_count r;
                  issues_found := issues_found r;
                  fixes_applied := fixes_applied r;
                  final_count := n |}) <$> cleaning_report self |}).

(** [gdf.geometry.isna() | gdf.geometry.is_empty] *)
Definition missing_or_empty (f : feature) : bool :=
  match geom f with
  | None => true
  | Some g => Shapely.is_empty g
  end.

(** [~gdf.geometry.is_valid] *)
Definition invalid (f : feature) : bool :=
  match geom f with
  | None => true
  | Some g => negb (Shapely.is_valid g)
  end.

(** [gdf.loc[invalid_geoms, 'geometry'] = ....buffer(0)] *)
Definition fix_geometry (f : feature) : feature :=
  if invalid f
  then {| geom := (λ g, Shapely.buffer g 0) <$> geom f;
          properties := properties f |}
  else f.

(** [gdf.geometry.duplicated()]: the mask of the rows whose geometry an
    earlier row has. *)
Fixpoint duplicated (seen : list (option geometry)) (gdf : list feature)
  : list bool :=
  match gdf with
  | [] => []
  | f :: gdf' =>
      if bool_decide (geom f ∈ seen) then true :: duplicated seen gdf'
      else false :: duplicated (geom f :: seen) gdf'
  end.

(** [gdf[~mask]] *)
Definition drop (mask : list bool) (gdf : list feature) : list feature :=
  fst <$> List.filter (λ fm, negb (snd fm)) (zip gdf mask).

Definition fillna (v : value) : value :=
  match v with
  | VNaN | VNone => VStr "Unknown"
  | _ => v
  end.

Definition clean_column (col : string) (vals : list value) : list value :=
  let vals :=
    if bool_decide (col ∈ ["name"; "type"; "description"])
    then map fillna vals else vals in
  if is_object_dtype vals
  then map (λ v, VStr (strip (astype_str v))) vals
  else vals.

Definition clean_attributes (cols : list string) (gdf : list feature)
  : list feature :=
  foldl (λ gdf col,
           zip_with (set_cell col) gdf
                    (clean_column col (map (λ f, cell f col) gdf)))
        gdf cols.

(** [mapping(geom) if geom else None]: a geometry that is empty is written
    as null. *)
Definition written (o : option geometry) : option geometry :=
  match o with
  | Some g => if Shapely.is_empty g then None else Some g
  | None => None
  end.

(** [json.loads(gdf.to_json())['features']]: a feature per row, NaN and an
    empty geometry written as null. *)
Definition to_json (gdf : list feature) : list feature :=
  map (λ f, {| geom := written (geom f);
               properties :=
                 (λ v, match v with VNaN => VNone | _ => v end)
                   <$> properties f |}) gdf.

Definition count (p : feature → bool) (gdf : list feature) : nat :=
  length (List.filter p gdf).

Definition found (n : nat) (what : string) : string :=
  "Found " +:+ pretty n +:+ " " +:+ what.

(** 1. Remove invalid geometries *)
Definition remove_invalid (gdf : list feature)
  : stex processor (list feature) :=
  if existsb missing_or_empty gdf
  then _ ← note (found (count missing_or_empty gdf) "invalid geometries")
                "Removed invalid geometries";
       mret (List.filter (λ f, negb (missing_or_empty f)) gdf)
  else mret gdf.

(** 2. Fix invalid geometries *)
Definition fix_invalid (gdf : list feature) : stex processor (list feature) :=
  if existsb invalid gdf
  then _ ← note (found (count invalid gdf) "invalid geometries")
                "Fixed invalid geometries using buffer(0)";
       mret (map fix_geometry gdf)
  else mret gdf.

(** 3. Remove duplicate geometries *)
Definition remove_duplicates (gdf : list feature)
  : stex processor (list feature) :=
  let duplicates := duplicated [] gdf in
  if existsb id duplicates
  then _ ← note (found (length (List.filter id duplicates))
                       "duplicate geometries")
                "Removed duplicate geometries";
       mret (drop duplicates gdf)
  else mret gdf.

Definition clean_data (data : list feature) : stex processor (list feature) :=
  st_reraise "Data cleaning failed: " (
    let gdf := data in
    let cols := columns gdf in
    _ ← set_report {| original_count := length gdf; issues_found := [];
                      fixes_applied := []; final_count := 0 |};
    (* a frame built from no feature has no geometry column *)
    _ ← lift (match gdf with
              | [] => Err (Raise AttributeError "No geometry data set yet")
              | _ => Ok tt
              end);
    gdf ← remove_invalid gdf;
    gdf ← fix_invalid gdf;
    gdf ← remove_duplicates gdf;
    (* 4. Clean attribute data *)
    let gdf := clean_attributes cols gdf in
    (* 5. Ensure CRS is set *)
    _ ← note_fix "Set CRS to EPSG:4326";
    _ ← set_final_count (length gdf);
    mret (to_json gdf)).

(** The counts a report holds. *)
Definition counts (self : processor) : option (nat * nat) :=
  (λ r, (original_count r, final_count r)) <$> cleaning_report self.

(** A cleaning step returns, does not add a row and keeps the counts of the
    report. *)
Definition shrinking (step : list feature → stex processor (list feature))
  : Prop :=
  ∀ gdf self, ∃ gdf' self',
    step gdf self = (Ok gdf', self')
    ∧ (length gdf' ≤ length gdf)%nat
    ∧ counts self' = counts self.

End Clean.

End DataProcessor.

(** ** ml_models.py: get_model_info and evaluate_model *)
Module ModelReports.
Import Py MLModels.

Section Reports.
Context `{SK : Sklearn} `{SH : Shapely.Ops}.

(** The two dictionaries [get_model_info] returns.  The keys of a dictionary
    are given as a set: the order in which they were inserted is not
    kept. *)
Inductive model_info :=
| InfoOf (model_type : string)
         (trained scaler_available encoder_available : bool)
| InfoAll (available_models available_scalers available_encoders
           : gset string).

(** [if model_type:] is false for [None] and for the empty string. *)
Definition get_model_info (self : predictor) (model_type : option string)
  : model_info :=
  match model_type with
  | Some t =>
      if String.eqb t ""
      then InfoAll (dom (models self)) (dom (scalers self))
                   (dom (encoders self))
      else InfoOf t (bool_decide (is_Some (models self !! t)))
                    (bool_decide (is_Some (scalers self !! t)))
                    (bool_decide (is_Some (encoders self !! t)))
  | None =>
      InfoAll (dom (models self)) (dom (scalers self)) (dom (encoders self))
  end.

Inductive evaluation :=
| RegressionEvaluation (model_type : string) (mse r2 : Q)
                       (predictions : list Q)
| LabelEvaluation (model_type : string) (predictions : list Q)
                  (n_predictions : nat).

(** [scaler.transform] and [model.predict] on all rows, and the two scores
    of [sklearn.metrics]. *)
Variable transform_all : estimator → list (list Q) → res (list (list Q)).
Variable predict_all : estimator → list (list Q) → res (list Q).
Variable mean_squared_error : list Q → list Q → res Q.
Variable r2_score : list Q → list Q → res Q.

Definition evaluate_model (model_type : string) (test_data : list row)
  : stex (predictor * gmap string (option estimator)) evaluation :=
  st_reraise "Model evaluation failed: " (
    '(self, _) ← get;
    match models self !! model_type with
    | None =>
        lift (Err (Raise ValueError
                     ("Model '" +:+ model_type +:+ "' not found")))
    | Some model =>
        test_features ← lift (_prepare_spatial_features test_data);
        test_features_scaled ←
          lift (match scalers self !! model_type with
                | Some scaler => transform_all scaler test_features
                | None => Ok test_features
                end);
        predictions ← lift (predict_all model test_features_scaled);
        if String.eqb model_type "accessibility"
        then
          true_scores ← lift (_calculate_accessibility_scores test_data);
          mse ← lift (mean_squared_error true_scores predictions);
          r2 ← lift (r2_score true_scores predictions);
          mret (RegressionEvaluation model_type mse r2 predictions)
        else
          mret (LabelEvaluation model_type predictions
                                (List.length predictions))
    end).

End Reports.

End ModelReports.

(** ** database_integration.py: close, insert_landmark, import_from_geojson *)
Module DatabaseWrites.
Import Py DatabaseIntegration.

(** [close]: closes a connection that is open. *)
Definition close (st : db) : db :=
  match conn st with
  | Some Open => with_conn st (Some Closed)
  | _ => st
  end.

(** The parameters of the [INSERT ... RETURNING id] statement.  A caller may
    pass any JSON value where a string is expected. *)
Record insertion := Insertion {
  ins_name : value;
  ins_description : value;
  ins_landmark_type : value;
  ins_geometry_wkt : string;
  ins_properties : option (gmap string value)
}.

(** A field of a JSON object read with [dict.get(key, default)]: the key may
    be missing, or hold [null]. *)
Inductive json_field (A : Type) :=
| Missing
| Null
| Present (a : A).
Arguments Missing {A}.
Arguments Null {A}.
Arguments Present {A} a.

(** A GeoJSON geometry object with numeric coordinates; [geo_type] is what
    [geometry.get('type')] gives, [VNone] when there is none. *)
Record geometry_object := GeometryObject {
  geo_type : value;
  geo_coordinates : json_field (list Q)
}.

Record feature := Feature {
  feat_properties : json_field (gmap string value);
  feat_geometry : json_field geometry_object
}.

Section Inserting.
(** The server's side of the [INSERT] with the adapted parameters, at the
    server's clock: the message of the error psycopg2 reports, or the table
    with the one new row. *)
Variable insert_row :
  insertion → Z → gmap Z landmark → string + gmap Z landmark.
(** [f"{x}"] of a coordinate. *)
Variable format_float : Q → string.

Definition with_table (st : db) (table : gmap Z landmark) : db :=
  {| conn := conn st; server_up := server_up st; geospatial_data := table;
     now := now st; executed := executed st |}.

(** [execute_query(insert_query, params)]: the statement does not start with
    [SELECT], so the row count of the one-row [INSERT] is returned, not the
    row with the new [id].  [executed] keeps its [UPDATE] and [DELETE]
    statements. *)
Definition execute_query (q : insertion) : stex db Z :=
  st_reraise "Database error: " (λ st,
    let st := get_connection st in
    match conn st with
    | None =>
        (Err (Raise AttributeError
                "'NoneType' object has no attribute 'cursor'"), st)
    | Some _ =>
        if server_up st
        then match insert_row q (now st) (geospatial_data st) with
             | inl msg => (Err (Raise Exception msg), st)
             | inr table => (Ok 1%Z, with_table st table)
             end
        else (Err (Raise Exception
                     "server closed the connection unexpectedly"),
              with_conn st (Some Closed))
    end).

(** [json.dumps(properties) if properties else None]: an empty dictionary is
    stored as [NULL]. *)
Definition dumped (properties : option (gmap string value))
  : option (gmap string value) :=
  match properties with
  | Some p => if decide (p = ∅) then None else Some p
  | None => None
  end.

(** [insert_landmark].  Its handler reads [str(e)] only; [result[0]] on the
    row count raises the [TypeError] whose message is kept here. *)
Definition insert_landmark (name description landmark_type : value)
           (geometry_wkt : string) (properties : option (gmap string value))
  : stex db (option Z) :=
  λ st,
    match execute_query
            (Insertion name description landmark_type geometry_wkt
                       (dumped properties)) st with
    | (Err e, st') =>
        (Err (Raise Exception ("Landmark insertion failed: " +:+ exn_str e)),
         st')
    | (Ok result, st') =>
        if (result =? 0)%Z then (Ok None, st')
        else (Err (Raise Exception
                     ("Landmark insertion failed: "
                      +:+ "'int' object is not subscriptable")), st')
    end.

(** [geometry.get('type') == 'Point'] *)
Definition is_point (geometry : geometry_object) : bool :=
  match geo_type geometry with
  | VStr s => String.eqb s "Point"
  | _ => false
  end.

(** One round of the loop of [import_from_geojson]: the new count, or
    [str(e)] of the exception that ends the loop. *)
Definition import_feature (f : feature) (imported_count : nat) (st : db)
  : (string + nat) * db :=
  match feat_geometry f with
  | Null => (inl "'NoneType' object has no attribute 'get'", st)
  | Missing => (inr imported_count, st)
  | Present geometry =>
      if is_point geometry
      then match geo_coordinates geometry with
           | Null => (inl "object of type 'NoneType' has no len()", st)
           | Missing => (inr imported_count, st)
           | Present (x :: y :: _) =>
               let geometry_wkt :=
                 "POINT(" +:+ format_float x +:+ " " +:+ format_float y
                 +:+ ")" in
               match feat_properties f with
               | Null =>
                   (inl "'NoneType' object has no attribute 'get'", st)
               | Missing =>
                   match insert_landmark
                           (VStr ("Imported Feature "
                                  +:+ pretty imported_count))
                           (VStr "") (VStr "unknown") geometry_wkt (Some ∅)
                           st with
                   | (Err e, st') => (inl (exn_str e), st')
                   | (Ok (Some 0%Z), st') | (Ok None, st') =>
                       (inr imported_count, st')
                   | (Ok (Some _), st') => (inr (S imported_count), st')
                   end
               | Present properties =>
                   match insert_landmark
                           (default (VStr ("Imported Feature "
                                           +:+ pretty imported_count))
                                    (properties !! "name"))
                           (default (VStr "") (properties !! "description"))
                           (default (VStr "unknown") (properties !! "type"))
                           geometry_wkt (Some properties) st with
                   | (Err e, st') => (inl (exn_str e), st')
                   | (Ok (Some 0%Z), st') | (Ok None, st') =>
                       (inr imported_count, st')
                   | (Ok (Some _), st') => (inr (S imported_count), st')
                   end
               end
           | Present _ => (inr imported_count, st)
           end
      else (inr imported_count, st)
  end.

Fixpoint import_features (features : list feature) (imported_count : nat)
         (st : db) : (string + nat) * db :=
  match features with
  | [] => (inr imported_count, st)
  | f :: features' =>
      match import_feature f imported_count st with
      | (inl msg, st') => (inl msg, st')
      | (inr imported_count', st') =>
          import_features features' imported_count' st'
      end
  end.

(** The features the loop passes over: those without a geometry object, or
    whose geometry is not a [Point], or is a [Point] without coordinates or
    with fewer than two. *)
Definition passed_over (f : feature) : bool :=
  match feat_geometry f with
  | Null => false
  | Missing => true
  | Present geometry =>
      if is_point geometry
      then match geo_coordinates geometry with
           | Missing | Present [] | Present [_] => true
           | Null | Present (_ :: _ :: _) => false
           end
      else true
  end.

(** [import_from_geojson] on the list [geojson_data.get('features', [])]. *)
Definition import_from_geojson (features : list feature) : stex db nat :=
  λ st,
    match import_features features 0 st with
    | (inl msg, st') =>
        (Err (Raise Exception ("GeoJSON import failed: " +:+ msg)), st')
    | (inr imported_count, st') => (Ok imported_count, st')
    end.

End Inserting.

End DatabaseWrites.

(** ** app.py: the connection manager's register *)
Module ConnectionManager.
Import App.

(** [connect], once [websocket.accept()] has returned. *)
Definition connect (websocket : websocket) (st : app) : app :=
  {| database := database st;
     active_connections := (active_connections st ++ [websocket])%list;
     delivered := delivered st |}.

(** [disconnect]: [remove] is guarded by [in]. *)
Definition disconnect (websocket : websocket) (st : app) : app :=
  if decide (websocket ∈ active_connections st)
  then {| database := database st;
          active_connections :=
            list_remove websocket (active_connections st);
          delivered := delivered st |}
  else st.

End ConnectionManager.

(** ** data_processor.py: validate_data *)
Module DataValidation.
Import Py DataProcessor.

(** The counts, the score and the grade of [validation_results]; its
    [bounds], [geometry_types], [attribute_columns] and [missing_values]
    are left out. *)
Record validation := Validation {
  total_features : nat;
  valid_geometries : nat;
  invalid_geometries : nat;
  empty_geometries : nat;
  null_geometries : nat;
  duplicate_geometries : nat;
  crs_defined : bool;
  quality_score : Z;
  quality_grade : string
}.

Definition _get_quality_grade (score : Z) : string :=
  if (90 <=? score)%Z then "A"
  else if (80 <=? score)%Z then "B"
  else if (70 <=? score)%Z then "C"
  else if (60 <=? score)%Z then "D"
  else "F".

Section Validate.
Context `{SH : Shapely.Ops}.

(** [gdf.geometry.is_empty]: false for a missing geometry. *)
Definition empty (f : feature) : bool :=
  match geom f with
  | None => false
  | Some g => Shapely.is_empty g
  end.

(** [gdf.geometry.isna()] *)
Definition isna (f : feature) : bool :=
  match geom f with
  | None => true
  | Some _ => false
  end.

Definition validate_data (data : list feature) : res validation :=
  reraise "Data validation failed: " (
    let gdf := data in
    (* a frame built from no feature has no geometry column *)
    _ ← match gdf with
        | [] => Err (Raise AttributeError "No geometry data set yet")
        | _ => Ok tt
        end;
    let total_features := length gdf in
    let valid_geometries := count (λ f, negb (invalid f)) gdf in
    let empty_geometries := count empty gdf in
    let null_geometries := count isna gdf in
    let duplicate_geometries :=
      length (List.filter id (duplicated [] gdf)) in
    let quality_score := 0%Z in
    let quality_score :=
      if decide (valid_geometries = total_features)
      then (quality_score + 40)%Z else quality_score in
    let quality_score :=
      if decide (empty_geometries = 0%nat)
      then (quality_score + 20)%Z else quality_score in
    let quality_score :=
      if decide (null_geometries = 0%nat)
      then (quality_score + 20)%Z else quality_score in
    let quality_score :=
      if decide (duplicate_geometries = 0%nat)
      then (quality_score + 20)%Z else quality_score in
    mret {| total_features := total_features;
            valid_geometries := valid_geometries;
            invalid_geometries := count invalid gdf;
            empty_geometries := empty_geometries;
            null_geometries := null_geometries;
            duplicate_geometries := duplicate_geometries;
            crs_defined := false;
            quality_score := quality_score;
            quality_grade := _get_quality_grade quality_score |}).

End Validate.

End DataValidation.

(** * Concrete inputs

    Small frames and stand-ins for the library routines, on which the
    definitions above are run. *)
Module Samples.
Import Py.

(** A rational stand-in for geopy's geodesic distance: 111.32 km per degree
    along each axis. *)
Definition km_per_degree (p q : Q * Q) : Q :=
  (111.32 * (Qabs (fst p - fst q) + Qabs (snd p - snd q)))%Q.

(** A point feature at longitude [x], latitude [y] without properties. *)
Definition landmark_at (x y : Q) : SpatialAnalysis.row :=
  SpatialAnalysis.Row ∅ (Shapely.Point x y) y x.

(** Three landmarks on the equator, one degree apart. *)
Definition equator : list SpatialAnalysis.row :=
  [landmark_at 0 0; landmark_at 1 0; landmark_at 2 0].

(** One landmark in each quadrant of the square from (0,0) to (2,2). *)
Definition quadrants : list SpatialAnalysis.row :=
  [landmark_at 0.5 0.5; landmark_at 1.5 0.5;
   landmark_at 0.5 1.5; landmark_at 1.5 1.5].

(** Three named landmarks; the last lies apart from the other two. *)
Definition named (name : string) (x y : Q) : SpatialAnalysis.row :=
  SpatialAnalysis.Row {["name" := VStr name]} (Shapely.Point x y) y x.

Definition towns : list SpatialAnalysis.row :=
  [named "Colosseum" 12.4922 41.8902; named "Pantheon" 12.4768 41.8986;
   named "Etna" 14.9934 37.7510].

(** Stand-ins for the messages of numpy and for the clusterer: the
    landmarks west of 13 degrees in cluster 0, the others noise. *)
Definition inhomogeneous (coords : list (Q * list Q)) : string :=
  "setting an array element with a sequence.".

Definition west_or_noise (cl : SpatialAnalysis.clusterer)
           (coords : list (Q * Q)) : res (list Z) :=
  Ok (map (λ c, if Qle_bool (fst c) 13 then 0%Z else (-1)%Z) coords).

(** Stand-ins for shapely: a point is its own centroid and bounding box. *)
Definition point_ops : Shapely.Ops :=
  {| Shapely.centroid g :=
       match g with Shapely.Point x y => (x, y) | _ => (0, 0)%Q end;
     Shapely.area _ := 0%Q;
     Shapely.length _ := 0%Q;
     Shapely.bounds g :=
       match g with
       | Shapely.Point x y => (x, y, x, y)
       | _ => (0, 0, 0, 0)%Q
       end;
     Shapely.is_empty g :=
       match g with
       | Shapely.LineString [] | Shapely.Polygon [] => true
       | _ => false
       end;
     Shapely.is_valid g :=
       match g with
       | Shapely.Polygon rings => forallb (λ ring, (4 <=? List.length ring)%nat) rings
       | _ => true
       end;
     Shapely.buffer g _ := g |}.

(** Stand-ins for scikit-learn: a fitted object is the name of what was
    fitted, every fit succeeds and every model predicts 0. *)
Definition named_estimators : MLModels.Sklearn :=
  {| MLModels.estimator := string;
     MLModels.metrics := unit;
     MLModels.split_and_scale X y := Ok ("scaler", (X, [], y, []));
     MLModels.fit_regressor name _ := Ok (name, tt);
     MLModels.fit_scaler X := Ok ("scaler", X);
     MLModels.fit_clusterer name _ := Ok (name, tt);
     MLModels.fit_encoder target := Ok ("encoder", map (λ _, 0%Q) target, []);
     MLModels.fit_classifier _ := Ok ("classifier", 1%Q);
     MLModels.transform _ x := Ok x;
     MLModels.predict_one _ _ := Ok 0%Q;
     MLModels.predict_proba _ := None;
     MLModels.has_feature_importances _ := true;
     MLModels.sqrt x := x |}.

(** A predictor that has trained nothing, and one landmark without a
    ['type'] property. *)
Definition untrained : MLModels.predictor (SK := named_estimators) :=
  {| MLModels.models := ∅; MLModels.scalers := ∅; MLModels.encoders := ∅;
     MLModels.model_path := "models" |}.

Definition untyped : list MLModels.row :=
  [MLModels.Row (Some (Shapely.Point 12.4922 41.8902))
                {["name" := VStr "Colosseum"]}].

(** A reachable database with an empty table, not yet connected to, and the
    process serving it with no WebSocket client. *)
Definition empty_db : DatabaseIntegration.db :=
  {| DatabaseIntegration.conn := None;
     DatabaseIntegration.server_up := true;
     DatabaseIntegration.geospatial_data := ∅;
     DatabaseIntegration.now := 0;
     DatabaseIntegration.executed := [] |}.

Definition idle_app : App.app :=
  {| App.database := empty_db; App.active_connections := [];
     App.delivered := [] |}.

(** A stand-in for PostGIS's parser that reads points on the equator only. *)
Definition equator_wkt (wkt : string) : option Shapely.geometry :=
  if String.eqb wkt "POINT(0 0)" then Some (Shapely.Point 0 0) else None.

(** Stand-ins for pandas: every column is of object dtype, [str] of a string
    is the string itself and nothing is stripped. *)
Definition plain_pandas : DataProcessor.Pandas :=
  {| DataProcessor.is_object_dtype _ := true;
     DataProcessor.astype_str v :=
       match v with
       | VStr s => s
       | VNone => "None"
       | VNaN => "nan"
       | VBool true => "True"
       | VBool false => "False"
       | VInt z => pretty z
       | VFloat _ => "0.0"
       end;
     DataProcessor.strip s := s |}.

(** Two features at the same point and one without geometry. *)
Definition dirty : list DataProcessor.feature :=
  [DataProcessor.Feature (Some (Shapely.Point 12.4922 41.8902))
                         {["name" := VStr "Colosseum"]};
   DataProcessor.Feature (Some (Shapely.Point 12.4922 41.8902))
                         {["name" := VStr "Colosseo"]};
   DataProcessor.Feature None {["name" := VStr "Nowhere"]}].

End Samples.

(** ** Further concrete inputs *)
Module MoreSamples.
Import Py.

(** As [Samples.named_estimators], but the gradient boosting regressor
    cannot be fitted. *)
Definition boosting_fails : MLModels.Sklearn :=
  {| MLModels.estimator := string;
     MLModels.metrics := unit;
     MLModels.split_and_scale X y := Ok ("scaler", (X, [], y, []));
     MLModels.fit_regressor name _ :=
       if String.eqb name "gradient_boosting"
       then Err (Raise Exception "out of memory")
       else Ok (name, tt);
     MLModels.fit_scaler X := Ok ("scaler", X);
     MLModels.fit_clusterer name _ := Ok (name, tt);
     MLModels.fit_encoder target := Ok ("encoder", map (λ _, 0%Q) target, []);
     MLModels.fit_classifier _ := Ok ("classifier", 1%Q);
     MLModels.transform _ x := Ok x;
     MLModels.predict_one _ _ := Ok 0%Q;
     MLModels.predict_proba _ := None;
     MLModels.has_feature_importances _ := true;
     MLModels.sqrt x := x |}.

(** Two landmarks with geometry and a ['type']. *)
Definition typed : list MLModels.row :=
  [MLModels.Row (Some (Shapely.Point 12.4922 41.8902))
                {["name" := VStr "Colosseum"; "type" := VStr "monument"]};
   MLModels.Row (Some (Shapely.Point 10.3966 43.7230))
                {["name" := VStr "Leaning Tower of Pisa";
                  "type" := VStr "monument"]}].

(** A reachable database that holds one landmark, the same database with
    the server down, and the process serving it with four WebSocket
    clients, the second of which is gone. *)
Definition colosseum : DatabaseIntegration.landmark :=
  {| DatabaseIntegration.name := "Colosseum";
     DatabaseIntegration.description := Some "Ancient Roman amphitheater";
     DatabaseIntegration.landmark_type := Some "monument";
     DatabaseIntegration.geom := Some (Shapely.Point 12.4922 41.8902);
     DatabaseIntegration.properties := None;
     DatabaseIntegration.created_at := 0;
     DatabaseIntegration.updated_at := 0 |}.

Definition one_landmark_db : DatabaseIntegration.db :=
  {| DatabaseIntegration.conn := None;
     DatabaseIntegration.server_up := true;
     DatabaseIntegration.geospatial_data := {[1%Z := colosseum]};
     DatabaseIntegration.now := 5;
     DatabaseIntegration.executed := [] |}.

Definition unreachable_db : DatabaseIntegration.db :=
  {| DatabaseIntegration.conn := Some DatabaseIntegration.Open;
     DatabaseIntegration.server_up := false;
     DatabaseIntegration.geospatial_data := {[1%Z := colosseum]};
     DatabaseIntegration.now := 5;
     DatabaseIntegration.executed := [] |}.

(** Stand-ins for shapely on lines: a line through one point only is
    invalid, and [buffer(0)] of a line is the empty polygon. *)
Definition line_ops : Shapely.Ops :=
  {| Shapely.centroid g :=
       match g with Shapely.Point x y => (x, y) | _ => (0, 0)%Q end;
     Shapely.area _ := 0%Q;
     Shapely.length _ := 0%Q;
     Shapely.bounds g :=
       match g with
       | Shapely.Point x y => (x, y, x, y)
       | _ => (0, 0, 0, 0)%Q
       end;
     Shapely.is_empty g :=
       match g with
       | Shapely.LineString [] | Shapely.Polygon [] => true
       | _ => false
       end;
     Shapely.is_valid g :=
       match g with
       | Shapely.LineString [p; q] => negb (bool_decide (p = q))
       | _ => true
       end;
     Shapely.buffer g _ :=
       match g with
       | Shapely.LineString _ => Shapely.Polygon []
       | _ => g
       end |}.

(** A landmark and a line from a point to itself. *)
Definition degenerate : list DataProcessor.feature :=
  [DataProcessor.Feature (Some (Shapely.Point 12.4922 41.8902))
                         {["name" := VStr "Colosseum"]};
   DataProcessor.Feature (Some (Shapely.LineString [(0, 0); (0, 0)]%Q))
                         {["name" := VStr "Null Island"]}].

(** Stand-ins for the server's side of the [INSERT] and for the text of a
    coordinate.  A row with a name is stored under the next [id], with the
    geometry PostGIS reads from the text it is given; a coordinate that
    [json] has read as an integer is written without a fraction. *)
Definition text (v : value) : option string :=
  match v with
  | VStr s => Some s
  | _ => None
  end.

Definition accept_row (q : DatabaseWrites.insertion) (clock : Z)
           (table : gmap Z DatabaseIntegration.landmark)
  : string + gmap Z DatabaseIntegration.landmark :=
  match DatabaseWrites.ins_name q,
        Samples.equator_wkt (DatabaseWrites.ins_geometry_wkt q) with
  | VStr name, Some g =>
      inr (<[Z.of_nat (S (size table)) :=
               DatabaseIntegration.Landmark
                 name (text (DatabaseWrites.ins_description q))
                 (text (DatabaseWrites.ins_landmark_type q)) (Some g)
                 (DatabaseWrites.ins_properties q) clock clock]> table)
  | VStr _, None => inl "parse error - invalid geometry"
  | _, _ => inl "null value in column name violates not-null constraint"
  end.

Definition integral (x : Q) : string := pretty (Qfloor x).

(** A collection of a polygon and two points at the origin, the second of
    them without properties. *)
Definition null_island : list DatabaseWrites.feature :=
  [DatabaseWrites.Feature
     (DatabaseWrites.Present {["name" := VStr "Lake"]})
     (DatabaseWrites.Present
        (DatabaseWrites.GeometryObject (VStr "Polygon")
                                       DatabaseWrites.Missing));
   DatabaseWrites.Feature
     (DatabaseWrites.Present {["name" := VStr "Null Island"]})
     (DatabaseWrites.Present
        (DatabaseWrites.GeometryObject (VStr "Point")
                                       (DatabaseWrites.Present [0; 0]%Q)));
   DatabaseWrites.Feature
     DatabaseWrites.Missing
     (DatabaseWrites.Present
        (DatabaseWrites.GeometryObject (VStr "Point")
                                       (DatabaseWrites.Present [0; 0]%Q)))].

Definition four_clients : list App.websocket :=
  [App.WebSocket 1 true; App.WebSocket 2 false;
   App.WebSocket 3 true; App.WebSocket 4 true].

Definition serving : App.app :=
  {| App.database := one_landmark_db;
     App.active_connections := four_clients;
     App.delivered := [] |}.

End MoreSamples.

(** * Properties *)

(** ** Sorting and slicing *)
Module PyFacts.
Import Py.

Section Sorting.
Context {A : Type} (key : A → Q).

Local Abbreviation by_key := (Py.by_key key).

Lemma insert_by_length x l : length (insert_by key x l) = S (length l).
Proof.
  induction l as [|y l IH]; simpl; [done|].
  destruct (Qle_bool (key x) (key y)); simpl; congruence.
Qed.

Lemma sort_by_length l : length (sort_by key l) = length l.
Proof.
  induction l as [|x l IH]; simpl; [done|].
  unfold sort_by in *. simpl. rewrite insert_by_length. congruence.
Qed.

Lemma insert_by_perm x l : insert_by key x l ≡ₚ x :: l.
Proof.
  induction l as [|y l IH]; simpl; [done|].
  destruct (Qle_bool (key x) (key y)); [done|].
  rewrite IH. apply Permutation_swap.
Qed.

Lemma sort_by_perm l : sort_by key l ≡ₚ l.
Proof.
  induction l as [|x l IH]; [done|].
  unfold sort_by in *. simpl. rewrite insert_by_perm. by f_equiv.
Qed.

Lemma insert_by_sorted x l :
  StronglySorted by_key l → StronglySorted by_key (insert_by key x l).
Proof.
  induction 1 as [|y l Hl IH Hy]; simpl.
  - repeat constructor.
  - destruct (Qle_bool (key x) (key y)) eqn:E.
    + apply Qle_bool_iff in E.
      constructor; [by constructor|].
      constructor; [done|].
      eapply Forall_impl; [exact Hy|].
      intros z Hz. unfold Py.by_key in *. eapply Qle_trans; eauto.
    + constructor; [done|].
      rewrite insert_by_perm. constructor; [|done].
      unfold Py.by_key.
      destruct (Qlt_le_dec (key y) (key x)) as [Hlt|Hle].
      * by apply Qlt_le_weak.
      * apply Qle_bool_iff in Hle. congruence.
Qed.

Lemma sort_by_sorted l : StronglySorted by_key (sort_by key l).
Proof.
  induction l as [|x l IH]; [constructor|].
  by apply insert_by_sorted.
Qed.

Lemma take_sorted n l :
  StronglySorted by_key l → StronglySorted by_key (take n l).
Proof.
  intros Hl. revert n.
  induction Hl as [|y l Hl IH Hy]; intros [|n]; simpl; try constructor.
  - apply IH.
  - by apply Forall_take.
Qed.

Lemma slice_to_sorted n l :
  StronglySorted by_key l → StronglySorted by_key (slice_to l n).
Proof. unfold slice_to. destruct (0 <=? n)%Z; apply take_sorted. Qed.

End Sorting.

Lemma slice_to_length {A} (l : list A) (n : Z) :
  (0 ≤ n)%Z →
  Z.of_nat (length (slice_to l n)) = Z.min n (Z.of_nat (length l)).
Proof.
  intros Hn. unfold slice_to.
  destruct (Z.leb_spec 0 n); [|lia].
  rewrite length_take. lia.
Qed.

(** How a sequence of two steps runs: the second starts from the state the
    first leaves, unless the first raises. *)
Lemma bind_run {S A B} (m : stex S A) (k : A → stex S B) (s : S) :
  (m ≫= k) s
  = match m s with
    | (Ok a, s') => k a s'
    | (Err e, s') => (Err e, s')
    end.
Proof. reflexivity. Qed.

Section Rounding.
Local Open Scope Q_scope.

Lemma round_half_even_mono x y :
  x <= y → (round_half_even x ≤ round_half_even y)%Z.
Proof.
  intros Hxy. unfold round_half_even.
  pose proof (Qfloor_resp_le _ _ Hxy) as Hf.
  pose proof (Qfloor_le x) as Hx1. pose proof (Qlt_floor x) as Hx2.
  pose proof (Qfloor_le y) as Hy1. pose proof (Qlt_floor y) as Hy2.
  destruct (Z.eq_dec (Qfloor x) (Qfloor y)) as [E|E].
  - rewrite <- E in *.
    destruct (Qcompare_spec (x - inject_Z (Qfloor x)) (1 # 2)) as [H1|H1|H1],
             (Qcompare_spec (y - inject_Z (Qfloor x)) (1 # 2)) as [H2|H2|H2];
      try (destruct (Z.even (Qfloor x))); try lia; exfalso; lra.
  - assert (Qfloor x + 1 ≤ Qfloor y)%Z as Hlt by lia.
    destruct (x - inject_Z (Qfloor x) ?= 1 # 2),
             (y - inject_Z (Qfloor y) ?= 1 # 2);
      try (destruct (Z.even (Qfloor x)));
      try (destruct (Z.even (Qfloor y))); lia.
Qed.

(** [round(x, n)] is monotone in [x]. *)
Lemma round_mono x y n : x <= y → round x n <= round y n.
Proof.
  intros Hxy. unfold round, Qle. simpl.
  apply Z.mul_le_mono_nonneg_r; [lia|].
  apply round_half_even_mono.
  apply Qmult_le_compat_r; [done|].
  change 0 with (inject_Z 0). rewrite <- Zle_Qle. lia.
Qed.

Lemma Qinv_antitone a b : 0 < a → a <= b → 1 / b <= 1 / a.
Proof.
  intros Ha Hab.
  apply Qle_shift_div_l; [done|].
  assert (1 / b * a == a / b) as -> by (field; lra).
  apply Qle_shift_div_r; lra.
Qed.

End Rounding.

End PyFacts.

(** ** SpatialAnalyzer *)
Module SpatialAnalysisSpec.
Import Py SpatialAnalysis.

Section Nearest.
Variable geodesic : Q * Q → Q * Q → Q.

Lemma find_nearest_loaded rows lat lon n :
  find_nearest_landmarks geodesic (Analyzer (Some rows)) lat lon n
  = slice_to (sort_by distance_km (imap (nearest_entry geodesic rows lat lon)
                                        rows)) n.
Proof. reflexivity. Qed.

(** C1, as amended: for a non-empty loaded frame, a query point and a limit
    [n >= 0], the list [find_nearest_landmarks] returns is in non-decreasing
    order of [distance_km] and has [min(n, number of rows)] elements. *)
Theorem find_nearest_sorted_min rows lat lon n :
  rows ≠ [] →
  (0 ≤ n)%Z →
  let nearest :=
    find_nearest_landmarks geodesic (Analyzer (Some rows)) lat lon n in
  StronglySorted (by_key distance_km) nearest
  ∧ Z.of_nat (length nearest) = Z.min n (Z.of_nat (length rows)).
Proof.
  intros _ Hn nearest. subst nearest. rewrite find_nearest_loaded. split.
  - apply PyFacts.slice_to_sorted, PyFacts.sort_by_sorted.
  - rewrite PyFacts.slice_to_length by done.
    by rewrite PyFacts.sort_by_length, length_imap.
Qed.

(** The order holds for every limit, a negative one included. *)
Lemma find_nearest_sorted self lat lon n :
  StronglySorted (by_key distance_km)
                 (find_nearest_landmarks geodesic self lat lon n).
Proof.
  destruct self as [[rows|]]; [|constructor].
  rewrite find_nearest_loaded.
  apply PyFacts.slice_to_sorted, PyFacts.sort_by_sorted.
Qed.

(** C8: on an empty collection, whether the analyzer holds an empty frame or
    no frame at all, the query returns the empty list. *)
Theorem find_nearest_empty lat lon n :
  find_nearest_landmarks geodesic (Analyzer (Some [])) lat lon n = []
  ∧ find_nearest_landmarks geodesic (Analyzer None) lat lon n = [].
Proof.
  split; [|reflexivity].
  rewrite find_nearest_loaded. simpl. unfold slice_to.
  destruct (0 <=? n)%Z; by rewrite take_nil.
Qed.

End Nearest.

Lemma find_nearest_sorted_min_witness :
  let nearest :=
    find_nearest_landmarks Samples.km_per_degree
                           (Analyzer (Some Samples.equator)) 0 0 2 in
  StronglySorted (by_key distance_km) nearest
  ∧ Z.of_nat (length nearest) = Z.min 2 (Z.of_nat (length Samples.equator)).
Proof.
  apply (find_nearest_sorted_min Samples.km_per_degree Samples.equator 0 0 2).
  - discriminate.
  - lia.
Defined.

(** C1 as stated fails for a negative limit: [distances[:-1]] of three
    entries has two elements, not [min(-1, 3)]. *)
Lemma find_nearest_negative_limit :
  let nearest :=
    find_nearest_landmarks Samples.km_per_degree
                           (Analyzer (Some Samples.equator)) 0 0 (-1) in
  ¬ (StronglySorted (by_key distance_km) nearest
     ∧ Z.of_nat (length nearest)
       = Z.min (-1) (Z.of_nat (length Samples.equator))).
Proof. intros nearest [_ Hlen]. vm_compute in Hlen. discriminate. Qed.

Section Density.
Local Open Scope Q_scope.

Lemma Qlt_bool_iff a b : Qlt_bool a b = true ↔ a < b.
Proof.
  unfold Qlt_bool. rewrite negb_true_iff.
  destruct (Qle_bool b a) eqn:E.
  - apply Qle_bool_iff in E. split; [done|]. intros Hlt.
    exfalso. by eapply Qlt_not_le.
  - split; [|done]. intros _. apply Qnot_le_lt. intros Hle.
    apply Qle_bool_iff in Hle. congruence.
Qed.

Lemma cell_contains_spec grid_size c x y :
  cell_contains grid_size c x y = true
  ↔ c.1 < x ∧ x < c.1 + grid_size ∧ c.2 < y ∧ y < c.2 + grid_size.
Proof.
  unfold cell_contains. rewrite !andb_true_iff, !Qlt_bool_iff. tauto.
Qed.

Lemma qmin_le_l a b : qmin a b <= a.
Proof.
  unfold qmin. destruct (Qle_bool a b) eqn:E; [apply Qle_refl|].
  apply Qlt_le_weak, Qnot_le_lt. intros Hle.
  apply Qle_bool_iff in Hle. congruence.
Qed.

Lemma qmin_le_r a b : qmin a b <= b.
Proof.
  unfold qmin. destruct (Qle_bool a b) eqn:E; [|apply Qle_refl].
  by apply Qle_bool_iff.
Qed.

Lemma foldr_qmin_le_init x l : foldr qmin x l <= x.
Proof.
  induction l as [|y l IH]; simpl; [apply Qle_refl|].
  eapply Qle_trans; [apply qmin_le_r|done].
Qed.

Lemma foldr_qmin_le x l y : y ∈ l → foldr qmin x l <= y.
Proof.
  induction 1 as [y l|y z l Hin IH]; simpl.
  - apply qmin_le_l.
  - eapply Qle_trans; [apply qmin_le_r|done].
Qed.

(** The minimum of a column is below every cell of the column. *)
Lemma column_min_le col k rows m r :
  column_min col k rows = Ok m → r ∈ rows → m <= col r.
Proof.
  destruct rows as [|r0 rows]; [done|]. simpl. intros [= <-] Hr.
  apply elem_of_cons in Hr as [->|Hr].
  - apply foldr_qmin_le_init.
  - apply foldr_qmin_le. by apply list_elem_of_fmap_2.
Qed.

Lemma arange_elem start stop step xs x :
  arange start stop step = Ok xs → x ∈ xs →
  ∃ i : nat, x = start + inject_Z (Z.of_nat i) * step.
Proof.
  unfold arange. destruct (Qeq_bool step 0); [done|].
  intros [= <-] Hx. apply list_elem_of_fmap in Hx as (i & -> & _). eauto.
Qed.

Lemma grid_cells_lon min_lon max_lon min_lat max_lat grid_size cells c :
  grid_cells min_lon max_lon min_lat max_lat grid_size = Ok cells →
  c ∈ cells →
  ∃ i : nat, c.1 = min_lon + inject_Z (Z.of_nat i) * grid_size.
Proof.
  unfold grid_cells.
  destruct (arange min_lon max_lon grid_size) as [lons|] eqn:Hlons; [|done].
  destruct (arange min_lat max_lat grid_size) as [lats|] eqn:Hlats; [|done].
  simpl. intros [= <-] Hc.
  apply list_elem_of_In, in_flat_map in Hc as (lon & Hlon & Hc).
  apply in_map_iff in Hc as (lat & <- & _). simpl.
  eapply arange_elem; [done|]. by apply list_elem_of_In.
Qed.

(** No cell of the grid contains a landmark on the western edge of the
    bounding box: the grid starts at the smallest longitude and a cell
    excludes its boundary. *)
Lemma westernmost_in_no_cell rows grid_size min_lon max_lon min_lat max_lat
      cells c r :
  column_min centroid_lon "'centroid_lon'" rows = Ok min_lon →
  grid_cells min_lon max_lon min_lat max_lat grid_size = Ok cells →
  c ∈ cells →
  centroid_lon r == min_lon →
  cell_contains grid_size c (centroid_lon r) (centroid_lat r) = false.
Proof.
  intros Hmin Hcells Hc Hr.
  apply not_true_is_false. intros Hin.
  apply cell_contains_spec in Hin as (Hlo & Hhi & _).
  destruct (grid_cells_lon _ _ _ _ _ _ _ Hcells Hc) as [i Hi].
  rewrite Hi in Hlo, Hhi. rewrite Hr in Hlo, Hhi.
  assert (0 <= inject_Z (Z.of_nat i)) as Hi0.
  { change 0 with (inject_Z 0). rewrite <- Zle_Qle. lia. }
  assert (0 < grid_size) as Hg by lra.
  assert (0 <= inject_Z (Z.of_nat i) * grid_size) as Hpos.
  { apply Qmult_le_0_compat; [done|]. by apply Qlt_le_weak. }
  lra.
Qed.

Lemma slot_unique (m gs x : Q) (i j : nat) :
  m + inject_Z (Z.of_nat i) * gs < x → x < m + inject_Z (Z.of_nat i) * gs + gs →
  m + inject_Z (Z.of_nat j) * gs < x → x < m + inject_Z (Z.of_nat j) * gs + gs →
  i = j.
Proof.
  intros Hi1 Hi2 Hj1 Hj2.
  assert (0 < gs) as Hg by lra.
  assert (∀ a b : nat, (a < b)%nat →
            inject_Z (Z.of_nat a) * gs + gs <= inject_Z (Z.of_nat b) * gs) as Hstep.
  { intros a b Hab.
    assert (inject_Z (Z.of_nat a) + 1 <= inject_Z (Z.of_nat b)) as Hle.
    { change 1 with (inject_Z 1). rewrite <- inject_Z_plus, <- Zle_Qle. lia. }
    apply (Qmult_le_compat_r _ _ gs) in Hle; [|lra]. lra. }
  destruct (lt_eq_lt_dec i j) as [[Hlt|Heq]|Hgt]; [|done|].
  - pose proof (Hstep _ _ Hlt). lra.
  - pose proof (Hstep _ _ Hgt). lra.
Qed.

Lemma cell_contains_slots gs c x y :
  cell_contains gs c x y = in_slot gs c.1 x && in_slot gs c.2 y.
Proof. unfold cell_contains, in_slot. by rewrite !andb_assoc. Qed.

Lemma in_slot_spec gs lo x : in_slot gs lo x = true ↔ lo < x ∧ x < lo + gs.
Proof. unfold in_slot. by rewrite andb_true_iff, !Qlt_bool_iff. Qed.

Lemma count_line (gs start x : Q) (n a : nat) :
  (length (List.filter (λ lo, in_slot gs lo x)
             (map (λ i : nat, (start + inject_Z (Z.of_nat i) * gs)%Q)
                  (seq a n)))
   ≤ 1)%nat.
Proof.
  set (f := λ i : nat, start + inject_Z (Z.of_nat i) * gs).
  assert (∀ l, (∀ i j, i ∈ l → j ∈ l → in_slot gs (f i) x = true →
                       in_slot gs (f j) x = true → i = j) →
               NoDup l →
               (length (List.filter (λ lo, in_slot gs lo x) (map f l)) ≤ 1)%nat)
    as Hgen.
  { induction l as [|i l IH]; intros Huniq Hnd; simpl; [lia|].
    apply NoDup_cons in Hnd as [Hi Hnd].
    destruct (in_slot gs (f i) x) eqn:E; simpl.
    - assert (List.filter (λ lo, in_slot gs lo x) (map f l) = []) as ->;
        [|simpl; lia].
      clear IH Hnd. induction l as [|j l IH]; simpl; [done|].
      assert (i ≠ j) as Hij by (intros ->; apply Hi, list_elem_of_here).
      destruct (in_slot gs (f j) x) eqn:Ej.
      + destruct Hij. apply Huniq; try done.
        * apply list_elem_of_here.
        * apply list_elem_of_further, list_elem_of_here.
      + apply IH.
        * intros a' b' Ha' Hb'. apply Huniq.
          -- apply elem_of_cons in Ha' as [->|Ha'];
               [apply list_elem_of_here|by do 2 apply list_elem_of_further].
          -- apply elem_of_cons in Hb' as [->|Hb'];
               [apply list_elem_of_here|by do 2 apply list_elem_of_further].
        * intros Hin. by apply Hi, list_elem_of_further.
    - apply IH; [|done]. intros a' b' Ha' Hb'.
      apply Huniq; by apply list_elem_of_further. }
  apply Hgen; [|apply NoDup_seq].
  intros i j _ _ Hi Hj.
  apply in_slot_spec in Hi as [Hi1 Hi2]. apply in_slot_spec in Hj as [Hj1 Hj2].
  by eapply (slot_unique start gs x).
Qed.

Lemma arange_count gs start stop x lons :
  arange start stop gs = Ok lons →
  (length (List.filter (λ lo, in_slot gs lo x) lons) ≤ 1)%nat.
Proof.
  unfold arange. destruct (Qeq_bool gs 0); [done|]. intros [= <-].
  apply count_line.
Qed.

Lemma arange_count_start gs start stop x lons :
  arange start stop gs = Ok lons → x == start →
  List.filter (λ lo, in_slot gs lo x) lons = [].
Proof.
  intros Hlons Hx.
  destruct (List.filter _ lons) as [|lo rest] eqn:E; [done|]. exfalso.
  assert (In lo (List.filter (λ lo, in_slot gs lo x) lons)) as Hin
    by (rewrite E; by left).
  apply filter_In in Hin as [Hin Hslot].
  apply in_slot_spec in Hslot as [H1 H2].
  destruct (arange_elem _ _ _ _ lo Hlons) as [i ->]; [by apply list_elem_of_In|].
  rewrite Hx in H1, H2.
  assert (0 <= inject_Z (Z.of_nat i)) as Hi0.
  { change 0 with (inject_Z 0). rewrite <- Zle_Qle. lia. }
  assert (0 < gs) as Hg by lra.
  assert (0 <= inject_Z (Z.of_nat i) * gs) as Hpos.
  { apply Qmult_le_0_compat; [done|]. by apply Qlt_le_weak. }
  lra.
Qed.

Lemma cells_in_column gs lon lats x y :
  length (List.filter (λ c, cell_contains gs c x y)
            (map (λ lat, (lon, lat)) lats))
  = if in_slot gs lon x
    then length (List.filter (λ lo, in_slot gs lo y) lats) else 0%nat.
Proof.
  induction lats as [|lat lats IH]; simpl; [by destruct (in_slot _ _ _)|].
  rewrite cell_contains_slots. simpl.
  destruct (in_slot gs lon x), (in_slot gs lat y); simpl; by rewrite ?IH.
Qed.

(** The cells of the grid that contain a point: as many as grid lines in
    longitude times grid lines in latitude. *)
Lemma cells_containing gs lons lats x y :
  length (List.filter (λ c, cell_contains gs c x y)
            (flat_map (λ lon, map (λ lat, (lon, lat)) lats) lons))
  = (length (List.filter (λ lo, in_slot gs lo x) lons)
     * length (List.filter (λ lo, in_slot gs lo y) lats))%nat.
Proof.
  induction lons as [|lon lons IH]; simpl; [done|].
  rewrite List.filter_app, length_app, IH, cells_in_column.
  destruct (in_slot gs lon x); simpl; lia.
Qed.

(** Each landmark is in at most one cell, and one on the western edge of the
    bounding box is in none. *)
Lemma cells_of_landmark gs min_lon max_lon min_lat max_lat cells r :
  grid_cells min_lon max_lon min_lat max_lat gs = Ok cells →
  (length (List.filter
             (λ c, cell_contains gs c (centroid_lon r) (centroid_lat r))
             cells) ≤ 1)%nat
  ∧ (centroid_lon r == min_lon →
     length (List.filter
               (λ c, cell_contains gs c (centroid_lon r) (centroid_lat r))
               cells) = 0%nat).
Proof.
  unfold grid_cells.
  destruct (arange min_lon max_lon gs) as [lons|] eqn:Hlons; [|done].
  destruct (arange min_lat max_lat gs) as [lats|] eqn:Hlats; [|done].
  simpl. intros [= <-]. rewrite cells_containing.
  pose proof (arange_count _ _ _ (centroid_lon r) _ Hlons) as Hx.
  pose proof (arange_count _ _ _ (centroid_lat r) _ Hlats) as Hy.
  split; [nia|].
  intros Hwest. by rewrite (arange_count_start _ _ _ _ _ Hlons Hwest).
Qed.

(** Counting cell by cell or landmark by landmark gives the same total. *)
Lemma double_count {A B} (p : A → B → bool) (cells : list A) (rows : list B) :
  sum_list (map (λ c, length (List.filter (p c) rows)) cells)
  = sum_list (map (λ r, length (List.filter (λ c, p c r) cells)) rows).
Proof.
  induction rows as [|r rows IH]; simpl.
  - induction cells as [|c cells IHc]; simpl; [done|]. by rewrite IHc.
  - rewrite <- IH. clear IH.
    induction cells as [|c cells IHc]; simpl; [done|].
    rewrite IHc. destruct (p c r); simpl; lia.
Qed.

(** The counts of the reported cells add up to the counts of all cells. *)
Lemma reported_counts gs rows (idx : nat → nat) cells :
  sum_list (landmark_count
              <$> omap id (imap (λ i, density_entry gs rows (idx i)) cells))
  = sum_list (map (count_in_cell gs rows) cells).
Proof.
  revert idx. induction cells as [|c cells IH]; intros idx; [done|].
  rewrite imap_cons.
  change (imap ((λ i, density_entry gs rows (idx i)) ∘ S) cells)
    with (imap (λ i, density_entry gs rows ((idx ∘ S) i)) cells).
  specialize (IH (idx ∘ S)).
  set (rest := omap id (imap (λ i, density_entry gs rows ((idx ∘ S) i)) cells))
    in *.
  simpl. unfold density_entry at 1.
  destruct (Nat.ltb_spec 0 (count_in_cell gs rows c)); simpl.
  - f_equal. exact IH.
  - etrans; [exact IH|lia].
Qed.

Lemma column_min_attained col k rows m :
  column_min col k rows = Ok m → ∃ r, r ∈ rows ∧ col r = m.
Proof.
  destruct rows as [|r0 rows]; [done|]. simpl. intros [= <-].
  induction rows as [|r rows IH]; simpl.
  - exists r0. split; [apply list_elem_of_here|done].
  - unfold qmin at 1. destruct (Qle_bool _ _).
    + exists r. split; [|done]. apply list_elem_of_further, list_elem_of_here.
    + destruct IH as (r' & Hr' & Heq). exists r'. split; [|done].
      apply elem_of_cons in Hr' as [->|Hr'].
      * apply list_elem_of_here.
      * by do 2 apply list_elem_of_further.
Qed.

Lemma sum_below {B} (f : B → nat) (rows : list B) r0 :
  (∀ r, r ∈ rows → f r ≤ 1)%nat → r0 ∈ rows → f r0 = 0%nat →
  (sum_list (map f rows) < length rows)%nat.
Proof.
  intros Hle Hin H0.
  assert (∀ l : list B, (∀ r, r ∈ l → f r ≤ 1)%nat →
            (sum_list (map f l) ≤ length l)%nat) as Hall.
  { induction l as [|r l IH]; intros Hl; simpl; [lia|].
    pose proof (Hl r ltac:(set_solver)).
    pose proof (IH ltac:(intros; apply Hl; set_solver)). lia. }
  induction rows as [|r rows IH]; [set_solver|]. simpl.
  apply elem_of_cons in Hin as [<-|Hin].
  - rewrite H0. pose proof (Hall rows ltac:(intros; apply Hle; set_solver)). lia.
  - pose proof (Hle r ltac:(set_solver)).
    pose proof (IH ltac:(intros; apply Hle; set_solver) Hin). lia.
Qed.

(** Whenever [density_analysis] returns for a frame with rows, the
    [landmark_count]s of the reported cells add up to less than the number
    of features. *)
Theorem density_counts_below_total rows gs rep :
  density_analysis (Analyzer (Some rows)) gs = Ok (Some rep) →
  (sum_list (landmark_count <$> density_data rep) < length rows)%nat.
Proof.
  unfold density_analysis. simpl.
  destruct (column_min centroid_lon _ rows) as [min_lon|] eqn:Hmin; [|done].
  destruct (column_max centroid_lon _ rows) as [max_lon|]; [|done].
  destruct (column_min centroid_lat _ rows) as [min_lat|]; [|done].
  destruct (column_max centroid_lat _ rows) as [max_lat|]; [|done].
  simpl.
  destruct (grid_cells min_lon max_lon min_lat max_lat gs) as [cells|] eqn:Hc;
    [|done].
  simpl. intros [= <-]. simpl.
  assert (sum_list (landmark_count
                      <$> omap id (imap (density_entry gs rows) cells))
          = sum_list (map (count_in_cell gs rows) cells)) as ->
    by exact (reported_counts gs rows id cells).
  unfold count_in_cell. rewrite double_count.
  destruct (column_min_attained _ _ _ _ Hmin) as (r0 & Hr0 & Hwest).
  apply (sum_below _ rows r0); [|done|].
  - intros r _. by apply (cells_of_landmark _ _ _ _ _ _ r Hc).
  - apply (cells_of_landmark _ _ _ _ _ _ r0 Hc). by rewrite Hwest.
Qed.
End Density.

Section ThreePoints.
Local Open Scope Q_scope.

(** The frames whose centroids are the three points, in any order. *)
Lemma three_points rows :
  map lonlat rows ≡ₚ [(0, 0); (1, 0); (2, 0)] →
  ∃ a b c, rows = [a; b; c]
    ∧ centroid_lat a = 0 ∧ centroid_lat b = 0 ∧ centroid_lat c = 0
    ∧ (centroid_lon a, centroid_lon b, centroid_lon c)
        ∈ [(0, 1, 2); (0, 2, 1); (1, 0, 2); (1, 2, 0); (2, 0, 1); (2, 1, 0)].
Proof.
  intros Hp.
  pose proof (Permutation_length Hp) as Hlen. rewrite length_map in Hlen.
  destruct rows as [|a [|b [|c [|]]]]; try done.
  exists a, b, c. split; [done|].
  assert (NoDup (map lonlat [a; b; c])) as Hnd.
  { rewrite Hp.
    repeat (apply NoDup_cons; split); try apply NoDup_nil_2;
      rewrite ?elem_of_cons, ?elem_of_nil; intuition discriminate. }
  assert (∀ r, r ∈ [a; b; c] → lonlat r ∈ [(0, 0); (1, 0); (2, 0)]) as Hin.
  { intros r Hr. rewrite <- Hp. by apply list_elem_of_fmap_2. }
  pose proof (Hin a ltac:(repeat constructor)) as Ha.
  pose proof (Hin b ltac:(repeat constructor)) as Hb.
  pose proof (Hin c ltac:(repeat constructor)) as Hc.
  clear Hin Hp Hlen. simpl in Hnd. unfold lonlat in *.
  destruct a as [pa ga ya xa], b as [pb gb yb xb], c as [pc gc yc xc].
  simpl in *.
  apply NoDup_cons in Hnd as [Hab Hnd].
  apply NoDup_cons in Hnd as [Hbc _].
  rewrite !elem_of_cons, elem_of_nil in Ha.
  rewrite !elem_of_cons, elem_of_nil in Hb.
  rewrite !elem_of_cons, elem_of_nil in Hc.
  rewrite !elem_of_cons, elem_of_nil in Hab.
  rewrite !elem_of_cons, elem_of_nil in Hbc.
  rewrite !elem_of_cons, elem_of_nil.
  destruct Ha as [Ha|[Ha|[Ha|[]]]], Hb as [Hb|[Hb|[Hb|[]]]],
           Hc as [Hc|[Hc|[Hc|[]]]];
    simplify_eq;
    first [ by (exfalso; apply Hab; auto)
          | by (exfalso; apply Hbc; auto)
          | (split_and!; auto 10) ].
Qed.

End ThreePoints.

Section Accessibility.
Variable geodesic : Q * Q → Q * Q → Q.
Local Open Scope Q_scope.

Lemma accessibility_loaded rows speed :
  rows ≠ [] →
  ∃ rep, accessibility_analysis geodesic (Analyzer (Some rows)) speed = Ok (Some rep)
    ∧ accessibility_data rep = imap (accessibility_entry geodesic rows speed) rows.
Proof.
  intros Hne. unfold accessibility_analysis. simpl.
  destruct rows as [|r rows]; [done|]. simpl. eauto.
Qed.

Lemma mean_pair a b : mean_or_0 [a; b] == (a + b) / 2.
Proof. unfold mean_or_0, Qsum. simpl. field. Qed.

Lemma mean_pair_ge a b m : 2 * m <= a + b → m <= mean_or_0 [a; b].
Proof.
  intros Hm. rewrite mean_pair. apply Qle_shift_div_l; lra.
Qed.

Lemma mean_pair_le a b m : a + b <= 2 * m → mean_or_0 [a; b] <= m.
Proof.
  intros Hm. rewrite mean_pair. apply Qle_shift_div_r; lra.
Qed.

Lemma score_high ds :
  0 <= mean_or_0 ds → mean_or_0 ds <= 112 →
  88 # 10000 <= round (1 / (mean_or_0 ds + 1)) 4.
Proof.
  intros H0 H1.
  eapply Qle_trans; [|apply PyFacts.round_mono, (PyFacts.Qinv_antitone _ 113); lra].
  by vm_compute.
Qed.

Lemma score_low ds :
  165 <= mean_or_0 ds →
  round (1 / (mean_or_0 ds + 1)) 4 <= 60 # 10000.
Proof.
  intros H0.
  eapply Qle_trans; [apply PyFacts.round_mono, (PyFacts.Qinv_antitone 166); lra|].
  by vm_compute.
Qed.

Lemma envelope_cases :
  degree_envelope geodesic →
  (110 <= geodesic (0, 0) (0, 1) <= 112)
  ∧ (110 <= geodesic (0, 1) (0, 0) <= 112)
  ∧ (110 <= geodesic (0, 1) (0, 2) <= 112)
  ∧ (110 <= geodesic (0, 2) (0, 1) <= 112)
  ∧ (220 <= geodesic (0, 0) (0, 2) <= 224)
  ∧ (220 <= geodesic (0, 2) (0, 0) <= 224).
Proof.
  intros Hg.
  assert (∀ a : Q, a ∈ [0; 1; 2] ↔ a = 0 ∨ a = 1 ∨ a = 2) as Hmem
    by (intros; set_unfold; tauto).
  pose proof (Hg 0 1) as H01. pose proof (Hg 1 0) as H10.
  pose proof (Hg 1 2) as H12. pose proof (Hg 2 1) as H21.
  pose proof (Hg 0 2) as H02. pose proof (Hg 2 0) as H20.
  rewrite !Hmem in *.
  change (Qabs (0 - 1)) with 1 in H01. change (Qabs (1 - 0)) with 1 in H10.
  change (Qabs (1 - 2)) with 1 in H12. change (Qabs (2 - 1)) with 1 in H21.
  change (Qabs (0 - 2)) with 2 in H02. change (Qabs (2 - 0)) with 2 in H20.
  destruct H01 as [? ?]; [tauto..|]. destruct H10 as [? ?]; [tauto..|].
  destruct H12 as [? ?]; [tauto..|]. destruct H21 as [? ?]; [tauto..|].
  destruct H02 as [? ?]; [tauto..|]. destruct H20 as [? ?]; [tauto..|].
  repeat split; lra.
Qed.

Lemma score_entry rows speed i r :
  accessibility_score (accessibility_entry geodesic rows speed i r)
  = round (1 / (mean_or_0 (distances_to_others geodesic rows i r) + 1)) 4.
Proof. reflexivity. Qed.

Local Arguments mean_or_0 : simpl never.
Local Arguments round : simpl never.
Local Arguments Qdiv : simpl never.
Local Arguments Qplus : simpl never.

(** The scores of the three features, whichever comes first: the one at
    (1,0) is strictly above any other. *)
Lemma middle_above a b c speed i j ri rj :
  degree_envelope geodesic →
  centroid_lat a = 0 → centroid_lat b = 0 → centroid_lat c = 0 →
  (centroid_lon a, centroid_lon b, centroid_lon c)
    ∈ [(0, 1, 2); (0, 2, 1); (1, 0, 2); (1, 2, 0); (2, 0, 1); (2, 1, 0)] →
  [a; b; c] !! i = Some ri → [a; b; c] !! j = Some rj →
  centroid_lon ri = 1 → centroid_lon rj ≠ 1 →
  accessibility_score (accessibility_entry geodesic [a; b; c] speed j rj)
  < accessibility_score (accessibility_entry geodesic [a; b; c] speed i ri).
Proof.
  intros Hg Ha Hb Hc Hlon Hi Hj Hmid Hend.
  destruct (envelope_cases Hg) as (H01 & H10 & H12 & H21 & H02 & H20).
  destruct a as [pa ga ya xa], b as [pb gb yb xb], c as [pc gc yc xc].
  simpl in Ha, Hb, Hc, Hlon. subst ya yb yc.
  apply Qle_lt_trans with (60 # 10000);
    [|apply Qlt_le_trans with (88 # 10000); [done|]].
  - set_unfold.
    destruct j as [|[|[|j]]]; simplify_eq/=;
      apply score_low; unfold distances_to_others; simpl;
      apply mean_pair_ge;
      destruct_or!; simplify_eq; try done; lra.
  - set_unfold.
    destruct i as [|[|[|i]]]; simplify_eq/=;
      unfold distances_to_others; simpl;
      (apply score_high; [apply mean_pair_ge|apply mean_pair_le]);
      destruct_or!; simplify_eq; lra.
Qed.

(** C5: for three features whose centroids are (0,0), (1,0) and (2,0), in
    any order, [accessibility_analysis] returns a report with one entry per
    feature, in which the entry of the feature at (1,0) has an
    [accessibility_score] strictly above the score of the entry of either
    other feature. *)
Theorem accessibility_middle_highest rows speed :
  degree_envelope geodesic →
  map lonlat rows ≡ₚ [(0, 0); (1, 0); (2, 0)] →
  ∃ rep,
    accessibility_analysis geodesic (Analyzer (Some rows)) speed
    = Ok (Some rep)
    ∧ length (accessibility_data rep) = 3%nat
    ∧ (∃ i ri ai,
         rows !! i = Some ri ∧ lonlat ri = (1, 0)
         ∧ accessibility_data rep !! i = Some ai
         ∧ ∀ j rj, rows !! j = Some rj → j ≠ i →
             ∃ aj, accessibility_data rep !! j = Some aj
                   ∧ accessibility_score aj < accessibility_score ai)
    ∧ ∀ i j ri rj ai aj,
        rows !! i = Some ri → rows !! j = Some rj →
        centroid_lon ri = 1 → centroid_lon rj ≠ 1 →
        accessibility_data rep !! i = Some ai →
        accessibility_data rep !! j = Some aj →
        accessibility_score aj < accessibility_score ai.
Proof.
  intros Hg Hp.
  destruct (three_points _ Hp) as (a & b & c & -> & Ha & Hb & Hc & Hlon).
  destruct (accessibility_loaded [a; b; c] speed ltac:(done))
    as (rep & Hrep & Hdata).
  exists rep. split; [done|]. rewrite Hdata. clear Hrep Hdata Hp.
  assert (∀ i j ri rj ai aj,
            [a; b; c] !! i = Some ri → [a; b; c] !! j = Some rj →
            centroid_lon ri = 1 → centroid_lon rj ≠ 1 →
            imap (accessibility_entry geodesic [a; b; c] speed) [a; b; c] !! i
            = Some ai →
            imap (accessibility_entry geodesic [a; b; c] speed) [a; b; c] !! j
            = Some aj →
            accessibility_score aj < accessibility_score ai) as Habove.
  { intros i j ri rj ai aj Hi Hj Hmid Hend Hai Haj.
    rewrite list_lookup_imap, Hi in Hai. rewrite list_lookup_imap, Hj in Haj.
    injection Hai as <-. injection Haj as <-.
    by apply (middle_above a b c speed i j ri rj). }
  split_and!; [by rewrite length_imap| |done].
  assert (∃ i ri, [a; b; c] !! i = Some ri ∧ lonlat ri = (1, 0)
                  ∧ ∀ j rj, [a; b; c] !! j = Some rj → j ≠ i →
                            centroid_lon rj ≠ 1) as (i & ri & Hi & Hmid & Hends).
  { unfold lonlat.
    destruct a as [pa ga ya xa], b as [pb gb yb xb], c as [pc gc yc xc].
    simpl in Ha, Hb, Hc, Hlon. subst ya yb yc. set_unfold.
    destruct_or!; simplify_eq;
      [exists 1%nat|exists 2%nat|exists 0%nat|exists 0%nat|exists 2%nat
       |exists 1%nat];
      (eexists; split_and!; [reflexivity|reflexivity|]);
      intros [|[|[|j]]] rj Hj Hne; simplify_eq/=; done. }
  exists i, ri, (accessibility_entry geodesic [a; b; c] speed i ri).
  split_and!; [done|done|by rewrite list_lookup_imap, Hi|].
  intros j rj Hj Hne.
  exists (accessibility_entry geodesic [a; b; c] speed j rj).
  split; [by rewrite list_lookup_imap, Hj|].
  apply (middle_above a b c speed i j ri rj); try done.
  - by injection Hmid.
  - by apply (Hends j rj).
Qed.

End Accessibility.

Section Clustering.
Variable message : list (Q * list Q) → string.
Variable fit_predict : clusterer → list (Q * Q) → res (list Z).

(** On every loaded frame and for every method the coordinates cannot be
    scaled: [spatial_clustering] raises the [ValueError] of the library,
    computes no label and leaves the frame without a [cluster] column. *)
Lemma spatial_clustering_raises rows method n_clusters :
  spatial_clustering (np_array_fit_transform message) fit_predict
                     (Analyzer (Some rows)) method n_clusters
  = (Err (Raise ValueError
            (message (map (λ r, (centroid_lon r, [centroid_lat r])) rows))),
     Analyzer (Some rows)).
Proof. reflexivity. Qed.

End Clustering.

Lemma accessibility_middle_highest_witness :
  ∃ rep,
    accessibility_analysis Samples.km_per_degree
                           (Analyzer (Some Samples.equator)) 50
    = Ok (Some rep)
    ∧ length (accessibility_data rep) = 3%nat
    ∧ (∃ i ri ai,
         Samples.equator !! i = Some ri ∧ lonlat ri = (1, 0)%Q
         ∧ accessibility_data rep !! i = Some ai
         ∧ ∀ j rj, Samples.equator !! j = Some rj → j ≠ i →
             ∃ aj, accessibility_data rep !! j = Some aj
                   ∧ (accessibility_score aj < accessibility_score ai)%Q)
    ∧ ∀ i j ri rj ai aj,
        Samples.equator !! i = Some ri → Samples.equator !! j = Some rj →
        centroid_lon ri = 1%Q → centroid_lon rj ≠ 1%Q →
        accessibility_data rep !! i = Some ai →
        accessibility_data rep !! j = Some aj →
        (accessibility_score aj < accessibility_score ai)%Q.
Proof.
  apply (accessibility_middle_highest Samples.km_per_degree Samples.equator 50).
  - intros a b Ha Hb.
    apply elem_of_cons in Ha as [->|Ha]; [|apply elem_of_cons in Ha as [->|Ha]; [|apply list_elem_of_singleton in Ha as ->]];
    (apply elem_of_cons in Hb as [->|Hb]; [|apply elem_of_cons in Hb as [->|Hb]; [|apply list_elem_of_singleton in Hb as ->]]);
    vm_compute; split; discriminate.
  - reflexivity.
Defined.

(** C2 fails on the code.  For one landmark in each quadrant of a 2 by 2
    degree square and cells of 1 degree, the bounding box of the centroids
    is a single cell whose corners are the four landmarks: no cell is
    reported as occupied and the counts sum to 0, not 4. *)
Theorem density_quadrants_uncounted :
  density_analysis (Analyzer (Some Samples.quadrants)) 1
  = Ok (Some {| density_data := [];
                max_density := 0;
                total_cells := 1;
                occupied_cells := 0 |}).
Proof. vm_compute. reflexivity. Qed.

(** C7 fails on the code.  For three named landmarks and the k-means
    method, [spatial_clustering] reports no cluster at all: the
    coordinates it builds cannot be scaled, the call raises [ValueError]
    whatever the clusterer would do, and the frame is left as it was. *)
Theorem clustering_towns_raises :
  ∀ (message : list (Q * list Q) → string)
    (fit_predict : clusterer → list (Q * Q) → res (list Z)),
    spatial_clustering (np_array_fit_transform message) fit_predict
                       (Analyzer (Some Samples.towns)) "kmeans" 3
    = (Err (Raise ValueError
              (message [(12.4922, [41.8902]); (12.4768, [41.8986]);
                        (14.9934, [37.7510])]%Q)),
       Analyzer (Some Samples.towns))
    ∧ ¬ ∃ res self',
          spatial_clustering (np_array_fit_transform message) fit_predict
                             (Analyzer (Some Samples.towns)) "kmeans" 3
          = (Ok (Some res), self').
Proof.
  intros message fit_predict. split.
  - apply spatial_clustering_raises.
  - intros (res & self' & Hrun).
    rewrite spatial_clustering_raises in Hrun. discriminate.
Qed.

End SpatialAnalysisSpec.

(** ** SpatialMLPredictor *)
Module MLModelsSpec.
Import Py MLModels.

Section Predictor.
Context `{SK : Sklearn} `{SH : Shapely.Ops}.

Lemma load_into_models store fs path self self' :
  (∀ p o, models (store p o) = models p) →
  load_into store fs path self = Some self' →
  models self' = models self.
Proof.
  intros Hstore. unfold load_into.
  destruct (fs !! path) as [[o|]|]; intros; simplify_eq; auto.
Qed.

(** A load that finds no readable model file leaves [self.models] as it
    was, whatever it does to the scalers and encoders. *)
Lemma load_model_without_file model_type self fs :
  (∀ o, fs !! pkl self model_type "model" ≠ Some (Some o)) →
  ∃ self',
    _load_model model_type (self, fs) = (Ok tt, (self', fs))
    ∧ models self' = models self.
Proof.
  intros Hfile. unfold _load_model, modify.
  eexists. split; [reflexivity|].
  destruct (load_into (λ p, set_model p model_type) fs _ self)
    as [self1|] eqn:H1; [|done].
  assert (self1 = self) as ->.
  { unfold load_into in H1.
    destruct (fs !! pkl self model_type "model") as [[o|]|] eqn:E;
      simplify_eq; [|done]. by destruct (Hfile o). }
  destruct (load_into (λ p, set_scaler p model_type) fs _ self)
    as [self2|] eqn:H2; [|done].
  apply load_into_models in H2 as H2'; [|done].
  destruct (String.eqb model_type "classification"); [|done].
  destruct (load_into (λ p, set_encoder p model_type) fs _ self2)
    as [self3|] eqn:H3; [|done].
  apply load_into_models in H3; [|done]. simpl. congruence.
Qed.

(** C3, as amended: when no model of that name is in memory and no readable
    model file of that name is on disk, [predict] fails with a plain
    [Exception] whose message says the model was not found or trained, and
    no model is stored by the call. *)
Theorem predict_without_model self fs features model_type :
  models self !! model_type = None →
  (∀ o, fs !! pkl self model_type "model" ≠ Some (Some o)) →
  ∃ self',
    predict features model_type (self, fs)
    = (Err (Raise Exception
              ("Prediction failed: Model '" +:+ model_type
               +:+ "' not found or trained")),
       (self', fs))
    ∧ models self' = models self.
Proof.
  intros Hmem Hfile.
  destruct (load_model_without_file model_type self fs Hfile)
    as (self' & Hload & Hmodels).
  exists self'. split; [|done].
  unfold predict, st_reraise.
  rewrite PyFacts.bind_run. cbn [get].
  destruct (decide (is_Some (models self !! model_type))) as [[? Hs]|_];
    [congruence|].
  rewrite PyFacts.bind_run, Hload, PyFacts.bind_run. cbn [get].
  rewrite Hmodels, Hmem. reflexivity.
Qed.

(** C4, as amended: when the frame has no ['type'] column, training the
    classification model fails with a plain [Exception] and the predictor
    and the files on disk are what they were before the call. *)
Theorem train_classification_without_type self fs gdf :
  has_column gdf "type" = false →
  ∃ msg,
    train_model gdf "classification" (self, fs)
    = (Err (Raise Exception
              ("Model training failed: Classification model training failed: "
               +:+ msg)),
       (self, fs)).
Proof.
  intros Htype.
  unfold train_model, _train_classification_model, st_reraise. simpl.
  rewrite PyFacts.bind_run. cbn [lift].
  destruct (_prepare_spatial_features gdf) as [features|e].
  - rewrite PyFacts.bind_run, Htype. eexists. reflexivity.
  - eexists. reflexivity.
Qed.

End Predictor.

Lemma predict_without_model_witness :
  ∃ self',
    predict [12.4922; 41.8902]%Q "accessibility" (Samples.untrained, ∅)
    = (Err (Raise Exception
              ("Prediction failed: Model '" +:+ "accessibility"
               +:+ "' not found or trained")),
       (self', ∅))
    ∧ models self' = models Samples.untrained.
Proof.
  apply (predict_without_model Samples.untrained ∅).
  - reflexivity.
  - intros o. vm_compute. discriminate.
Defined.

(** C3 as stated fails twice.  With nothing trained and nothing on disk the
    exception is a plain [Exception], not a model-not-found error; and with
    a saved model on disk [predict] loads it and returns a prediction. *)
Lemma predict_untrained_not_distinguished :
  ¬ (∃ e s,
       predict [12.4922; 41.8902]%Q "accessibility" (Samples.untrained, ∅)
       = (Err e, s)
       ∧ class_name (exn_cls e) = "ModelNotFoundError")
  ∧ ¬ (∃ e s,
         predict [12.4922; 41.8902]%Q "accessibility"
                 (Samples.untrained,
                  {["models/accessibility_model.pkl" := Some "saved"]})
         = (Err e, s)).
Proof.
  split.
  - intros (e & s & Hrun & Hcls). vm_compute in Hrun.
    injection Hrun as <- _. vm_compute in Hcls. discriminate.
  - intros (e & s & Hrun). vm_compute in Hrun. discriminate.
Qed.

Lemma train_classification_without_type_witness :
  ∃ msg,
    train_model (SH := Samples.point_ops) Samples.untyped "classification"
                (Samples.untrained, ∅)
    = (Err (Raise Exception
              ("Model training failed: Classification model training failed: "
               +:+ msg)),
       (Samples.untrained, ∅)).
Proof.
  apply (train_classification_without_type
           (SH := Samples.point_ops) Samples.untrained ∅ Samples.untyped).
  reflexivity.
Defined.

(** C4 as stated fails: the exception raised for a frame without ['type'] is
    a plain [Exception], not a model-input error. *)
Lemma train_untyped_not_distinguished :
  ¬ (∃ e,
       train_model (SH := Samples.point_ops) Samples.untyped "classification"
                   (Samples.untrained, ∅)
       = (Err e, (Samples.untrained, ∅))
       ∧ class_name (exn_cls e) = "ModelInputError").
Proof.
  intros (e & Hrun & Hcls). vm_compute in Hrun.
  injection Hrun as <-. vm_compute in Hcls. discriminate.
Qed.

End MLModelsSpec.

(** ** Persistence: the wrapper and the DELETE route *)
Module PersistenceSpec.
Import Py DatabaseIntegration.

Section Queries.
Variable ST_GeomFromText : string → option Shapely.geometry.

(** C9: with no field to change, [update_landmark] returns [False] and the
    connection, the table and the list of executed statements are what they
    were: no statement is sent. *)
Theorem update_landmark_no_fields landmark_id st :
  update_landmark ST_GeomFromText landmark_id None None None None None st
  = (Ok false, st).
Proof. reflexivity. Qed.

Lemma get_connection_frame st :
  server_up (get_connection st) = server_up st
  ∧ geospatial_data (get_connection st) = geospatial_data st
  ∧ now (get_connection st) = now st.
Proof.
  unfold get_connection, connect, with_conn.
  by destruct (conn st) as [[|]|].
Qed.

Lemma get_connection_reachable st :
  server_up st = true → conn (get_connection st) = Some Open.
Proof.
  intros Hup. unfold get_connection, connect, with_conn.
  destruct (conn st) as [[|]|] eqn:E; simpl; by rewrite ?Hup.
Qed.

(** The wrapper on an identifier that names no row: [False], no error and
    no row removed, when the database can be reached. *)
Lemma wrapper_delete_missing landmark_id st :
  geospatial_data st !! landmark_id = None →
  server_up st = true →
  ∃ st',
    delete_landmark ST_GeomFromText landmark_id st = (Ok false, st')
    ∧ geospatial_data st' = geospatial_data st.
Proof.
  intros Hmissing Hup.
  destruct (get_connection_frame st) as (Hup' & Htable & _).
  unfold delete_landmark, st_reraise. rewrite PyFacts.bind_run.
  unfold execute_query, st_reraise, send.
  rewrite (get_connection_reachable st Hup), Hup', Hup. simpl.
  rewrite Htable, Hmissing. simpl. eexists. split; [reflexivity|]. done.
Qed.

(** The route on such an identifier: an [HTTPException] with status 500,
    whether or not the database can be reached, and no row removed. *)
Lemma route_delete_missing landmark_id (st : App.app) :
  geospatial_data (App.database st) !! landmark_id = None →
  ∃ e st',
    App.delete_landmark ST_GeomFromText landmark_id st = (App.Raises e, st')
    ∧ App.status_code e = 500%Z
    ∧ geospatial_data (App.database st')
      = geospatial_data (App.database st).
Proof.
  intros Hmissing.
  destruct (get_connection_frame (App.database st)) as (Hup & Htable & _).
  unfold App.delete_landmark, App.execute_query, send.
  destruct (conn (get_connection (App.database st))); simpl.
  - destruct (server_up (get_connection (App.database st))); simpl.
    + rewrite Htable, Hmissing. simpl.
      eexists _, _. split; [reflexivity|done].
    + eexists _, _. split; [reflexivity|done].
  - eexists _, _. split; [reflexivity|done].
Qed.

(** C6, as amended: for an identifier that names no record,
    [DatabaseIntegration.delete_landmark] returns [False] without raising
    when the database can be reached, while the DELETE route answers with an
    [HTTPException]; neither removes a record. *)
Theorem delete_missing_landmark landmark_id st (app : App.app) :
  geospatial_data st !! landmark_id = None →
  server_up st = true →
  geospatial_data (App.database app) !! landmark_id = None →
  (∃ st',
     delete_landmark ST_GeomFromText landmark_id st = (Ok false, st')
     ∧ geospatial_data st' = geospatial_data st)
  ∧ (∃ e app',
       App.delete_landmark ST_GeomFromText landmark_id app
       = (App.Raises e, app')
       ∧ geospatial_data (App.database app')
         = geospatial_data (App.database app)).
Proof.
  intros Hst Hup Happ. split.
  - by apply wrapper_delete_missing.
  - destruct (route_delete_missing landmark_id app Happ)
      as (e & app' & Hrun & _ & Htable).
    eauto.
Qed.

End Queries.

Lemma delete_missing_landmark_witness :
  (∃ st',
     delete_landmark Samples.equator_wkt 7 Samples.empty_db = (Ok false, st')
     ∧ geospatial_data st' = geospatial_data Samples.empty_db)
  ∧ (∃ e app',
       App.delete_landmark Samples.equator_wkt 7 Samples.idle_app
       = (App.Raises e, app')
       ∧ geospatial_data (App.database app')
         = geospatial_data (App.database Samples.idle_app)).
Proof.
  apply (delete_missing_landmark Samples.equator_wkt 7
                                 Samples.empty_db Samples.idle_app).
  - reflexivity.
  - reflexivity.
  - reflexivity.
Defined.

(** C6 as stated fails on the route: deleting identifier 7 from an empty
    table of a reachable database sends the DELETE, finds no row and raises
    an [HTTPException] instead of reporting zero rows. *)
Lemma route_delete_missing_raises :
  (∃ detail,
     App.delete_landmark Samples.equator_wkt 7 Samples.idle_app
     = (App.Raises (App.HTTPException 500 detail),
        {| App.database :=
             {| conn := Some Open; server_up := true; geospatial_data := ∅;
                now := 0; executed := [Delete 7] |};
           App.active_connections := [];
           App.delivered := [] |}))
  ∧ ¬ (∃ body app',
         App.delete_landmark Samples.equator_wkt 7 Samples.idle_app
         = (App.Returns body, app')).
Proof.
  split; [eexists; by vm_compute|].
  intros (body & app' & Hrun). vm_compute in Hrun. discriminate.
Qed.

End PersistenceSpec.

(** ** DataProcessor *)
Module DataProcessorSpec.
Import Py DataProcessor.

Section Clean.
Context `{SH : Shapely.Ops} `{PD : Pandas}.

Lemma filter_length_le {A} (p : A → bool) (l : list A) :
  (length (List.filter p l) ≤ length l)%nat.
Proof.
  induction l as [|x l IH]; simpl; [done|].
  destruct (p x); simpl; lia.
Qed.

Lemma drop_length_le mask gdf : (length (drop mask gdf) ≤ length gdf)%nat.
Proof.
  unfold drop. rewrite length_fmap.
  etrans; [apply filter_length_le|].
  rewrite length_zip. lia.
Qed.

Lemma duplicated_length seen gdf : length (duplicated seen gdf) = length gdf.
Proof.
  revert seen. induction gdf as [|f gdf IH]; intros seen; simpl; [done|].
  case_bool_decide; simpl; by rewrite IH.
Qed.

Lemma clean_column_length col vals :
  length (clean_column col vals) = length vals.
Proof.
  unfold clean_column.
  repeat case_match; by rewrite ?length_map.
Qed.

Lemma clean_attributes_length cols gdf :
  length (clean_attributes cols gdf) = length gdf.
Proof.
  unfold clean_attributes. revert gdf.
  induction cols as [|col cols IH]; intros gdf; simpl; [done|].
  rewrite IH, length_zip_with, clean_column_length, length_map. lia.
Qed.

Lemma to_json_length gdf : length (to_json gdf) = length gdf.
Proof. unfold to_json. apply length_map. Qed.

Lemma note_counts issue applied self :
  ∃ self', note issue applied self = (Ok tt, self')
           ∧ counts self' = counts self.
Proof.
  eexists. split; [reflexivity|].
  unfold counts. simpl. by destruct (cleaning_report self).
Qed.

Lemma note_fix_counts applied self :
  ∃ self', note_fix applied self = (Ok tt, self')
           ∧ counts self' = counts self.
Proof.
  eexists. split; [reflexivity|].
  unfold counts. simpl. by destruct (cleaning_report self).
Qed.

Lemma remove_invalid_shrinking : shrinking remove_invalid.
Proof.
  intros gdf self. unfold remove_invalid.
  destruct (existsb missing_or_empty gdf); [|by eexists _, _].
  destruct (note_counts (found (count missing_or_empty gdf)
                               "invalid geometries")
                        "Removed invalid geometries" self)
    as (self' & Hnote & Hcounts).
  rewrite PyFacts.bind_run, Hnote.
  eexists _, _. split; [reflexivity|]. split; [|done].
  apply filter_length_le.
Qed.

Lemma fix_invalid_shrinking : shrinking fix_invalid.
Proof.
  intros gdf self. unfold fix_invalid.
  destruct (existsb invalid gdf); [|by eexists _, _].
  destruct (note_counts (found (count invalid gdf) "invalid geometries")
                        "Fixed invalid geometries using buffer(0)" self)
    as (self' & Hnote & Hcounts).
  rewrite PyFacts.bind_run, Hnote.
  eexists _, _. split; [reflexivity|]. split; [|done].
  by rewrite length_map.
Qed.

Lemma remove_duplicates_shrinking : shrinking remove_duplicates.
Proof.
  intros gdf self. unfold remove_duplicates.
  destruct (existsb id (duplicated [] gdf)); [|by eexists _, _].
  destruct (note_counts (found (length (List.filter id (duplicated [] gdf)))
                               "duplicate geometries")
                        "Removed duplicate geometries" self)
    as (self' & Hnote & Hcounts).
  rewrite PyFacts.bind_run, Hnote.
  eexists _, _. split; [reflexivity|]. split; [|done].
  apply drop_length_le.
Qed.

(** On a collection with at least one feature [clean_data] returns. *)
Lemma clean_data_returns data self :
  data ≠ [] →
  ∃ out self',
    clean_data data self = (Ok out, self')
    ∧ (length out ≤ length data)%nat
    ∧ counts self' = Some (length data, length out).
Proof.
  intros Hdata. unfold clean_data, st_reraise.
  rewrite PyFacts.bind_run. cbn [set_report modify].
  rewrite PyFacts.bind_run. cbn [lift].
  destruct data as [|f data]; [done|]. cbn match.
  set (gdf0 := f :: data).
  set (self0 := {| cleaning_report := _ |}).
  destruct (remove_invalid_shrinking gdf0 self0)
    as (gdf1 & self1 & H1 & L1 & C1).
  destruct (fix_invalid_shrinking gdf1 self1)
    as (gdf2 & self2 & H2 & L2 & C2).
  destruct (remove_duplicates_shrinking gdf2 self2)
    as (gdf3 & self3 & H3 & L3 & C3).
  destruct (note_fix_counts "Set CRS to EPSG:4326" self3)
    as (self4 & H4 & C4).
  rewrite PyFacts.bind_run, H1, PyFacts.bind_run, H2, PyFacts.bind_run, H3.
  rewrite PyFacts.bind_run, H4, PyFacts.bind_run.
  cbn [set_final_count modify].
  eexists _, _. split; [reflexivity|].
  rewrite to_json_length, clean_attributes_length.
  split; [lia|].
  assert (counts self4 = Some (length gdf0, 0)) as Hc
    by (rewrite C4, C3, C2, C1; reflexivity).
  unfold counts in *. simpl.
  destruct (cleaning_report self4) as [r|]; simplify_eq/=. congruence.
Qed.

Lemma clean_data_empty self :
  ∃ self', clean_data [] self
           = (Err (Raise Exception
                     "Data cleaning failed: No geometry data set yet"), self')
           ∧ counts self' = Some (0, 0).
Proof. eexists. split; reflexivity. Qed.

(** C10: whenever [clean_data] returns a collection, it has at most as many
    features as the input, and the report's [original_count] is the number
    of input features and its [final_count] the number of output features. *)
Theorem clean_data_counts data self out self' :
  clean_data data self = (Ok out, self') →
  (length out ≤ length data)%nat
  ∧ ∃ r, cleaning_report self' = Some r
         ∧ original_count r = length data
         ∧ final_count r = length out.
Proof.
  intros Hrun.
  destruct data as [|f data].
  - destruct (clean_data_empty self) as (? & Hempty & _). congruence.
  - destruct (clean_data_returns (f :: data) self ltac:(done))
      as (out' & self'' & Hret & Hlen & Hcounts).
    rewrite Hret in Hrun. simplify_eq. split; [done|].
    unfold counts in Hcounts.
    destruct (cleaning_report self') as [r|]; simplify_eq/=. eauto.
Qed.

End Clean.

Lemma clean_data_counts_witness :
  ∃ out self',
    clean_data (SH := Samples.point_ops) (PD := Samples.plain_pandas)
               Samples.dirty (Processor None)
    = (Ok out, self')
    ∧ (length out ≤ length Samples.dirty)%nat
    ∧ ∃ r, cleaning_report self' = Some r
           ∧ original_count r = length Samples.dirty
           ∧ final_count r = length out.
Proof.
  eexists _, _. split; [vm_compute; reflexivity|].
  eapply (clean_data_counts (SH := Samples.point_ops)
                            (PD := Samples.plain_pandas)
                            Samples.dirty (Processor None)).
  vm_compute. reflexivity.
Defined.

End DataProcessorSpec.


(** ** SpatialAnalyzer: further properties *)
Module SpatialAnalysisMore.
Import Py SpatialAnalysis.

Section Order.
Context {A : Type} (key : A → Q).

Lemma insert_by_ties (k : Q) x l :
  List.filter (λ e, Qeq_bool (key e) k) (insert_by key x l)
  = List.filter (λ e, Qeq_bool (key e) k) (x :: l).
Proof.
  induction l as [|y l IH]; [done|]. simpl.
  destruct (Qle_bool (key x) (key y)) eqn:Hle; [done|].
  simpl. rewrite IH. simpl.
  destruct (Qeq_bool (key x) k) eqn:Hx, (Qeq_bool (key y) k) eqn:Hy; try done.
  apply Qeq_bool_iff in Hx, Hy.
  assert (Qle_bool (key x) (key y) = true); [|congruence].
  apply Qle_bool_iff. rewrite Hx, Hy. apply Qle_refl.
Qed.

(** [list.sort] is stable: the elements that share a key stay in their
    order. *)
Lemma sort_by_ties (k : Q) l :
  List.filter (λ e, Qeq_bool (key e) k) (sort_by key l)
  = List.filter (λ e, Qeq_bool (key e) k) l.
Proof.
  induction l as [|x l IH]; [done|].
  change (sort_by key (x :: l)) with (insert_by key x (sort_by key l)).
  rewrite insert_by_ties. simpl. by rewrite IH.
Qed.

Lemma filter_take_prefix (p : A → bool) n l :
  List.filter p (take n l) `prefix_of` List.filter p l.
Proof.
  rewrite <- (take_drop n l) at 2. rewrite List.filter_app.
  by apply prefix_app_r.
Qed.

Lemma slice_to_take {B} (l : list B) n : ∃ k, slice_to l n = take k l.
Proof. unfold slice_to. destruct (0 <=? n)%Z; eauto. Qed.

Lemma sorted_split n l :
  StronglySorted (by_key key) l →
  ∀ a b, a ∈ take n l → b ∈ drop n l → (key a <= key b)%Q.
Proof.
  intros Hl. revert n.
  induction Hl as [|y l Hl IH Hy]; intros n a b.
  - rewrite take_nil. by intros ?%elem_of_nil.
  - destruct n as [|n]; simpl.
    + by intros ?%elem_of_nil.
    + intros [->|Ha]%elem_of_cons Hb.
      * eapply Forall_forall in Hy; [exact Hy|].
        by eapply (subseteq_drop n).
      * by eapply IH.
Qed.

End Order.

Section NearestOrder.
Variable geodesic : Q * Q → Q * Q → Q.

(** The entries [find_nearest_landmarks] sorts: one per row, in frame
    order. *)
Local Abbreviation entries rows lat lon :=
  (imap (nearest_entry geodesic rows lat lon) rows).

(** X1: landmarks at the same rounded distance come back in frame order:
    for every distance [d] the returned entries at that distance are an
    initial part of the frame's entries at that distance. *)
Theorem find_nearest_ties_in_frame_order rows lat lon n (d : Q) :
  List.filter (λ e, Qeq_bool (distance_km e) d)
              (find_nearest_landmarks geodesic (Analyzer (Some rows))
                                      lat lon n)
  `prefix_of`
  List.filter (λ e, Qeq_bool (distance_km e) d) (entries rows lat lon).
Proof.
  rewrite SpatialAnalysisSpec.find_nearest_loaded.
  destruct (slice_to_take (sort_by distance_km (entries rows lat lon)) n)
    as [k ->].
  rewrite <- (sort_by_ties distance_km d (entries rows lat lon)).
  apply filter_take_prefix.
Qed.

(** X2: what is returned are the nearest landmarks: together with the
    entries left out they make up the whole frame, and no entry left out is
    nearer than a returned one. *)
Theorem find_nearest_are_nearest rows lat lon n :
  ∃ rest,
    find_nearest_landmarks geodesic (Analyzer (Some rows)) lat lon n ++ rest
    ≡ₚ entries rows lat lon
    ∧ ∀ a b,
        a ∈ find_nearest_landmarks geodesic (Analyzer (Some rows)) lat lon n →
        b ∈ rest →
        (distance_km a <= distance_km b)%Q.
Proof.
  rewrite SpatialAnalysisSpec.find_nearest_loaded.
  destruct (slice_to_take (sort_by distance_km (entries rows lat lon)) n)
    as [k ->].
  exists (drop k (sort_by distance_km (entries rows lat lon))). split.
  - rewrite take_drop. apply PyFacts.sort_by_perm.
  - apply sorted_split, PyFacts.sort_by_sorted.
Qed.

End NearestOrder.

Section Extremal.
Local Open Scope Q_scope.
Context {A : Type} (key : A → Q).

Lemma Qlt_bool_false a b : Qlt_bool a b = false ↔ b <= a.
Proof.
  unfold Qlt_bool. rewrite negb_false_iff. apply Qle_bool_iff.
Qed.

Lemma max_by_fold (best : A) l :
  let m := foldl (λ best y, if Qlt_bool (key best) (key y) then y else best)
                 best l in
  (m = best ∨ m ∈ l) ∧ key best <= key m ∧ ∀ e, e ∈ l → key e <= key m.
Proof.
  revert best. induction l as [|y l IH]; intros best; simpl.
  - split_and!; [by left|apply Qle_refl|by intros ? ?%elem_of_nil].
  - destruct (Qlt_bool (key best) (key y)) eqn:E.
    + destruct (IH y) as (Hin & Hle & Hall).
      apply SpatialAnalysisSpec.Qlt_bool_iff in E.
      split_and!.
      * right. destruct Hin as [->|Hin];
          [apply list_elem_of_here|by apply list_elem_of_further].
      * apply Qlt_le_weak. eapply Qlt_le_trans; eauto.
      * intros e [->|He]%elem_of_cons; auto.
    + destruct (IH best) as (Hin & Hle & Hall).
      apply Qlt_bool_false in E.
      split_and!.
      * destruct Hin as [->|Hin]; [by left|right; by apply list_elem_of_further].
      * done.
      * intros e [->|He]%elem_of_cons; [|auto].
        eapply Qle_trans; eauto.
Qed.

Lemma min_by_fold (best : A) l :
  let m := foldl (λ best y, if Qlt_bool (key y) (key best) then y else best)
                 best l in
  (m = best ∨ m ∈ l) ∧ key m <= key best ∧ ∀ e, e ∈ l → key m <= key e.
Proof.
  revert best. induction l as [|y l IH]; intros best; simpl.
  - split_and!; [by left|apply Qle_refl|by intros ? ?%elem_of_nil].
  - destruct (Qlt_bool (key y) (key best)) eqn:E.
    + destruct (IH y) as (Hin & Hle & Hall).
      apply SpatialAnalysisSpec.Qlt_bool_iff in E.
      split_and!.
      * right. destruct Hin as [->|Hin];
          [apply list_elem_of_here|by apply list_elem_of_further].
      * apply Qlt_le_weak. eapply Qle_lt_trans; eauto.
      * intros e [->|He]%elem_of_cons; auto.
    + destruct (IH best) as (Hin & Hle & Hall).
      apply Qlt_bool_false in E.
      split_and!.
      * destruct Hin as [->|Hin]; [by left|right; by apply list_elem_of_further].
      * done.
      * intros e [->|He]%elem_of_cons; [|auto].
        eapply Qle_trans; eauto.
Qed.

Lemma max_by_spec l m :
  max_by key l = Ok m → m ∈ l ∧ ∀ e, e ∈ l → key e <= key m.
Proof.
  destruct l as [|x l]; [done|]. simpl. intros [= <-].
  destruct (max_by_fold x l) as (Hin & Hle & Hall). split.
  - destruct Hin as [->|Hin];
      [apply list_elem_of_here|by apply list_elem_of_further].
  - intros e [->|He]%elem_of_cons; auto.
Qed.

Lemma min_by_spec l m :
  min_by key l = Ok m → m ∈ l ∧ ∀ e, e ∈ l → key m <= key e.
Proof.
  destruct l as [|x l]; [done|]. simpl. intros [= <-].
  destruct (min_by_fold x l) as (Hin & Hle & Hall). split.
  - destruct Hin as [->|Hin];
      [apply list_elem_of_here|by apply list_elem_of_further].
  - intros e [->|He]%elem_of_cons; auto.
Qed.

End Extremal.

Section AccessibilityBounds.
Local Open Scope Q_scope.
Variable geodesic : Q * Q → Q * Q → Q.

(** X3: [most_accessible] and [least_accessible] are entries of
    [accessibility_data] with the highest and the lowest score. *)
Theorem most_and_least_accessible rows speed rep :
  accessibility_analysis geodesic (Analyzer (Some rows)) speed
  = Ok (Some rep) →
  most_accessible rep ∈ accessibility_data rep
  ∧ least_accessible rep ∈ accessibility_data rep
  ∧ ∀ e, e ∈ accessibility_data rep →
         accessibility_score (least_accessible rep) <= accessibility_score e
         ∧ accessibility_score e <= accessibility_score (most_accessible rep).
Proof.
  unfold accessibility_analysis. simpl.
  set (data := imap _ rows).
  destruct (max_by accessibility_score data) as [most|] eqn:Hmost; [|done].
  destruct (min_by accessibility_score data) as [least|] eqn:Hleast; [|done].
  simpl. intros [= <-]. simpl.
  apply max_by_spec in Hmost as [? ?]. apply min_by_spec in Hleast as [? ?].
  split_and!; auto.
Qed.

Lemma qmax_ge_l a b : a <= qmax a b.
Proof.
  unfold qmax. destruct (Qle_bool a b) eqn:E; [|apply Qle_refl].
  by apply Qle_bool_iff.
Qed.

Lemma qmax_ge_r a b : b <= qmax a b.
Proof.
  unfold qmax. destruct (Qle_bool a b) eqn:E; [apply Qle_refl|].
  apply Qlt_le_weak, Qnot_le_lt. intros Hle.
  apply Qle_bool_iff in Hle. congruence.
Qed.

Lemma foldr_qmax_ge x l y : y = x ∨ y ∈ l → y <= foldr qmax x l.
Proof.
  induction l as [|z l IH]; simpl.
  - intros [->|?%elem_of_nil]; [apply Qle_refl|done].
  - intros [->|[->|Hy]%elem_of_cons].
    + eapply Qle_trans; [|apply qmax_ge_r]. apply IH. by left.
    + apply qmax_ge_l.
    + eapply Qle_trans; [|apply qmax_ge_r]. apply IH. by right.
Qed.

Lemma foldr_qmin_below x l y : y = x ∨ y ∈ l → foldr qmin x l <= y.
Proof.
  intros [->|Hy].
  - apply SpatialAnalysisSpec.foldr_qmin_le_init.
  - by apply SpatialAnalysisSpec.foldr_qmin_le.
Qed.

Lemma Qsum_ge m l :
  (∀ x, x ∈ l → m <= x) → inject_Z (Z.of_nat (length l)) * m <= Qsum l.
Proof.
  induction l as [|x l IH]; intros Hall.
  - unfold Qsum. simpl. change (inject_Z (Z.of_nat 0)) with 0. lra.
  - cbn [length Qsum foldr].
    rewrite Nat2Z.inj_succ, <- Z.add_1_r, inject_Z_plus.
    pose proof (Hall x ltac:(apply list_elem_of_here)).
    pose proof (IH ltac:(intros; apply Hall; by apply list_elem_of_further)).
    change (inject_Z 1) with 1. unfold Qsum in *. lra.
Qed.

Lemma Qsum_le m l :
  (∀ x, x ∈ l → x <= m) → Qsum l <= inject_Z (Z.of_nat (length l)) * m.
Proof.
  induction l as [|x l IH]; intros Hall.
  - unfold Qsum. simpl. change (inject_Z (Z.of_nat 0)) with 0. lra.
  - cbn [length Qsum foldr].
    rewrite Nat2Z.inj_succ, <- Z.add_1_r, inject_Z_plus.
    pose proof (Hall x ltac:(apply list_elem_of_here)).
    pose proof (IH ltac:(intros; apply Hall; by apply list_elem_of_further)).
    change (inject_Z 1) with 1. unfold Qsum in *. lra.
Qed.

Lemma length_pos_Q {B} (x : B) (l : list B) :
  0 < inject_Z (Z.of_nat (length (x :: l))).
Proof. change 0 with (inject_Z 0). rewrite <- Zlt_Qlt. simpl. lia. Qed.

(** The mean of the distances lies between the least and the greatest. *)
Lemma mean_between l : min_or_0 l <= mean_or_0 l ∧ mean_or_0 l <= max_or_0 l.
Proof.
  destruct l as [|d ds]; [by split|].
  unfold min_or_0, max_or_0, mean_or_0.
  pose proof (length_pos_Q d ds) as Hn. split.
  - apply Qle_shift_div_l; [done|]. rewrite Qmult_comm. apply Qsum_ge.
    intros x [->|Hx]%elem_of_cons; apply foldr_qmin_below; auto.
  - apply Qle_shift_div_r; [done|]. rewrite Qmult_comm. apply Qsum_le.
    intros x [->|Hx]%elem_of_cons; apply foldr_qmax_ge; auto.
Qed.

Lemma mean_nonneg l : (∀ x, x ∈ l → 0 <= x) → 0 <= mean_or_0 l.
Proof.
  intros Hall. destruct l as [|d ds]; [apply Qle_refl|].
  unfold mean_or_0. apply Qle_shift_div_l; [apply length_pos_Q|].
  pose proof (Qsum_ge 0 (d :: ds) Hall). lra.
Qed.

Lemma distances_nonneg rows idx r :
  (∀ p q, 0 <= geodesic p q) →
  ∀ x, x ∈ distances_to_others geodesic rows idx r → 0 <= x.
Proof.
  intros Hg x. unfold distances_to_others.
  rewrite list_elem_of_omap. intros (o & Ho & Hx). simpl in Hx. subst o.
  apply elem_of_lookup_imap in Ho as (j & other & Hj & _).
  destruct (decide (idx = j)); [done|]. by simplify_eq.
Qed.

Lemma entry_of_data rows speed rep e :
  accessibility_analysis geodesic (Analyzer (Some rows)) speed
  = Ok (Some rep) →
  e ∈ accessibility_data rep →
  ∃ idx r, rows !! idx = Some r
           ∧ e = accessibility_entry geodesic rows speed idx r.
Proof.
  unfold accessibility_analysis. simpl.
  destruct (max_by _ _); [|done]. destruct (min_by _ _); [|done].
  simpl. intros [= <-]. simpl.
  intros (idx & r & -> & Hr)%elem_of_lookup_imap. eauto.
Qed.

(** X4: in every entry the reported distances are ordered: least, mean,
    greatest. *)
Theorem reported_distances_ordered rows speed rep e :
  accessibility_analysis geodesic (Analyzer (Some rows)) speed
  = Ok (Some rep) →
  e ∈ accessibility_data rep →
  min_distance_km e <= avg_distance_km e
  ∧ avg_distance_km e <= max_distance_km e.
Proof.
  intros Hrun He.
  destruct (entry_of_data _ _ _ _ Hrun He) as (idx & r & _ & ->). simpl.
  destruct (mean_between (distances_to_others geodesic rows idx r)).
  split; by apply PyFacts.round_mono.
Qed.

(** X5: when no distance is negative, every accessibility score lies
    between 0 and 1. *)
Theorem accessibility_score_in_unit rows speed rep e :
  (∀ p q, 0 <= geodesic p q) →
  accessibility_analysis geodesic (Analyzer (Some rows)) speed
  = Ok (Some rep) →
  e ∈ accessibility_data rep →
  0 <= accessibility_score e ∧ accessibility_score e <= 1.
Proof.
  intros Hg Hrun He.
  destruct (entry_of_data _ _ _ _ Hrun He) as (idx & r & _ & ->). simpl.
  pose proof (mean_nonneg _ (distances_nonneg rows idx r Hg)) as Hmean.
  set (avg := mean_or_0 _) in *.
  assert (0 <= 1 / (avg + 1)) as H0.
  { apply Qle_shift_div_l; lra. }
  assert (1 / (avg + 1) <= 1) as H1.
  { apply Qle_shift_div_r; lra. }
  split.
  - eapply Qle_trans; [|apply PyFacts.round_mono, H0]. by vm_compute.
  - eapply Qle_trans; [apply PyFacts.round_mono, H1|]. by vm_compute.
Qed.

End AccessibilityBounds.

Section DensityReport.
Local Open Scope Q_scope.

Lemma column_max_attained col k rows m :
  column_max col k rows = Ok m → ∃ r, r ∈ rows ∧ col r = m.
Proof.
  destruct rows as [|r0 rows]; [done|]. simpl. intros [= <-].
  induction rows as [|r rows IH]; simpl.
  - exists r0. split; [apply list_elem_of_here|done].
  - unfold qmax at 1. destruct (Qle_bool _ _).
    + destruct IH as (r' & Hr' & Heq). exists r'. split; [|done].
      apply elem_of_cons in Hr' as [->|Hr'].
      * apply list_elem_of_here.
      * by do 2 apply list_elem_of_further.
    + exists r. split; [|done]. apply list_elem_of_further, list_elem_of_here.
Qed.

Lemma arange_flat start stop step :
  Qeq_bool step 0 = false → stop == start → arange start stop step = Ok [].
Proof.
  intros Hstep Heq. unfold arange. rewrite Hstep.
  assert ((stop - start) / step == 0) as ->; [|done].
  rewrite Heq. unfold Qdiv. ring.
Qed.

Lemma arange_defined start stop step :
  Qeq_bool step 0 = false → ∃ xs, arange start stop step = Ok xs.
Proof. intros Hstep. unfold arange. rewrite Hstep. eauto. Qed.

Lemma grid_cells_flat_lon lon1 lon2 min_lat max_lat gs :
  Qeq_bool gs 0 = false → lon2 == lon1 →
  grid_cells lon1 lon2 min_lat max_lat gs = Ok [].
Proof.
  intros Hgs Heq. unfold grid_cells.
  rewrite (arange_flat lon1 lon2 gs Hgs Heq).
  destruct (arange_defined min_lat max_lat gs Hgs) as [lats Hlats].
  simpl. by rewrite Hlats.
Qed.

Lemma grid_cells_flat_lat min_lon max_lon lat1 lat2 gs :
  Qeq_bool gs 0 = false → lat2 == lat1 →
  grid_cells min_lon max_lon lat1 lat2 gs = Ok [].
Proof.
  intros Hgs Heq. unfold grid_cells.
  destruct (arange_defined min_lon max_lon gs Hgs) as [lons ->].
  rewrite (arange_flat lat1 lat2 gs Hgs Heq). simpl. f_equal.
  by induction lons.
Qed.

(** X6: when every landmark has the same longitude, or every landmark the
    same latitude (a single landmark, a meridian, a parallel), the bounding
    box has no extent and the grid no cell: nothing is reported. *)
Theorem density_of_flat_frame rows grid_size (x : Q) :
  rows ≠ [] →
  Qeq_bool grid_size 0 = false →
  (∀ r, r ∈ rows → centroid_lon r == x)
  ∨ (∀ r, r ∈ rows → centroid_lat r == x) →
  density_analysis (Analyzer (Some rows)) grid_size
  = Ok (Some {| density_data := []; max_density := 0;
                total_cells := 0; occupied_cells := 0 |}).
Proof.
  intros Hrows Hgs Hflat. unfold density_analysis. simpl.
  destruct (column_min centroid_lon _ rows) as [min_lon|] eqn:Hmin_lon;
    [|by destruct rows].
  destruct (column_max centroid_lon _ rows) as [max_lon|] eqn:Hmax_lon;
    [|by destruct rows].
  destruct (column_min centroid_lat _ rows) as [min_lat|] eqn:Hmin_lat;
    [|by destruct rows].
  destruct (column_max centroid_lat _ rows) as [max_lat|] eqn:Hmax_lat;
    [|by destruct rows].
  simpl.
  destruct Hflat as [Hlon|Hlat].
  - destruct (SpatialAnalysisSpec.column_min_attained _ _ _ _ Hmin_lon)
      as (r1 & Hr1 & <-).
    destruct (column_max_attained _ _ _ _ Hmax_lon) as (r2 & Hr2 & <-).
    rewrite grid_cells_flat_lon; [done..|].
    eapply Qeq_trans; [apply (Hlon r2 Hr2)|apply Qeq_sym, (Hlon r1 Hr1)].
  - destruct (SpatialAnalysisSpec.column_min_attained _ _ _ _ Hmin_lat)
      as (r1 & Hr1 & <-).
    destruct (column_max_attained _ _ _ _ Hmax_lat) as (r2 & Hr2 & <-).
    rewrite grid_cells_flat_lat; [done..|].
    eapply Qeq_trans; [apply (Hlat r2 Hr2)|apply Qeq_sym, (Hlat r1 Hr1)].
Qed.

Lemma omap_length_le {A B} (f : A → option B) (l : list A) :
  (length (omap f l) ≤ length l)%nat.
Proof.
  induction l as [|x l IH]; [done|].
  change (omap f (x :: l))
    with (match f x with Some y => y :: omap f l | None => omap f l end).
  destruct (f x); simpl; lia.
Qed.

Lemma density_entry_spec gs rows i c d :
  density_entry gs rows i c = Some d →
  cell_id d = i
  ∧ landmark_count d = count_in_cell gs rows c
  ∧ (1 ≤ landmark_count d)%nat
  ∧ density d = inject_Z (Z.of_nat (landmark_count d)) / (gs * gs).
Proof.
  unfold density_entry.
  destruct (Nat.ltb_spec 0 (count_in_cell gs rows c)); [|done].
  intros [= <-]. simpl. split_and!; [done|done|lia|done].
Qed.

(** X7: in a density report every reported cell holds at least one and at
    most all of the landmarks, its [cell_id] is the position of a grid
    cell, its density is its count over the cell area and at most
    [max_density]; [occupied_cells] counts the reported cells and is at
    most [total_cells]. *)
Theorem density_report_consistent rows grid_size rep :
  density_analysis (Analyzer (Some rows)) grid_size = Ok (Some rep) →
  occupied_cells rep = length (density_data rep)
  ∧ (occupied_cells rep ≤ total_cells rep)%nat
  ∧ ∀ d, d ∈ density_data rep →
         (1 ≤ landmark_count d ≤ length rows)%nat
         ∧ (cell_id d < total_cells rep)%nat
         ∧ density d
           = inject_Z (Z.of_nat (landmark_count d)) / (grid_size * grid_size)
         ∧ density d <= max_density rep.
Proof.
  unfold density_analysis. simpl.
  destruct (column_min centroid_lon _ rows); [|done].
  destruct (column_max centroid_lon _ rows); [|done].
  destruct (column_min centroid_lat _ rows); [|done].
  destruct (column_max centroid_lat _ rows); [|done].
  simpl. destruct (grid_cells _ _ _ _ _) as [cells|]; [|done].
  simpl. intros [= <-]. simpl.
  split_and!; [done| |].
  - etrans; [apply omap_length_le|]. by rewrite length_imap.
  - intros d Hd.
    assert (density d <= foldr qmax 0
              (map density (omap id (imap (density_entry grid_size rows)
                                          cells)))) as Hmax.
    { apply foldr_qmax_ge. right. by apply list_elem_of_fmap_2. }
    apply list_elem_of_omap in Hd as (o & Ho & Hd). simpl in Hd. subst o.
    apply elem_of_lookup_imap in Ho as (i & c & Hentry & Hi).
    symmetry in Hentry.
    apply density_entry_spec in Hentry as (Hid & Hcount & Hone & Hden).
    split_and!; try done.
    + rewrite Hcount. apply List.filter_length_le.
    + rewrite Hid. by eapply lookup_lt_Some.
Qed.

End DensityReport.

Section ClusteringEffects.
Variable fit_transform : list (Q * list Q) → res (list (Q * Q)).
Variable fit_predict : clusterer → list (Q * Q) → res (list Z).

Lemma clusterer_of_unsupported method n_clusters :
  method ≠ "kmeans" → method ≠ "dbscan" → method ≠ "hierarchical" →
  clusterer_of method n_clusters
  = Err (Raise ValueError
           "Method must be 'kmeans', 'dbscan', or 'hierarchical'").
Proof.
  intros H1 H2 H3. unfold clusterer_of.
  by rewrite !(proj2 (String.eqb_neq _ _)).
Qed.

(** X8: a method name other than the three supported ones makes
    [spatial_clustering] raise and leaves the analyzer's frame as it was;
    when the coordinates could be scaled the exception is the [ValueError]
    that names the supported methods. *)
Theorem clustering_unsupported_method self rows method n_clusters :
  gdf self = Some rows →
  method ≠ "kmeans" → method ≠ "dbscan" → method ≠ "hierarchical" →
  ∃ e,
    spatial_clustering fit_transform fit_predict self method n_clusters
    = (Err e, self)
    ∧ ∀ coords_scaled,
        fit_transform (map (λ r, (centroid_lon r, [centroid_lat r])) rows)
        = Ok coords_scaled →
        e = Raise ValueError
              "Method must be 'kmeans', 'dbscan', or 'hierarchical'".
Proof.
  intros Hgdf H1 H2 H3. unfold spatial_clustering. rewrite Hgdf.
  destruct (fit_transform _) as [coords_scaled|e]; simpl.
  - rewrite clusterer_of_unsupported by done. simpl.
    eexists. split; [reflexivity|]. done.
  - eexists. split; [reflexivity|]. done.
Qed.

End ClusteringEffects.

Lemma most_and_least_accessible_witness :
  ∃ rep,
    accessibility_analysis Samples.km_per_degree
                           (Analyzer (Some Samples.equator)) 50
    = Ok (Some rep)
    ∧ most_accessible rep ∈ accessibility_data rep
    ∧ least_accessible rep ∈ accessibility_data rep
    ∧ ∀ e, e ∈ accessibility_data rep →
        (accessibility_score (least_accessible rep) <= accessibility_score e
         ∧ accessibility_score e
           <= accessibility_score (most_accessible rep))%Q.
Proof.
  eexists. split; [vm_compute; reflexivity|].
  apply (most_and_least_accessible Samples.km_per_degree Samples.equator 50).
  vm_compute. reflexivity.
Defined.

Lemma reported_distances_ordered_witness :
  ∃ rep e,
    accessibility_analysis Samples.km_per_degree
                           (Analyzer (Some Samples.equator)) 50
    = Ok (Some rep)
    ∧ accessibility_data rep !! 0%nat = Some e
    ∧ (min_distance_km e <= avg_distance_km e
       ∧ avg_distance_km e <= max_distance_km e)%Q.
Proof.
  eexists _, _. split; [vm_compute; reflexivity|].
  split; [reflexivity|].
  eapply (reported_distances_ordered Samples.km_per_degree Samples.equator 50).
  - vm_compute. reflexivity.
  - apply list_elem_of_here.
Defined.

Lemma accessibility_score_in_unit_witness :
  ∃ rep e,
    accessibility_analysis Samples.km_per_degree
                           (Analyzer (Some Samples.equator)) 50
    = Ok (Some rep)
    ∧ accessibility_data rep !! 1%nat = Some e
    ∧ (0 <= accessibility_score e ∧ accessibility_score e <= 1)%Q.
Proof.
  eexists _, _. split; [vm_compute; reflexivity|].
  split; [reflexivity|].
  eapply (accessibility_score_in_unit Samples.km_per_degree
                                      Samples.equator 50).
  - intros p q. unfold Samples.km_per_degree.
    apply Qmult_le_0_compat; [by vm_compute|].
    pose proof (Qabs_nonneg (p.1 - q.1)). pose proof (Qabs_nonneg (p.2 - q.2)).
    lra.
  - vm_compute. reflexivity.
  - apply list_elem_of_further, list_elem_of_here.
Defined.

Lemma density_of_flat_frame_witness :
  density_analysis (Analyzer (Some Samples.equator)) 1
  = Ok (Some {| density_data := []; max_density := 0;
                total_cells := 0; occupied_cells := 0 |}).
Proof.
  apply (density_of_flat_frame Samples.equator 1 0).
  - discriminate.
  - reflexivity.
  - right. intros r Hr.
    repeat (apply elem_of_cons in Hr as [->|Hr]; [reflexivity|]).
    by apply elem_of_nil in Hr.
Defined.

Lemma density_report_consistent_witness :
  ∃ rep,
    density_analysis
      (Analyzer (Some [Samples.landmark_at 0 0; Samples.landmark_at 1 1;
                       Samples.landmark_at 2 2])) 2
    = Ok (Some rep)
    ∧ occupied_cells rep = 1%nat
    ∧ occupied_cells rep = length (density_data rep)
    ∧ (occupied_cells rep ≤ total_cells rep)%nat
    ∧ ∀ d, d ∈ density_data rep →
        (1 ≤ landmark_count d ≤ 3)%nat
        ∧ (cell_id d < total_cells rep)%nat
        ∧ density d = (inject_Z (Z.of_nat (landmark_count d)) / (2 * 2))%Q
        ∧ (density d <= max_density rep)%Q.
Proof.
  eexists. split; [vm_compute; reflexivity|].
  split; [reflexivity|].
  apply (density_report_consistent
           [Samples.landmark_at 0 0; Samples.landmark_at 1 1;
            Samples.landmark_at 2 2] 2).
  vm_compute. reflexivity.
Defined.

Lemma clustering_unsupported_method_witness :
  ∃ e,
    spatial_clustering (np_array_fit_transform Samples.inhomogeneous)
                       Samples.west_or_noise
                       (Analyzer (Some Samples.towns)) "spectral" 3
    = (Err e, Analyzer (Some Samples.towns))
    ∧ ∀ coords_scaled,
        np_array_fit_transform
          Samples.inhomogeneous
          (map (λ r, (centroid_lon r, [centroid_lat r])) Samples.towns)
        = Ok coords_scaled →
        e = Raise ValueError
              "Method must be 'kmeans', 'dbscan', or 'hierarchical'".
Proof.
  apply (clustering_unsupported_method
           (np_array_fit_transform Samples.inhomogeneous)
           Samples.west_or_noise
           (Analyzer (Some Samples.towns)) Samples.towns "spectral" 3);
    [reflexivity|discriminate..].
Defined.

End SpatialAnalysisMore.

(** ** SpatialMLPredictor: further properties *)
Module MLModelsMore.
Import Py MLModels ModelReports.

Section Training.
Context `{SK : Sklearn} `{SH : Shapely.Ops}.

(** The three files of a model type are different files. *)
Lemma pkl_kinds self t :
  pkl self t "model" ≠ pkl self t "scaler"
  ∧ pkl self t "model" ≠ pkl self t "encoder"
  ∧ pkl self t "scaler" ≠ pkl self t "encoder".
Proof.
  unfold pkl. split_and!; intros H;
    do 3 apply (inj (String.append _)) in H; discriminate.
Qed.

(** What a training call that returns has stored: the model and the scaler
    under the model type, in memory and on disk, and for the classifier
    the encoder as well. *)
Lemma train_model_stores gdf t self fs r self' fs' :
  train_model gdf t (self, fs) = (Ok r, (self', fs')) →
  ∃ model scaler,
    t ∈ ["accessibility"; "clustering"; "classification"]
    ∧ models self' = <[t := model]> (models self)
    ∧ scalers self' = <[t := scaler]> (scalers self)
    ∧ model_path self' = model_path self
    ∧ (∃ features,
         _prepare_spatial_features gdf = Ok features
         ∧ match r with
           | AccessibilityTraining n _ _ | ClusteringTraining n _
           | ClassificationTraining n _ _ _ => n = List.length features
           end)
    ∧ if String.eqb t "classification"
      then ∃ encoder,
             encoders self' = <[t := encoder]> (encoders self)
             ∧ fs' = dump (dump (dump fs (pkl self t "model") model)
                                (pkl self t "scaler") scaler)
                          (pkl self t "encoder") encoder
      else encoders self' = encoders self
           ∧ fs' = dump (dump fs (pkl self t "model") model)
                        (pkl self t "scaler") scaler.
Proof.
  unfold train_model, st_reraise.
  destruct (String.eqb_spec t "accessibility") as [->|?].
  { unfold _train_accessibility_model, st_reraise.
    rewrite PyFacts.bind_run. cbn [lift].
    destruct (_prepare_spatial_features gdf) as [features|] eqn:Hf; [|done].
    rewrite PyFacts.bind_run. cbn [lift].
    destruct (_calculate_accessibility_scores gdf) as [scores|]; [|done].
    rewrite PyFacts.bind_run. cbn [lift].
    destruct (split_and_scale features scores) as [[scaler split]|]; [|done].
    rewrite PyFacts.bind_run. cbn [lift].
    destruct (fit_regressor "random_forest" split) as [[rf rf_metrics]|];
      [|done].
    rewrite PyFacts.bind_run. cbn [save_model modify].
    rewrite PyFacts.bind_run. cbn [lift].
    destruct (fit_regressor "gradient_boosting" split) as [[gb gb_metrics]|];
      [|done].
    simpl. intros [= <- <- <-]. exists rf, scaler.
    split_and!; [set_solver|done|done|done|by exists features|done..]. }
  destruct (String.eqb_spec t "clustering") as [->|?].
  { unfold _train_clustering_model, st_reraise.
    rewrite PyFacts.bind_run. cbn [lift].
    destruct (_prepare_spatial_features gdf) as [features|] eqn:Hf; [|done].
    rewrite PyFacts.bind_run. cbn [lift].
    destruct (fit_scaler features) as [[scaler features_scaled]|]; [|done].
    rewrite PyFacts.bind_run. cbn [lift].
    destruct (fit_clusterer "kmeans" features_scaled)
      as [[kmeans kmeans_metrics]|]; [|done].
    rewrite PyFacts.bind_run. cbn [save_model modify].
    rewrite PyFacts.bind_run. cbn [lift].
    destruct (fit_clusterer "dbscan" features_scaled) as [[db db_metrics]|];
      [|done].
    simpl. intros [= <- <- <-]. exists kmeans, scaler.
    split_and!; [set_solver|done|done|done|by exists features|done..]. }
  destruct (String.eqb_spec t "classification") as [->|?]; [|done].
  unfold _train_classification_model, st_reraise.
  rewrite PyFacts.bind_run. cbn [lift].
  destruct (_prepare_spatial_features gdf) as [features|] eqn:Hf; [|done].
  rewrite PyFacts.bind_run. cbn [lift].
  destruct (has_column gdf "type"); [|done].
  rewrite PyFacts.bind_run. cbn [lift].
  destruct (fit_encoder _) as [[[encoder target_encoded] classes]|]; [|done].
  rewrite PyFacts.bind_run. cbn [lift].
  destruct (split_and_scale features target_encoded) as [[scaler split]|];
    [|done].
  rewrite PyFacts.bind_run. cbn [lift].
  destruct (fit_classifier split) as [[model accuracy]|]; [|done].
  rewrite PyFacts.bind_run. cbn [save_model modify].
  rewrite PyFacts.bind_run. cbn [save_encoder modify].
  simpl. intros [= <- <- <-]. exists model, scaler.
  split_and!; [set_solver|done|done|done|by exists features|by exists encoder].
Qed.

(** X11: training the accessibility model is not atomic.  When the random
    forest has been fitted and the gradient boosting regressor then fails,
    the call raises, yet the random forest and the scaler have replaced
    what the predictor held and have been written to disk. *)
Theorem accessibility_training_not_atomic
        self fs gdf features scores scaler split rf rf_metrics e :
  _prepare_spatial_features gdf = Ok features →
  _calculate_accessibility_scores gdf = Ok scores →
  split_and_scale features scores = Ok (scaler, split) →
  fit_regressor "random_forest" split = Ok (rf, rf_metrics) →
  fit_regressor "gradient_boosting" split = Err e →
  ∃ self' fs',
    train_model gdf "accessibility" (self, fs)
    = (Err (Raise Exception
              ("Model training failed: Accessibility model training failed: "
               +:+ exn_str e)),
       (self', fs'))
    ∧ models self' !! "accessibility" = Some rf
    ∧ scalers self' !! "accessibility" = Some scaler
    ∧ fs' !! pkl self "accessibility" "model" = Some (Some rf)
    ∧ fs' !! pkl self "accessibility" "scaler" = Some (Some scaler).
Proof.
  intros Hfeatures Hscores Hsplit Hrf Hgb.
  unfold train_model, st_reraise. cbn [String.eqb Ascii.eqb Bool.eqb].
  unfold _train_accessibility_model, st_reraise.
  rewrite PyFacts.bind_run. cbn [lift]. rewrite Hfeatures.
  rewrite PyFacts.bind_run. cbn [lift]. rewrite Hscores.
  rewrite PyFacts.bind_run. cbn [lift]. rewrite Hsplit.
  rewrite PyFacts.bind_run. cbn [lift]. rewrite Hrf.
  rewrite PyFacts.bind_run. cbn [save_model modify].
  rewrite PyFacts.bind_run. cbn [lift]. rewrite Hgb.
  eexists _, _. split; [reflexivity|].
  destruct (pkl_kinds self "accessibility") as (Hms & _ & _).
  unfold dump. simpl.
  split_and!; [by rewrite lookup_insert_eq..| |by rewrite lookup_insert_eq].
  rewrite lookup_insert_ne by done. by rewrite lookup_insert_eq.
Qed.

(** X12: once [train_model] has returned, [get_model_info] reports the
    model type as trained with a scaler (and, for the classifier, an
    encoder) and lists it among the available models; what it reports of
    any other model type is unchanged; and the model and the scaler held in
    memory are the ones in the files. *)
Theorem trained_model_is_reported gdf t self fs r self' fs' :
  train_model gdf t (self, fs) = (Ok r, (self', fs')) →
  get_model_info self' (Some t)
  = InfoOf t true true
           (if String.eqb t "classification" then true
            else bool_decide (is_Some (encoders self !! t)))
  ∧ get_model_info self' None
    = InfoAll ({[t]} ∪ dom (models self)) ({[t]} ∪ dom (scalers self))
              (if String.eqb t "classification"
               then {[t]} ∪ dom (encoders self) else dom (encoders self))
  ∧ (∀ u, u ≠ t → u ≠ "" →
       get_model_info self' (Some u) = get_model_info self (Some u))
  ∧ ∃ model scaler,
      models self' !! t = Some model
      ∧ fs' !! pkl self' t "model" = Some (Some model)
      ∧ scalers self' !! t = Some scaler
      ∧ fs' !! pkl self' t "scaler" = Some (Some scaler).
Proof.
  intros Hrun.
  destruct (train_model_stores _ _ _ _ _ _ _ Hrun)
    as (model & scaler & Ht & Hmodels & Hscalers & Hpath & _ & Hrest).
  destruct (pkl_kinds self t) as (Hms & Hme & Hse).
  assert (pkl self' t = pkl self t) as Hpkl by (unfold pkl; by rewrite Hpath).
  assert (String.eqb t "" = false) as Hne.
  { repeat (apply elem_of_cons in Ht as [->|Ht]; [done|]).
    by apply elem_of_nil in Ht. }
  split_and!.
  - unfold get_model_info. rewrite Hne, Hmodels, Hscalers, !lookup_insert_eq.
    rewrite !bool_decide_eq_true_2 by eauto. f_equal.
    destruct (String.eqb t "classification").
    + destruct Hrest as (encoder & -> & _). rewrite lookup_insert_eq.
      by rewrite bool_decide_eq_true_2 by eauto.
    + by destruct Hrest as [-> _].
  - unfold get_model_info. rewrite Hmodels, Hscalers, !dom_insert_L.
    f_equal. destruct (String.eqb t "classification").
    + destruct Hrest as (encoder & -> & _). by rewrite dom_insert_L.
    + by destruct Hrest as [-> _].
  - intros u Hu Hu'. unfold get_model_info.
    apply String.eqb_neq in Hu'. rewrite Hu', Hmodels, Hscalers.
    rewrite !lookup_insert_ne by done. do 2 f_equal.
    destruct (String.eqb t "classification").
    + destruct Hrest as (encoder & -> & _). by rewrite lookup_insert_ne.
    + by destruct Hrest as [-> _].
  - exists model, scaler. rewrite Hpkl, Hmodels, Hscalers, !lookup_insert_eq.
    unfold dump in Hrest. destruct (String.eqb t "classification").
    + destruct Hrest as (encoder & _ & ->).
      split_and!; [done| |done|].
      * by rewrite !lookup_insert_ne, lookup_insert_eq by done.
      * by rewrite lookup_insert_ne, lookup_insert_eq by done.
    + destruct Hrest as [_ ->].
      split_and!; [done| |done|by rewrite lookup_insert_eq].
      by rewrite lookup_insert_ne, lookup_insert_eq by done.
Qed.

Lemma traverse_ok {A B} (f : A → res B) (l : list A) (out : list B) :
  traverse f l = Ok out → Forall2 (λ x y, f x = Ok y) l out.
Proof.
  revert out. induction l as [|x l IH]; simpl; intros out.
  - intros [= <-]. constructor.
  - destruct (f x) as [y|] eqn:Hx; [|done].
    destruct (traverse f l) as [ys|]; [|done].
    intros [= <-]. constructor; auto.
Qed.

Lemma prepare_features_ok gdf features :
  _prepare_spatial_features gdf = Ok features →
  Forall2 (λ r v, List.length v = 9%nat
                  ∧ ∃ g, geom r = Some g
                         ∧ take 2 v = [(Shapely.centroid g).1;
                                       (Shapely.centroid g).2])
          gdf features.
Proof.
  intros Hrun%traverse_ok.
  eapply Forall2_impl; [exact Hrun|]. intros r v. unfold feature_vector.
  destruct (geom r) as [g|]; [|done].
  destruct (Shapely.bounds g) as [[[min_x min_y] max_x] max_y].
  intros [= <-]. split; [done|]. by exists g.
Qed.

(** X13: [train_model] returns only for a frame in which every row has a
    geometry, and the [training_samples] it reports is the number of rows
    of the frame, whatever part of them the split kept for fitting. *)
Theorem training_counts_all_rows gdf t self fs r s' :
  train_model gdf t (self, fs) = (Ok r, s') →
  Forall (λ row, is_Some (geom row)) gdf
  ∧ match r with
    | AccessibilityTraining n _ _ | ClusteringTraining n _
    | ClassificationTraining n _ _ _ => n = List.length gdf
    end.
Proof.
  destruct s' as [self' fs']. intros Hrun.
  destruct (train_model_stores _ _ _ _ _ _ _ Hrun)
    as (_ & _ & _ & _ & _ & _ & (features & Hf & Hn) & _).
  apply prepare_features_ok in Hf. split.
  - eapply Forall2_Forall_l; [exact Hf|].
    apply Forall_true. intros v r' (_ & g & -> & _). eauto.
  - apply Forall2_length in Hf. destruct r; congruence.
Qed.

End Training.

Section Predicting.
Context `{SK : Sklearn} `{SH : Shapely.Ops}.

Lemma res_bind_ok {A B} (a : A) (k : A → res B) : (Ok a ≫= k) = k a.
Proof. reflexivity. Qed.

(** [predict] once the model is in memory, whether it was there or has just
    been loaded: the scaler of the model type, if any, then the model. *)
Lemma predict_run features t self self' fs model :
  (if decide (is_Some (models self !! t)) then mret tt else _load_model t)
    (self, fs) = (Ok tt, (self', fs)) →
  models self' !! t = Some model →
  predict features t (self, fs)
  = (reraise "Prediction failed: "
       (features_scaled ← match scalers self' !! t with
                          | Some scaler => transform scaler features
                          | None => Ok features
                          end;
        p ← predict_one model features_scaled;
        c ← confidence_of model features_scaled;
        mret {| predicted := p; confidence := c; model_type := t;
                features_used := List.length features |}),
     (self', fs)).
Proof.
  intros Hload Hmodel. unfold predict, st_reraise.
  rewrite PyFacts.bind_run. cbn [get].
  rewrite PyFacts.bind_run, Hload, PyFacts.bind_run. cbn [get].
  rewrite Hmodel, PyFacts.bind_run. cbn [lift].
  destruct (match scalers self' !! t with
            | Some scaler => transform scaler features
            | None => Ok features
            end) as [features_scaled|]; [|reflexivity].
  rewrite PyFacts.bind_run, res_bind_ok. cbn [lift].
  destruct (predict_one model features_scaled) as [p|]; [|reflexivity].
  rewrite PyFacts.bind_run, res_bind_ok. cbn [lift].
  by destruct (confidence_of model features_scaled) as [c|].
Qed.

(** [_load_model] returns, reads the files only, and stores under its own
    model type only. *)
Lemma load_model_frame t self fs :
  ∃ self',
    _load_model t (self, fs) = (Ok tt, (self', fs))
    ∧ model_path self' = model_path self
    ∧ ∀ u, u ≠ t →
        models self' !! u = models self !! u
        ∧ scalers self' !! u = scalers self !! u
        ∧ encoders self' !! u = encoders self !! u.
Proof.
  unfold _load_model, modify, load_into. eexists. split; [reflexivity|].
  repeat case_match; simplify_eq/=; (split; [done|]); intros u Hu;
    by rewrite ?lookup_insert_ne by done.
Qed.

(** The state [predict] leaves is the one its lookup of the model leaves:
    nothing after the lookup stores anything. *)
Lemma predict_state features t self fs :
  ∃ out,
    predict features t (self, fs)
    = (out,
       ((if decide (is_Some (models self !! t)) then mret tt
         else _load_model t) (self, fs)).2).
Proof.
  unfold predict, st_reraise.
  rewrite PyFacts.bind_run. cbn [get].
  rewrite PyFacts.bind_run.
  assert (∃ self', (if decide (is_Some (models self !! t)) then mret tt
                    else _load_model t) (self, fs) = (Ok tt, (self', fs)))
    as [self' ->].
  { destruct (decide _); [by eexists|].
    destruct (load_model_frame t self fs) as (self' & -> & _). by eexists. }
  rewrite PyFacts.bind_run. cbn [get].
  destruct (models self' !! t) as [model|]; [|by eexists].
  rewrite PyFacts.bind_run. cbn [lift].
  destruct (match scalers self' !! t with
            | Some scaler => transform scaler features
            | None => Ok features
            end) as [features_scaled|]; [|by eexists].
  rewrite PyFacts.bind_run. cbn [lift].
  destruct (predict_one model features_scaled) as [p|]; [|by eexists].
  rewrite PyFacts.bind_run. cbn [lift].
  destruct (confidence_of model features_scaled) as [c|]; by eexists.
Qed.

(** X14: [predict] never writes a file and never touches what the predictor
    holds for another model type; when the model is in memory it changes
    nothing at all. *)
Theorem predict_frame features t self fs out self' fs' :
  predict features t (self, fs) = (out, (self', fs')) →
  fs' = fs
  ∧ model_path self' = model_path self
  ∧ (is_Some (models self !! t) → self' = self)
  ∧ ∀ u, u ≠ t →
      models self' !! u = models self !! u
      ∧ scalers self' !! u = scalers self !! u
      ∧ encoders self' !! u = encoders self !! u.
Proof.
  destruct (predict_state features t self fs) as [out' ->].
  destruct (decide (is_Some (models self !! t))) as [Hmem|Hmem].
  - intros [= _ <- <-]. by split_and!.
  - destruct (load_model_frame t self fs) as (self1 & -> & Hpath & Hothers).
    intros [= _ <- <-]. by split_and!.
Qed.

(** X15: a model that has been trained and saved predicts after a restart
    as it does in the process that trained it.  A predictor with the same
    model path that holds no such model loads the files and gives the same
    prediction, or fails with the same exception. *)
Theorem saved_model_predicts_alike gdf t self fs r self' fs' fresh features :
  train_model gdf t (self, fs) = (Ok r, (self', fs')) →
  models fresh !! t = None →
  model_path fresh = model_path self →
  ∃ out fresh',
    predict features t (self', fs') = (out, (self', fs'))
    ∧ predict features t (fresh, fs') = (out, (fresh', fs'))
    ∧ models fresh' !! t = models self' !! t
    ∧ scalers fresh' !! t = scalers self' !! t.
Proof.
  intros Hrun Hnone Hpath.
  destruct (train_model_stores _ _ _ _ _ _ _ Hrun)
    as (model & scaler & Ht & Hmodels & Hscalers & Hpath' & _ & Hrest).
  destruct (pkl_kinds self t) as (Hms & Hme & Hse).
  assert (pkl fresh t = pkl self t) as Hpkl by (unfold pkl; by rewrite Hpath).
  assert (fs' !! pkl self t "model" = Some (Some model)
          ∧ fs' !! pkl self t "scaler" = Some (Some scaler)) as [Hfm Hfs].
  { unfold dump in Hrest. destruct (String.eqb t "classification").
    - destruct Hrest as (encoder & _ & ->).
      by rewrite !lookup_insert_ne, !lookup_insert_eq, lookup_insert_ne,
                 lookup_insert_eq by done.
    - destruct Hrest as [_ ->].
      by rewrite lookup_insert_ne, !lookup_insert_eq by done. }
  assert (∃ fresh',
            _load_model t (fresh, fs') = (Ok tt, (fresh', fs'))
            ∧ models fresh' !! t = Some model
            ∧ scalers fresh' !! t = Some scaler) as (fresh' & Hload & Hm & Hs).
  { unfold _load_model, modify, load_into. rewrite Hpkl, Hfm, Hfs.
    eexists. split; [reflexivity|].
    repeat case_match; simplify_eq/=; by rewrite !lookup_insert_eq. }
  eexists _, fresh'. split_and!.
  - apply (predict_run features t self' self' fs' model).
    + rewrite decide_True; [done|]. rewrite Hmodels, lookup_insert_eq. eauto.
    + by rewrite Hmodels, lookup_insert_eq.
  - rewrite (predict_run features t fresh fresh' fs' model); [|
      rewrite decide_False; [done|]; rewrite Hnone; by intros [? ?] | done].
    by rewrite Hs, Hscalers, lookup_insert_eq.
  - by rewrite Hm, Hmodels, lookup_insert_eq.
  - by rewrite Hs, Hscalers, lookup_insert_eq.
Qed.

(** X16: [evaluate_model] looks for the model in memory only.  Where
    [predict] would load a saved model, [evaluate_model] raises, whatever
    the files hold, and leaves the predictor and the files as they were. *)
Theorem evaluate_model_needs_memory
        (transform_all : estimator → list (list Q) → res (list (list Q)))
        (predict_all : estimator → list (list Q) → res (list Q))
        (mean_squared_error r2_score : list Q → list Q → res Q)
        t test_data self fs :
  models self !! t = None →
  evaluate_model transform_all predict_all mean_squared_error r2_score
                 t test_data (self, fs)
  = (Err (Raise Exception
            ("Model evaluation failed: Model '" +:+ t +:+ "' not found")),
     (self, fs)).
Proof.
  intros Hnone. unfold evaluate_model, st_reraise.
  rewrite PyFacts.bind_run. cbn [get]. by rewrite Hnone.
Qed.

End Predicting.

Section LoneLandmark.
Context `{SK : Sklearn} `{SH : Shapely.Ops}.
Variable geodesic : Q * Q → Q * Q → Q.

(** X17: the two accessibility scores disagree on a frame of one landmark.
    The training target of the predictor is 0, while the analyzer, for a
    speed other than 0, reports the landmark with average distance 0 and
    score 1. *)
Theorem lone_landmark_scores_differ (r : row) g (r0 : SpatialAnalysis.row)
        speed :
  geom r = Some g →
  ¬ (speed == 0)%Q →
  _calculate_accessibility_scores [r] = Ok [0%Q]
  ∧ ∃ e,
      SpatialAnalysis.accessibility_analysis
        geodesic (SpatialAnalysis.Analyzer (Some [r0])) speed
      = Ok (Some {| SpatialAnalysis.accessibility_data := [e];
                    SpatialAnalysis.most_accessible := e;
                    SpatialAnalysis.least_accessible := e |})
      ∧ (SpatialAnalysis.avg_distance_km e == 0)%Q
      ∧ (SpatialAnalysis.accessibility_score e == 1)%Q.
Proof.
  intros Hg _. split.
  - unfold _calculate_accessibility_scores, centroid_of. simpl.
    by rewrite Hg.
  - eexists. split; [reflexivity|]. by split.
Qed.

End LoneLandmark.

Lemma accessibility_training_not_atomic_witness :
  ∃ self' fs',
    train_model (SK := MoreSamples.boosting_fails) (SH := Samples.point_ops)
                Samples.untyped "accessibility"
                (Predictor ∅ ∅ ∅ "models", ∅)
    = (Err (Raise Exception
              ("Model training failed: Accessibility model training failed: "
               +:+ "out of memory")),
       (self', fs'))
    ∧ models self' !! "accessibility" = Some "random_forest"
    ∧ scalers self' !! "accessibility" = Some "scaler"
    ∧ fs' !! "models/accessibility_model.pkl" = Some (Some "random_forest")
    ∧ fs' !! "models/accessibility_scaler.pkl" = Some (Some "scaler").
Proof.
  edestruct (accessibility_training_not_atomic
               (SK := MoreSamples.boosting_fails) (SH := Samples.point_ops)
               (Predictor ∅ ∅ ∅ "models") ∅ Samples.untyped)
    as (self' & fs' & Hrun); [vm_compute; reflexivity..|].
  exists self', fs'. exact Hrun.
Defined.

Lemma trained_model_is_reported_witness :
  ∃ r self' fs',
    train_model (SK := Samples.named_estimators) (SH := Samples.point_ops)
                MoreSamples.typed "classification" (Samples.untrained, ∅)
    = (Ok r, (self', fs'))
    ∧ get_model_info self' (Some "classification")
      = InfoOf "classification" true true true
    ∧ get_model_info self' None
      = InfoAll ({["classification"]} ∪ dom (models Samples.untrained))
                ({["classification"]} ∪ dom (scalers Samples.untrained))
                ({["classification"]} ∪ dom (encoders Samples.untrained))
    ∧ (∀ u, u ≠ "classification" → u ≠ "" →
         get_model_info self' (Some u)
         = get_model_info Samples.untrained (Some u))
    ∧ ∃ model scaler,
        models self' !! "classification" = Some model
        ∧ fs' !! pkl self' "classification" "model" = Some (Some model)
        ∧ scalers self' !! "classification" = Some scaler
        ∧ fs' !! pkl self' "classification" "scaler" = Some (Some scaler).
Proof.
  eexists _, _, _. split; [vm_compute; reflexivity|].
  eapply (trained_model_is_reported
            (SK := Samples.named_estimators) (SH := Samples.point_ops)
            MoreSamples.typed "classification" Samples.untrained ∅).
  vm_compute. reflexivity.
Defined.

Lemma predict_frame_witness :
  ∃ out self',
    predict (SK := Samples.named_estimators)
            [12.4922; 41.8902]%Q "accessibility"
            (Samples.untrained,
             {["models/accessibility_model.pkl" := Some "saved"]})
    = (out, (self',
             {["models/accessibility_model.pkl" := Some "saved"]}))
    ∧ model_path self' = model_path Samples.untrained
    ∧ (is_Some (models Samples.untrained !! "accessibility") →
       self' = Samples.untrained)
    ∧ ∀ u, u ≠ "accessibility" →
        models self' !! u = models Samples.untrained !! u
        ∧ scalers self' !! u = scalers Samples.untrained !! u
        ∧ encoders self' !! u = encoders Samples.untrained !! u.
Proof.
  eexists _, _. split; [vm_compute; reflexivity|].
  eapply (predict_frame
            (SK := Samples.named_estimators)
            [12.4922; 41.8902]%Q "accessibility" Samples.untrained
            {["models/accessibility_model.pkl" := Some "saved"]}).
  vm_compute. reflexivity.
Defined.

Lemma saved_model_predicts_alike_witness :
  ∃ r self' fs',
    train_model (SK := Samples.named_estimators) (SH := Samples.point_ops)
                MoreSamples.typed "clustering" (Samples.untrained, ∅)
    = (Ok r, (self', fs'))
    ∧ ∃ out fresh',
        predict [12.4922; 41.8902]%Q "clustering" (self', fs')
        = (out, (self', fs'))
        ∧ predict [12.4922; 41.8902]%Q "clustering" (Samples.untrained, fs')
          = (out, (fresh', fs'))
        ∧ models fresh' !! "clustering" = models self' !! "clustering"
        ∧ scalers fresh' !! "clustering" = scalers self' !! "clustering".
Proof.
  eexists _, _, _. split; [vm_compute; reflexivity|].
  eapply (saved_model_predicts_alike
            (SK := Samples.named_estimators) (SH := Samples.point_ops)
            MoreSamples.typed "clustering" Samples.untrained ∅);
    [vm_compute; reflexivity|reflexivity..].
Defined.

Lemma training_counts_all_rows_witness :
  ∃ r s',
    train_model (SK := Samples.named_estimators) (SH := Samples.point_ops)
                MoreSamples.typed "accessibility" (Samples.untrained, ∅)
    = (Ok r, s')
    ∧ Forall (λ row, is_Some (geom row)) MoreSamples.typed
    ∧ match r with
      | AccessibilityTraining n _ _ | ClusteringTraining n _
      | ClassificationTraining n _ _ _ => n = 2%nat
      end.
Proof.
  eexists _, _. split; [vm_compute; reflexivity|].
  eapply (training_counts_all_rows
            (SK := Samples.named_estimators) (SH := Samples.point_ops)
            MoreSamples.typed "accessibility" Samples.untrained ∅).
  vm_compute. reflexivity.
Defined.

Lemma evaluate_model_needs_memory_witness :
  (∃ p s,
     predict (SK := Samples.named_estimators)
             [12.4922; 41.8902]%Q "accessibility"
             (Samples.untrained,
              {["models/accessibility_model.pkl" := Some "saved"]})
     = (Ok p, s))
  ∧ evaluate_model (SK := Samples.named_estimators)
                   (SH := Samples.point_ops)
                   (λ _ X, Ok X) (λ _ X, Ok (map (λ _, 0%Q) X))
                   (λ _ _, Ok 0%Q) (λ _ _, Ok 1%Q)
                   "accessibility" MoreSamples.typed
                   (Samples.untrained,
                    {["models/accessibility_model.pkl" := Some "saved"]})
    = (Err (Raise Exception
              ("Model evaluation failed: Model '" +:+ "accessibility"
               +:+ "' not found")),
       (Samples.untrained,
        {["models/accessibility_model.pkl" := Some "saved"]})).
Proof.
  split; [eexists _, _; vm_compute; reflexivity|].
  apply (evaluate_model_needs_memory
           (SK := Samples.named_estimators) (SH := Samples.point_ops)).
  reflexivity.
Defined.

Lemma lone_landmark_scores_differ_witness :
  _calculate_accessibility_scores
    (SK := Samples.named_estimators) (SH := Samples.point_ops)
    Samples.untyped = Ok [0%Q]
  ∧ ∃ e,
      SpatialAnalysis.accessibility_analysis
        Samples.km_per_degree
        (SpatialAnalysis.Analyzer (Some [Samples.landmark_at 12.4922 41.8902]))
        50
      = Ok (Some {| SpatialAnalysis.accessibility_data := [e];
                    SpatialAnalysis.most_accessible := e;
                    SpatialAnalysis.least_accessible := e |})
      ∧ (SpatialAnalysis.avg_distance_km e == 0)%Q
      ∧ (SpatialAnalysis.accessibility_score e == 1)%Q.
Proof.
  apply (lone_landmark_scores_differ
           (SK := Samples.named_estimators) (SH := Samples.point_ops)
           Samples.km_per_degree
           (MLModels.Row (Some (Shapely.Point 12.4922 41.8902))
                         {["name" := VStr "Colosseum"]})
           (Shapely.Point 12.4922 41.8902)).
  - reflexivity.
  - intros Hspeed. vm_compute in Hspeed. discriminate.
Defined.

End MLModelsMore.

(** ** Persistence: further properties *)
Module PersistenceMore.
Import Py DatabaseIntegration DatabaseWrites.

Section Wrapper.
Variable ST_GeomFromText : string → option Shapely.geometry.

(** A statement sent to a server that can be reached, on a connection
    opened if need be. *)
Lemma execute_query_reachable q st :
  server_up st = true →
  DatabaseIntegration.execute_query ST_GeomFromText q st
  = match run ST_GeomFromText q (now st) (geospatial_data st) with
    | inl msg =>
        (Err (Raise Exception ("Database error: " +:+ msg)),
         get_connection st)
    | inr (table, rowcount) =>
        (Ok rowcount, after q table (get_connection st))
    end.
Proof.
  intros Hup.
  destruct (PersistenceSpec.get_connection_frame st) as (Hup' & Htable & Hnow).
  unfold DatabaseIntegration.execute_query, st_reraise, send.
  rewrite (PersistenceSpec.get_connection_reachable st Hup), Hup', Hup.
  rewrite Htable, Hnow.
  by destruct (run ST_GeomFromText q (now st) (geospatial_data st))
    as [msg|[table rowcount]].
Qed.

(** A statement sent when the server cannot be reached: nothing is opened,
    the table is as it was. *)
Lemma execute_query_unreachable q st :
  server_up st = false →
  ∃ msg st',
    DatabaseIntegration.execute_query ST_GeomFromText q st
    = (Err (Raise Exception ("Database error: " +:+ msg)), st')
    ∧ geospatial_data st' = geospatial_data st
    ∧ conn st' ≠ Some Open
    ∧ executed st' = executed st.
Proof.
  intros Hdown.
  unfold DatabaseIntegration.execute_query, st_reraise, send,
    get_connection, connect.
  destruct (conn st) as [[|]|] eqn:Hconn; simpl;
    rewrite ?Hdown, ?Hconn; simpl; rewrite ?Hdown;
    by eexists _, _.
Qed.

(** X18: deleting a landmark that is stored returns [True] and removes that
    row and no other; deleting it once more returns [False] and changes
    nothing. *)
Theorem delete_existing_landmark landmark_id l st :
  server_up st = true →
  geospatial_data st !! landmark_id = Some l →
  ∃ st' st'',
    delete_landmark ST_GeomFromText landmark_id st = (Ok true, st')
    ∧ geospatial_data st' = delete landmark_id (geospatial_data st)
    ∧ delete_landmark ST_GeomFromText landmark_id st' = (Ok false, st'')
    ∧ geospatial_data st'' = geospatial_data st'.
Proof.
  intros Hup Hrow.
  assert (delete_landmark ST_GeomFromText landmark_id st
          = (Ok true, after (Delete landmark_id)
                            (delete landmark_id (geospatial_data st))
                            (get_connection st))) as Hfirst.
  { unfold delete_landmark, st_reraise.
    rewrite PyFacts.bind_run, (execute_query_reachable _ _ Hup).
    simpl. by rewrite Hrow. }
  set (st' := after _ _ _) in Hfirst.
  assert (server_up st' = true) as Hup'.
  { unfold st'. simpl.
    by destruct (PersistenceSpec.get_connection_frame st) as (-> & _). }
  exists st'. eexists. split_and!; [done|done| |].
  - unfold delete_landmark, st_reraise.
    rewrite PyFacts.bind_run, (execute_query_reachable _ _ Hup').
    simpl. rewrite lookup_delete_eq. reflexivity.
  - done.
Qed.

(** X19: when the server cannot be reached, deleting a landmark and
    updating one with some field both raise a database error re-wrapped by
    the method, and the table is as it was. *)
Theorem writes_fail_when_unreachable
        landmark_id name description landmark_type geometry_wkt properties
        st :
  server_up st = false →
  ¬ (name = None ∧ description = None ∧ landmark_type = None
     ∧ geometry_wkt = None ∧ properties = None) →
  (∃ msg st',
     delete_landmark ST_GeomFromText landmark_id st
     = (Err (Raise Exception
               ("Landmark deletion failed: Database error: " +:+ msg)), st')
     ∧ geospatial_data st' = geospatial_data st)
  ∧ (∃ msg st',
       update_landmark ST_GeomFromText landmark_id name description
                       landmark_type geometry_wkt properties st
       = (Err (Raise Exception
                 ("Landmark update failed: Database error: " +:+ msg)), st')
       ∧ geospatial_data st' = geospatial_data st).
Proof.
  intros Hdown Hfields. split.
  - destruct (execute_query_unreachable (Delete landmark_id) st Hdown)
      as (msg & st' & Hrun & Htable & _).
    exists msg, st'. split; [|done].
    unfold delete_landmark, st_reraise.
    by rewrite PyFacts.bind_run, Hrun.
  - unfold update_landmark, st_reraise.
    set (update_fields := (_ ++ _)%list).
    destruct update_fields as [|a fields] eqn:Hempty.
    { destruct Hfields. subst update_fields.
      destruct name, description, landmark_type, geometry_wkt, properties;
        by try discriminate. }
    destruct (execute_query_unreachable
                (Update ((a :: fields) ++ [SetUpdatedAt])%list landmark_id)
                st Hdown)
      as (msg & st' & Hrun & Htable & _).
    exists msg, st'. split; [|done].
    by rewrite PyFacts.bind_run, Hrun.
Qed.

(** X20: [close] closes the connection and nothing else; a later call
    reconnects, so deleting after [close] gives the result and the table
    that deleting without it gives. *)
Theorem close_then_delete landmark_id st :
  server_up st = true →
  conn (close st) ≠ Some Open
  ∧ geospatial_data (close st) = geospatial_data st
  ∧ close (close st) = close st
  ∧ ∃ r st1 st2,
      delete_landmark ST_GeomFromText landmark_id st = (r, st1)
      ∧ delete_landmark ST_GeomFromText landmark_id (close st) = (r, st2)
      ∧ geospatial_data st2 = geospatial_data st1
      ∧ conn st2 = Some Open.
Proof.
  intros Hup.
  assert (server_up (close st) = true ∧ now (close st) = now st
          ∧ geospatial_data (close st) = geospatial_data st)
    as (Hup' & Hnow & Htable).
  { unfold close. by destruct (conn st) as [[|]|]. }
  split_and!.
  - unfold close. by destruct (conn st) as [[|]|] eqn:E; simpl; rewrite ?E.
  - done.
  - unfold close. by destruct (conn st) as [[|]|] eqn:E; simpl; rewrite ?E.
  - unfold delete_landmark, st_reraise.
    rewrite !PyFacts.bind_run.
    rewrite (execute_query_reachable _ _ Hup),
            (execute_query_reachable _ _ Hup'), Hnow, Htable.
    simpl.
    pose proof (PersistenceSpec.get_connection_reachable _ Hup').
    destruct (geospatial_data st !! landmark_id);
      eexists _, _, _; by split_and!.
Qed.

End Wrapper.

Section Inserting.
Variable insert_row :
  insertion → Z → gmap Z landmark → string + gmap Z landmark.
Variable format_float : Q → string.



(** X21: [insert_landmark] never returns.  It raises when the statement
    fails, and it raises when the statement succeeds: the row is stored and
    the call then fails on the row count it takes for the returned row. *)
Theorem insert_landmark_always_raises
        name description landmark_type geometry_wkt properties st :
  ∃ msg st',
    insert_landmark insert_row name description landmark_type geometry_wkt
                    properties st
    = (Err (Raise Exception ("Landmark insertion failed: " +:+ msg)), st')
    ∧ (server_up st = true →
       ∀ table,
         insert_row (Insertion name description landmark_type geometry_wkt
                               (dumped properties))
                    (now st) (geospatial_data st) = inr table →
         msg = "'int' object is not subscriptable"
         ∧ geospatial_data st' = table).
Proof.
  destruct (PersistenceSpec.get_connection_frame st) as (Hup' & Htable & Hnow).
  unfold insert_landmark, DatabaseWrites.execute_query, st_reraise.
  destruct (conn (get_connection st)) eqn:Hconn.
  - destruct (server_up (get_connection st)) eqn:Hup.
    + rewrite Htable, Hnow.
      destruct (insert_row _ _ _) as [msg|table]; simpl.
      * eexists _, _. split; [reflexivity|]. by intros _ ? [=].
      * eexists _, _. split; [reflexivity|]. by intros _ ? [= <-].
    + simpl. eexists _, _. split; [reflexivity|]. congruence.
  - simpl. eexists _, _. split; [reflexivity|].
    intros Hup. rewrite (PersistenceSpec.get_connection_reachable st Hup)
      in Hconn. done.
Qed.

Local Ltac skipped := intros [= <- <-]; by split_and!.


Lemma import_feature_passed_over f n st :
  passed_over f = true →
  import_feature insert_row format_float f n st = (inr n, st).
Proof.
  unfold import_feature, passed_over.
  destruct (feat_geometry f) as [| |g]; [done..|].
  destruct (is_point g); [|done].
  by destruct (geo_coordinates g) as [| |[|x [|y coords]]].
Qed.

Lemma import_features_passed_over skipped rest n st :
  Forall (λ f, passed_over f = true) skipped →
  import_features insert_row format_float (skipped ++ rest) n st
  = import_features insert_row format_float rest n st.
Proof.
  induction 1 as [|f skipped Hf _ IH]; [done|]. simpl.
  by rewrite (import_feature_passed_over f n st Hf).
Qed.


(** X22: [import_from_geojson] stops at the first feature it can import.
    With the database reachable, the features before the first [Point] with
    two coordinates are passed over; that feature is inserted under the
    name, description and type of its properties, or under the defaults,
    and the row stays in the table; the row count that [insert_landmark]
    then subscripts ends the import with an exception, whatever features
    follow. *)
Theorem import_from_geojson_stops_at_first_point
        skipped f rest g x y coords properties table st :
  Forall (λ f', passed_over f' = true) skipped →
  feat_geometry f = Present g →
  is_point g = true →
  geo_coordinates g = Present (x :: y :: coords) →
  feat_properties f = Present properties
  ∨ feat_properties f = Missing ∧ properties = ∅ →
  server_up st = true →
  insert_row
    (Insertion
       (default (VStr ("Imported Feature " +:+ pretty 0%nat))
                (properties !! "name"))
       (default (VStr "") (properties !! "description"))
       (default (VStr "unknown") (properties !! "type"))
       ("POINT(" +:+ format_float x +:+ " " +:+ format_float y +:+ ")")
       (dumped (Some properties)))
    (now st) (geospatial_data st) = inr table →
  ∃ st',
    import_from_geojson insert_row format_float (skipped ++ f :: rest) st
    = (Err (Raise Exception
              ("GeoJSON import failed: "
               +:+ "Landmark insertion failed: "
               +:+ "'int' object is not subscriptable")), st')
    ∧ geospatial_data st' = table.
Proof.
  intros Hskipped Hgeom Hpoint Hcoords Hprops Hup Hrow.
  destruct (PersistenceSpec.get_connection_frame st) as (Hup' & Htable & Hnow).
  unfold import_from_geojson.
  rewrite (import_features_passed_over _ _ _ _ Hskipped). simpl.
  unfold import_feature. rewrite Hgeom, Hpoint, Hcoords.
  assert (insert_landmark
            insert_row
            (default (VStr ("Imported Feature " +:+ pretty 0%nat))
                     (properties !! "name"))
            (default (VStr "") (properties !! "description"))
            (default (VStr "unknown") (properties !! "type"))
            ("POINT(" +:+ format_float x +:+ " " +:+ format_float y +:+ ")")
            (Some properties) st
          = (Err (Raise Exception
                    ("Landmark insertion failed: "
                     +:+ "'int' object is not subscriptable")),
             with_table (get_connection st) table)) as Hinsert.
  { unfold insert_landmark, DatabaseWrites.execute_query, st_reraise.
    rewrite (PersistenceSpec.get_connection_reachable st Hup), Hup', Hup.
    rewrite Htable, Hnow, Hrow. reflexivity. }
  destruct Hprops as [->|[-> ->]].
  - rewrite Hinsert. eexists. split; [reflexivity|done].
  - rewrite !lookup_empty in Hinsert. simpl in Hinsert.
    rewrite Hinsert. eexists. split; [reflexivity|done].
Qed.


End Inserting.

Lemma delete_existing_landmark_witness :
  ∃ st' st'',
    delete_landmark Samples.equator_wkt 1 MoreSamples.one_landmark_db
    = (Ok true, st')
    ∧ geospatial_data st'
      = delete 1%Z (geospatial_data MoreSamples.one_landmark_db)
    ∧ delete_landmark Samples.equator_wkt 1 st' = (Ok false, st'')
    ∧ geospatial_data st'' = geospatial_data st'.
Proof.
  apply (delete_existing_landmark Samples.equator_wkt 1 MoreSamples.colosseum
                                  MoreSamples.one_landmark_db);
    reflexivity.
Defined.

Lemma import_from_geojson_stops_at_first_point_witness :
  ∃ st',
    import_from_geojson MoreSamples.accept_row MoreSamples.integral
                        MoreSamples.null_island Samples.empty_db
    = (Err (Raise Exception
              ("GeoJSON import failed: "
               +:+ "Landmark insertion failed: "
               +:+ "'int' object is not subscriptable")), st')
    ∧ geospatial_data st'
      = {[1%Z := Landmark "Null Island" (Some "") (Some "unknown")
                          (Some (Shapely.Point 0 0))
                          (Some {["name" := VStr "Null Island"]}) 0 0]}.
Proof.
  apply (import_from_geojson_stops_at_first_point
           MoreSamples.accept_row MoreSamples.integral
           [DatabaseWrites.Feature
              (Present {["name" := VStr "Lake"]})
              (Present (GeometryObject (VStr "Polygon") Missing))]
           (DatabaseWrites.Feature
              (Present {["name" := VStr "Null Island"]})
              (Present (GeometryObject (VStr "Point") (Present [0; 0]%Q))))
           [DatabaseWrites.Feature
              Missing
              (Present (GeometryObject (VStr "Point") (Present [0; 0]%Q)))]
           (GeometryObject (VStr "Point") (Present [0; 0]%Q))
           0%Q 0%Q [] {["name" := VStr "Null Island"]}).
  - by repeat constructor.
  - reflexivity.
  - reflexivity.
  - reflexivity.
  - by left.
  - reflexivity.
  - by vm_compute.
Defined.

Lemma writes_fail_when_unreachable_witness :
  (∃ msg st',
     delete_landmark Samples.equator_wkt 1 MoreSamples.unreachable_db
     = (Err (Raise Exception
               ("Landmark deletion failed: Database error: " +:+ msg)), st')
     ∧ geospatial_data st' = geospatial_data MoreSamples.unreachable_db)
  ∧ (∃ msg st',
       update_landmark Samples.equator_wkt 1 (Some "Colosseo") None None
                       None None MoreSamples.unreachable_db
       = (Err (Raise Exception
                 ("Landmark update failed: Database error: " +:+ msg)), st')
       ∧ geospatial_data st' = geospatial_data MoreSamples.unreachable_db).
Proof.
  apply (writes_fail_when_unreachable
           Samples.equator_wkt 1 (Some "Colosseo") None None None None
           MoreSamples.unreachable_db).
  - reflexivity.
  - intros [Hname _]. discriminate.
Defined.

Lemma close_then_delete_witness :
  conn (close MoreSamples.one_landmark_db) ≠ Some Open
  ∧ geospatial_data (close MoreSamples.one_landmark_db)
    = geospatial_data MoreSamples.one_landmark_db
  ∧ close (close MoreSamples.one_landmark_db)
    = close MoreSamples.one_landmark_db
  ∧ ∃ r st1 st2,
      delete_landmark Samples.equator_wkt 1 MoreSamples.one_landmark_db
      = (r, st1)
      ∧ delete_landmark Samples.equator_wkt 1
                        (close MoreSamples.one_landmark_db) = (r, st2)
      ∧ geospatial_data st2 = geospatial_data st1
      ∧ conn st2 = Some Open.
Proof.
  apply (close_then_delete Samples.equator_wkt 1 MoreSamples.one_landmark_db).
  reflexivity.
Defined.

End PersistenceMore.

(** ** The connection manager and the DELETE route: further properties *)
Module AppMore.
Import Py DatabaseIntegration App ConnectionManager.

Section Broadcast.
Variable message : event.

Local Abbreviation sent_to := (λ c : websocket, (ws_id c, message)).

Lemma elem_of_rev_iff {A} (x : A) (l : list A) : x ∈ rev l ↔ x ∈ l.
Proof.
  induction l as [|y l IH]; simpl; [done|].
  rewrite elem_of_app, list_elem_of_singleton, elem_of_cons, IH. tauto.
Qed.

Lemma list_remove_middle (pre post : list websocket) c :
  c ∉ pre → list_remove c (pre ++ c :: post) = (pre ++ post)%list.
Proof.
  induction pre as [|x pre IH]; simpl; intros Hc.
  - by rewrite decide_True.
  - rewrite decide_False by (intros ->; apply Hc, list_elem_of_here).
    rewrite IH; [done|]. intros ?. by apply Hc, list_elem_of_further.
Qed.

Lemma broadcast_from_end fuel (conns : list websocket) sent :
  broadcast_from fuel (List.length conns) message conns sent = (conns, sent).
Proof.
  destruct fuel; [done|]. simpl.
  by rewrite (lookup_ge_None_2 conns (List.length conns)).
Qed.

Lemma broadcast_from_step fuel i (conns : list websocket) sent c :
  conns !! i = Some c →
  broadcast_from (S fuel) i message conns sent
  = if ws_alive c
    then broadcast_from fuel (S i) message conns (sent_to c :: sent)
    else broadcast_from fuel (S i) message (list_remove c conns) sent.
Proof. intros Hc. simpl. by rewrite Hc. Qed.

(** The loop over clients that are there: each is sent the message, in
    order, and the list stays as it is. *)
Lemma broadcast_from_alive fuel (pre0 pre rest : list websocket) sent :
  Forall (λ c, ws_alive c = true) pre →
  broadcast_from (List.length pre + fuel) (List.length pre0) message
                 (pre0 ++ pre ++ rest) sent
  = broadcast_from fuel (List.length (pre0 ++ pre)) message
                   (pre0 ++ pre ++ rest)
                   (rev (map sent_to pre) ++ sent).
Proof.
  intros Halive. revert pre0 sent.
  induction Halive as [|c pre Hc Halive IH]; intros pre0 sent.
  - by rewrite app_nil_r.
  - change (pre0 ++ (c :: pre) ++ rest)%list
      with (pre0 ++ c :: (pre ++ rest))%list.
    cbn [List.length Nat.add broadcast_from].
    rewrite list_lookup_middle by done. rewrite Hc.
    replace (pre0 ++ c :: (pre ++ rest))%list
      with ((pre0 ++ [c]) ++ pre ++ rest)%list by by rewrite <- app_assoc.
    replace (S (List.length pre0)) with (List.length (pre0 ++ [c]))
      by (rewrite length_app; simpl; lia).
    rewrite IH. rewrite <- !app_assoc. simpl. by rewrite <- app_assoc.
Qed.

(** The loop from any position on, when no client is registered twice:
    the clients before the position stay, those after it stay in order but
    for the ones removed, and every message goes to a client after the
    position that is there. *)
Lemma broadcast_from_tail fuel (pre rest : list websocket) sent :
  NoDup (pre ++ rest) →
  ∃ kept del,
    broadcast_from fuel (List.length pre) message (pre ++ rest) sent
    = ((pre ++ kept)%list, (del ++ sent)%list)
    ∧ kept `sublist_of` rest
    ∧ ∀ x, x ∈ del → ∃ c, c ∈ rest ∧ ws_alive c = true ∧ x = sent_to c.
Proof.
  revert pre rest sent.
  induction fuel as [|fuel IH]; intros pre rest sent Hnodup.
  { exists rest, []. split_and!; [done..|]. by intros ? ?%elem_of_nil. }
  destruct rest as [|c rest].
  { exists [], []. rewrite app_nil_r, broadcast_from_end.
    split_and!; [done..|]. by intros ? ?%elem_of_nil. }
  cbn [broadcast_from]. rewrite list_lookup_middle by done.
  destruct (ws_alive c) eqn:Hc.
  - replace (pre ++ c :: rest)%list with ((pre ++ [c]) ++ rest)%list
      by by rewrite <- app_assoc.
    replace (S (List.length pre)) with (List.length (pre ++ [c]))
      by (rewrite length_app; simpl; lia).
    destruct (IH (pre ++ [c])%list rest (sent_to c :: sent))
      as (kept & del & -> & Hkept & Hdel).
    { by rewrite <- app_assoc. }
    exists (c :: kept), (del ++ [sent_to c])%list.
    rewrite <- !app_assoc. split_and!; [done|by constructor|].
    intros x [Hx| ->%list_elem_of_singleton]%elem_of_app.
    + destruct (Hdel x Hx) as (c' & Hc' & ? & ->).
      exists c'. split; [by apply list_elem_of_further|done].
    + exists c. split; [apply list_elem_of_here|done].
  - rewrite list_remove_middle.
    2:{ apply NoDup_app in Hnodup as (_ & Hdisj & _).
        intros Hin. apply (Hdisj c Hin), list_elem_of_here. }
    destruct rest as [|n rest].
    { exists [], []. rewrite app_nil_r. split_and!; [|apply sublist_nil_l|].
      - destruct fuel; [done|]. simpl.
        by rewrite (lookup_ge_None_2 pre (S (List.length pre))) by lia.
      - by intros ? ?%elem_of_nil. }
    replace (pre ++ n :: rest)%list with ((pre ++ [n]) ++ rest)%list
      by by rewrite <- app_assoc.
    replace (S (List.length pre)) with (List.length (pre ++ [n]))
      by (rewrite length_app; simpl; lia).
    destruct (IH (pre ++ [n])%list rest sent)
      as (kept & del & -> & Hkept & Hdel).
    { rewrite <- app_assoc. simpl.
      apply NoDup_app in Hnodup as (Hpre & Hdisj & Hrest).
      apply NoDup_cons in Hrest as [_ Hrest].
      apply NoDup_app. split_and!; [done| |done].
      intros x Hx Hin. apply (Hdisj x Hx). by apply list_elem_of_further. }
    exists (n :: kept), del.
    rewrite <- !app_assoc. split_and!; [done| |].
    + by apply sublist_cons, sublist_skip.
    + intros x Hx. destruct (Hdel x Hx) as (c' & Hc' & ? & ->).
      exists c'. split; [by do 2 apply list_elem_of_further|done].
Qed.

(** X23: when every registered client is there, [broadcast] sends the
    message to each of them once, in the order of registration, and leaves
    the register as it was. *)
Theorem broadcast_to_all (st : app) :
  Forall (λ c, ws_alive c = true) (active_connections st) →
  broadcast message st
  = {| database := database st;
       active_connections := active_connections st;
       delivered :=
         (rev (map sent_to (active_connections st)) ++ delivered st)%list |}.
Proof.
  intros Halive. unfold broadcast.
  pose proof (broadcast_from_alive 0 [] (active_connections st) []
                                   (delivered st) Halive) as Hrun.
  rewrite Nat.add_0_r, app_nil_r in Hrun. simpl in Hrun.
  by rewrite Hrun.
Qed.

(** X24: [broadcast] removes a client that is gone while it iterates over
    the register, and so passes over the client registered next.  With no
    client registered twice, the clients before the first one that is gone
    are sent the message; that one is removed; the next one stays
    registered and is sent nothing, whether it is there or not. *)
Theorem broadcast_skips_after_dead (st : app) pre d n post :
  active_connections st = (pre ++ d :: n :: post)%list →
  NoDup (map ws_id (active_connections st)) →
  Forall (λ c, ws_alive c = true) pre →
  ws_alive d = false →
  (d ∉ active_connections (broadcast message st))
  ∧ take (S (List.length pre)) (active_connections (broadcast message st))
    = (pre ++ [n])%list
  ∧ (∀ c, c ∈ pre → sent_to c ∈ delivered (broadcast message st))
  ∧ ∀ x, x ∈ delivered (broadcast message st) → x.1 = ws_id n →
         x ∈ delivered st.
Proof.
  intros Hconns Hids Halive Hd.
  assert (NoDup (active_connections st)) as Hnodup
    by (eapply NoDup_fmap_1; exact Hids).
  unfold broadcast. rewrite Hconns in *.
  replace (List.length (pre ++ d :: n :: post))
    with (List.length pre + S (S (List.length post)))%nat
    by (rewrite length_app; simpl; lia).
  assert (broadcast_from (List.length pre + S (S (List.length post))) 0
                         message (pre ++ d :: n :: post) (delivered st)
          = broadcast_from (S (S (List.length post))) (List.length pre)
                           message (pre ++ d :: n :: post)
                           (rev (map sent_to pre) ++ delivered st)) as Hrun
    by exact (broadcast_from_alive (S (S (List.length post))) [] pre
                (d :: n :: post) (delivered st) Halive).
  rewrite Hrun. clear Hrun.
  rewrite (broadcast_from_step _ _ _ _ d) by by rewrite list_lookup_middle.
  rewrite Hd.
  assert (d ∉ pre) as Hdpre.
  { intros Hin. eapply Forall_forall in Halive; [|exact Hin]. congruence. }
  rewrite list_remove_middle by done.
  replace (pre ++ n :: post)%list with ((pre ++ [n]) ++ post)%list
    by by rewrite <- app_assoc.
  replace (S (List.length pre)) with (List.length (pre ++ [n]))
    by (rewrite length_app; simpl; lia).
  destruct (broadcast_from_tail (S (List.length post)) (pre ++ [n])%list post
              (rev (map sent_to pre) ++ delivered st)%list)
    as (kept & del & -> & Hkept & Hdel).
  { rewrite <- app_assoc. simpl.
    apply NoDup_app in Hnodup as (Hpre & Hdisj & Hrest).
    apply NoDup_cons in Hrest as [_ Hrest].
    apply NoDup_app. split_and!; [done| |done].
    intros x Hx Hin. apply (Hdisj x Hx). by apply list_elem_of_further. }
  simpl.
  apply NoDup_app in Hnodup as (Hpre & Hdisj & Hrest).
  apply NoDup_cons in Hrest as [Hdrest Hrest].
  apply NoDup_cons in Hrest as [Hnpost Hpost].
  rewrite fmap_app in Hids. simpl in Hids.
  apply NoDup_app in Hids as (Hidpre & Hiddisj & Hidrest).
  apply NoDup_cons in Hidrest as [_ Hidrest].
  apply NoDup_cons in Hidrest as [Hidn _].
  split_and!.
  - rewrite !elem_of_app, list_elem_of_singleton.
    intros [[?| ->]|Hin]; [done| |].
    + apply Hdrest, list_elem_of_here.
    + apply Hdrest, list_elem_of_further.
      by eapply elem_of_sublist.
  - rewrite take_app_length'; [done|]. rewrite length_app. simpl. lia.
  - intros c Hc. rewrite !elem_of_app. right. left.
    rewrite elem_of_rev_iff. by apply (list_elem_of_fmap_2 sent_to).
  - intros x Hx Hid. rewrite !elem_of_app in Hx.
    destruct Hx as [Hx|[Hx|Hx]]; [| |done].
    + destruct (Hdel x Hx) as (c & Hc & _ & ->). simpl in Hid.
      destruct Hidn. rewrite <- Hid. by apply list_elem_of_fmap_2.
    + rewrite elem_of_rev_iff in Hx.
      apply list_elem_of_fmap in Hx as (c & -> & Hc). simpl in Hid.
      destruct (Hiddisj (ws_id c)); [by apply list_elem_of_fmap_2|].
      rewrite Hid. apply list_elem_of_further, list_elem_of_here.
Qed.

End Broadcast.

Section Register.

(** X25: [disconnect] undoes [connect] for a client that was not
    registered, and does nothing for a client that is not registered. *)
Theorem disconnect_connect websocket (st : app) :
  websocket ∉ active_connections st →
  disconnect websocket (connect websocket st) = st
  ∧ disconnect websocket st = st.
Proof.
  intros Hnew. unfold disconnect, connect. simpl. split.
  - rewrite decide_True by (apply elem_of_app; right; apply list_elem_of_here).
    rewrite list_remove_middle by done. rewrite app_nil_r. by destruct st.
  - by rewrite decide_False.
Qed.

End Register.

Section Route.
Variable ST_GeomFromText : string → option Shapely.geometry.

(** X26: the DELETE route on a stored landmark, when the manager holds no
    open connection and the database can be reached.  The route connects,
    so that the DELETE is the first statement of a new connection, on which
    no transaction is pending: it answers that the landmark was deleted,
    the row and no other is removed, and the clients are notified as
    [broadcast] of the deletion notifies them. *)
Theorem route_delete_existing landmark_id l (st : app) :
  conn (database st) ≠ Some Open →
  server_up (database st) = true →
  geospatial_data (database st) !! landmark_id = Some l →
  ∃ st',
    App.delete_landmark ST_GeomFromText landmark_id st
    = (Returns "Landmark deleted successfully", st')
    ∧ geospatial_data (database st')
      = delete landmark_id (geospatial_data (database st))
    ∧ active_connections st'
      = active_connections (broadcast (LandmarkDeleted landmark_id) st)
    ∧ delivered st'
      = delivered (broadcast (LandmarkDeleted landmark_id) st).
Proof.
  intros _ Hup Hrow.
  destruct (PersistenceSpec.get_connection_frame (database st))
    as (Hup' & Htable & _).
  unfold App.delete_landmark, App.execute_query, send.
  rewrite (PersistenceSpec.get_connection_reachable _ Hup), Hup', Hup.
  simpl. rewrite Htable, Hrow. simpl.
  eexists. split; [reflexivity|]. unfold broadcast. simpl.
  by destruct (broadcast_from _ _ _ _ _).
Qed.

End Route.

Lemma broadcast_to_all_witness :
  broadcast (LandmarkDeleted 1)
            {| database := Samples.empty_db;
               active_connections := [WebSocket 1 true; WebSocket 2 true];
               delivered := [] |}
  = {| database := Samples.empty_db;
       active_connections := [WebSocket 1 true; WebSocket 2 true];
       delivered := [(2%nat, LandmarkDeleted 1); (1%nat, LandmarkDeleted 1)] |}.
Proof.
  apply (broadcast_to_all
           (LandmarkDeleted 1)
           {| database := Samples.empty_db;
              active_connections := [WebSocket 1 true; WebSocket 2 true];
              delivered := [] |}).
  by repeat constructor.
Defined.

Lemma broadcast_skips_after_dead_witness :
  (WebSocket 2 false
     ∉ active_connections (broadcast (LandmarkDeleted 1) MoreSamples.serving))
  ∧ take 2 (active_connections
              (broadcast (LandmarkDeleted 1) MoreSamples.serving))
    = [WebSocket 1 true; WebSocket 3 true]
  ∧ (∀ c, c ∈ [WebSocket 1 true] →
       (ws_id c, LandmarkDeleted 1)
         ∈ delivered (broadcast (LandmarkDeleted 1) MoreSamples.serving))
  ∧ ∀ x, x ∈ delivered (broadcast (LandmarkDeleted 1) MoreSamples.serving) →
         x.1 = 3%nat → x ∈ delivered MoreSamples.serving.
Proof.
  apply (broadcast_skips_after_dead
           (LandmarkDeleted 1) MoreSamples.serving
           [WebSocket 1 true] (WebSocket 2 false) (WebSocket 3 true)
           [WebSocket 4 true]).
  - reflexivity.
  - apply (bool_decide_unpack _). by vm_compute.
  - by repeat constructor.
  - reflexivity.
Defined.

Lemma disconnect_connect_witness :
  disconnect (WebSocket 5 true)
             (connect (WebSocket 5 true) MoreSamples.serving)
  = MoreSamples.serving
  ∧ disconnect (WebSocket 5 true) MoreSamples.serving = MoreSamples.serving.
Proof.
  apply (disconnect_connect (WebSocket 5 true) MoreSamples.serving).
  apply (bool_decide_unpack _). by vm_compute.
Defined.

Lemma route_delete_existing_witness :
  ∃ st',
    App.delete_landmark Samples.equator_wkt 1 MoreSamples.serving
    = (Returns "Landmark deleted successfully", st')
    ∧ geospatial_data (database st')
      = delete 1%Z (geospatial_data (database MoreSamples.serving))
    ∧ active_connections st'
      = active_connections
          (broadcast (LandmarkDeleted 1) MoreSamples.serving)
    ∧ delivered st'
      = delivered (broadcast (LandmarkDeleted 1) MoreSamples.serving).
Proof.
  apply (route_delete_existing Samples.equator_wkt 1 MoreSamples.colosseum
                               MoreSamples.serving);
    [discriminate|reflexivity..].
Defined.

End AppMore.

(** ** DataProcessor: further properties *)
Module DataProcessorMore.
Import Py DataProcessor DataValidation.

Section Output.
Context `{SH : Shapely.Ops} `{PD : Pandas}.

Lemma filter_all {A} (p : A → bool) (l : list A) :
  existsb (λ x, negb (p x)) l = false → List.filter p l = l.
Proof.
  induction l as [|x l IH]; simpl; [done|].
  destruct (p x); simpl; [|done]. intros Hl. by rewrite IH.
Qed.

Lemma existsb_ext {A} (p q : A → bool) (l : list A) :
  (∀ x, p x = q x) → existsb p l = existsb q l.
Proof. intros Hpq. induction l as [|x l IH]; simpl; [done|]. by rewrite Hpq, IH. Qed.

Lemma remove_invalid_result gdf self :
  ∃ self',
    remove_invalid gdf self
    = (Ok (List.filter (λ f, negb (missing_or_empty f)) gdf), self').
Proof.
  unfold remove_invalid.
  destruct (existsb missing_or_empty gdf) eqn:Hany.
  - rewrite PyFacts.bind_run. by eexists.
  - eexists. rewrite filter_all; [reflexivity|].
    rewrite <- Hany. apply existsb_ext. intros f. apply negb_involutive.
Qed.

Lemma fix_geometry_none gdf :
  existsb invalid gdf = false → map fix_geometry gdf = gdf.
Proof.
  induction gdf as [|f gdf IH]; simpl; [done|].
  intros [Hf Hany]%orb_false_iff.
  rewrite IH by done. unfold fix_geometry. by rewrite Hf.
Qed.

Lemma fix_invalid_result gdf self :
  ∃ self', fix_invalid gdf self = (Ok (map fix_geometry gdf), self').
Proof.
  unfold fix_invalid.
  destruct (existsb invalid gdf) eqn:Hany.
  - rewrite PyFacts.bind_run. by eexists.
  - eexists. by rewrite fix_geometry_none.
Qed.

Lemma drop_cons b mask f gdf :
  drop (b :: mask) (f :: gdf)
  = if b then drop mask gdf else f :: drop mask gdf.
Proof. unfold drop. simpl. by destruct b. Qed.

Lemma drop_none mask gdf :
  length mask = length gdf → existsb id mask = false → drop mask gdf = gdf.
Proof.
  revert gdf. induction mask as [|b mask IH]; intros [|f gdf]; try done.
  simpl. intros [= Hlen]. destruct b; [done|]. simpl. intros Hmask.
  by rewrite drop_cons, IH.
Qed.

Lemma remove_duplicates_result gdf self :
  ∃ self',
    remove_duplicates gdf self = (Ok (drop (duplicated [] gdf) gdf), self').
Proof.
  unfold remove_duplicates.
  destruct (existsb id (duplicated [] gdf)) eqn:Hany.
  - rewrite PyFacts.bind_run. by eexists.
  - eexists. rewrite drop_none; [done| |done].
    apply DataProcessorSpec.duplicated_length.
Qed.

(** The collection [clean_data] returns, step by step. *)
Lemma clean_data_result data self out self' :
  clean_data data self = (Ok out, self') →
  let gdf1 := List.filter (λ f, negb (missing_or_empty f)) data in
  let gdf2 := map fix_geometry gdf1 in
  let gdf3 := drop (duplicated [] gdf2) gdf2 in
  out = to_json (clean_attributes (columns data) gdf3).
Proof.
  unfold clean_data, st_reraise.
  rewrite PyFacts.bind_run. cbn [set_report modify].
  rewrite PyFacts.bind_run. cbn [lift].
  destruct data as [|f data]; [done|]. cbn match.
  set (gdf0 := f :: data). set (self0 := {| cleaning_report := _ |}).
  destruct (remove_invalid_result gdf0 self0) as [self1 H1].
  rewrite PyFacts.bind_run, H1.
  set (gdf1 := List.filter _ gdf0).
  destruct (fix_invalid_result gdf1 self1) as [self2 H2].
  rewrite PyFacts.bind_run, H2.
  set (gdf2 := map fix_geometry gdf1).
  destruct (remove_duplicates_result gdf2 self2) as [self3 H3].
  rewrite PyFacts.bind_run, H3.
  rewrite PyFacts.bind_run. cbn [note_fix modify].
  rewrite PyFacts.bind_run. cbn [set_final_count modify].
  simpl. by intros [= <- _].
Qed.

Lemma to_json_geom gdf : map geom (to_json gdf) = map written (map geom gdf).
Proof. unfold to_json. rewrite !map_map. by apply map_ext. Qed.

Lemma set_cells_geom col gdf vals :
  length vals = length gdf →
  map geom (zip_with (set_cell col) gdf vals) = map geom gdf.
Proof.
  revert vals. induction gdf as [|f gdf IH]; intros [|v vals]; try done.
  simpl. intros [= Hlen]. by rewrite IH.
Qed.

Lemma clean_attributes_geom cols gdf :
  map geom (clean_attributes cols gdf) = map geom gdf.
Proof.
  unfold clean_attributes. revert gdf.
  induction cols as [|col cols IH]; intros gdf; simpl; [done|].
  rewrite IH, set_cells_geom; [done|].
  by rewrite DataProcessorSpec.clean_column_length, length_map.
Qed.

(** What [gdf[~gdf.geometry.duplicated()]] keeps: rows of the frame, with
    geometries that differ from one another and from those seen. *)
Lemma drop_duplicated seen gdf :
  NoDup (map geom (drop (duplicated seen gdf) gdf))
  ∧ ∀ f, f ∈ drop (duplicated seen gdf) gdf → f ∈ gdf ∧ geom f ∉ seen.
Proof.
  revert seen. induction gdf as [|f gdf IH]; intros seen; simpl.
  - split; [constructor|]. by intros ? ?%elem_of_nil.
  - case_bool_decide as Hseen; rewrite drop_cons.
    + destruct (IH seen) as [Hnodup Hin]. split; [done|].
      intros f' Hf'. destruct (Hin f' Hf').
      split; [by apply list_elem_of_further|done].
    + destruct (IH (geom f :: seen)) as [Hnodup Hin]. split.
      * simpl. apply NoDup_cons. split; [|done].
        intros (f' & Heq & Hf')%list_elem_of_fmap.
        destruct (Hin f' Hf') as [_ Hnew]. apply Hnew.
        rewrite <- Heq. apply list_elem_of_here.
      * intros f' [->|Hf']%elem_of_cons.
        -- split; [apply list_elem_of_here|done].
        -- destruct (Hin f' Hf') as [? Hnew].
           split; [by apply list_elem_of_further|].
           intros ?. by apply Hnew, list_elem_of_further.
Qed.

(** What the geometries of the cleaned collection are: those left by the
    three steps, which differ from one another, as [to_json] writes
    them. *)
Lemma clean_data_geometries data self out self' :
  clean_data data self = (Ok out, self') →
  ∃ fixed,
    NoDup fixed
    ∧ map geom out = map written fixed
    ∧ ∀ o, o ∈ fixed →
        ∃ f g, f ∈ data ∧ geom f = Some g ∧ Shapely.is_empty g = false
               ∧ o = Some (if Shapely.is_valid g then g
                           else Shapely.buffer g 0).
Proof.
  intros Hrun. rewrite (clean_data_result _ _ _ _ Hrun).
  rewrite to_json_geom, clean_attributes_geom.
  set (gdf2 := map fix_geometry _).
  destruct (drop_duplicated [] gdf2) as [Hnodup Hin].
  eexists. split_and!; [exact Hnodup|reflexivity|].
  intros o (f3 & -> & Hf3)%list_elem_of_fmap.
  destruct (Hin f3 Hf3) as [Hf2 _].
  apply list_elem_of_fmap in Hf2 as (f & -> & Hf).
  apply list_elem_of_In, List.filter_In in Hf as [Hf Hkeep].
  apply list_elem_of_In in Hf.
  unfold missing_or_empty in Hkeep. unfold fix_geometry, invalid.
  destruct (geom f) as [g|] eqn:Hg; [|done].
  exists f, g. split_and!; [done|done|by apply negb_true_iff|].
  destruct (Shapely.is_valid g); simpl; by rewrite ?Hg.
Qed.

Lemma omap_via_map {A B} (f : A → option B) (l : list A) :
  omap f l = omap id (map f l).
Proof.
  induction l as [|x l IH]; [done|]. csimpl.
  destruct (f x); csimpl; by rewrite IH.
Qed.

Lemma omap_written fixed :
  NoDup fixed → NoDup (omap written fixed).
Proof.
  intros Hnodup. induction Hnodup as [|o fixed Ho Hnodup IH]; [constructor|].
  change (omap written (o :: fixed))
    with (match written o with
          | Some g => g :: omap written fixed
          | None => omap written fixed
          end).
  destruct (written o) as [g|] eqn:Hw; [|done].
  apply NoDup_cons. split; [|done].
  intros (o' & Ho' & Hw')%list_elem_of_omap. apply Ho.
  assert (o' = o) as <-; [|done].
  unfold written in Hw, Hw'.
  destruct o as [g1|], o' as [g2|]; try done.
  destruct (Shapely.is_empty g1), (Shapely.is_empty g2); congruence.
Qed.

(** X27: the collection [clean_data] returns.  Each feature comes from an
    input feature whose geometry was not empty: it carries that geometry,
    or what [buffer(0)] made of it when it was invalid, and no geometry at
    all when that is empty.  The geometries that are there differ from one
    another, and no property value is NaN. *)
Theorem clean_data_output data self out self' :
  clean_data data self = (Ok out, self') →
  NoDup (omap geom out)
  ∧ Forall (λ f, ∀ k, properties f !! k ≠ Some VNaN) out
  ∧ ∀ f, f ∈ out →
      ∃ f0 g, f0 ∈ data ∧ geom f0 = Some g ∧ Shapely.is_empty g = false
              ∧ geom f = written (Some (if Shapely.is_valid g then g
                                        else Shapely.buffer g 0))
              ∧ (geom f = None →
                 Shapely.is_valid g = false
                 ∧ Shapely.is_empty (Shapely.buffer g 0) = true).
Proof.
  intros Hrun.
  destruct (clean_data_geometries _ _ _ _ Hrun)
    as (fixed & Hnodup & Hout & Hfixed).
  split_and!.
  - rewrite (omap_via_map geom), Hout, <- (omap_via_map written).
    by apply omap_written.
  - rewrite (clean_data_result _ _ _ _ Hrun). unfold to_json.
    apply Forall_forall. intros f (f' & -> & _)%list_elem_of_fmap k. simpl.
    rewrite lookup_fmap. destruct (properties f' !! k) as [[]|]; by simpl.
  - intros f Hf.
    assert (geom f ∈ map written fixed) as Hin
      by (rewrite <- Hout; by apply list_elem_of_fmap_2).
    apply list_elem_of_fmap in Hin as (o & Hgeom & Ho).
    destruct (Hfixed o Ho) as (f0 & g & Hf0 & Hg & Hne & ->).
    exists f0, g. split_and!; [done..|].
    rewrite Hgeom. unfold written.
    destruct (Shapely.is_valid g); [by rewrite Hne|].
    by destruct (Shapely.is_empty (Shapely.buffer g 0)).
Qed.

End Output.

Section Validation.
Context `{SH : Shapely.Ops}.

Lemma count_split (p : feature → bool) gdf :
  (count (λ f, negb (p f)) gdf + count p gdf = length gdf)%nat.
Proof.
  unfold count. induction gdf as [|f gdf IH]; simpl; [done|].
  destruct (p f); simpl; lia.
Qed.

Lemma count_zero (p : feature → bool) gdf :
  count p gdf = 0%nat ↔ Forall (λ f, p f = false) gdf.
Proof.
  unfold count. induction gdf as [|f gdf IH]; simpl.
  - split; [constructor|done].
  - rewrite Forall_cons. destruct (p f); simpl; [|tauto].
    split; [done|]. by intros [? _].
Qed.

Lemma count_le (p q : feature → bool) gdf :
  (∀ f, p f = true → q f = true) → (count p gdf ≤ count q gdf)%nat.
Proof.
  intros Hpq. unfold count. induction gdf as [|f gdf IH]; simpl; [done|].
  destruct (p f) eqn:Hp.
  - rewrite (Hpq f Hp). simpl. lia.
  - destruct (q f); simpl; lia.
Qed.

Lemma duplicated_none seen gdf :
  length (List.filter id (duplicated seen gdf)) = 0%nat
  ↔ NoDup (map geom gdf) ∧ ∀ f, f ∈ gdf → geom f ∉ seen.
Proof.
  revert seen. induction gdf as [|f gdf IH]; intros seen; simpl.
  - split; [|done]. intros _. split; [constructor|].
    by intros ? ?%elem_of_nil.
  - case_bool_decide as Hseen; simpl.
    + split; [done|]. intros [_ Hnew].
      destruct (Hnew f); [apply list_elem_of_here|done].
    + rewrite IH, NoDup_cons. split.
      * intros [Hnodup Hnew]. split_and!; [|done|].
        -- intros (f' & Heq & Hf')%list_elem_of_fmap.
           apply (Hnew f' Hf'). rewrite <- Heq. apply list_elem_of_here.
        -- intros f' [->|Hf']%elem_of_cons; [done|].
           intros ?. by apply (Hnew f' Hf'), list_elem_of_further.
      * intros [[Hf Hnodup] Hnew]. split; [done|].
        intros f' Hf' [Heq|Hin]%elem_of_cons.
        -- apply Hf. rewrite <- Heq. by apply list_elem_of_fmap_2.
        -- by apply (Hnew f'); [apply list_elem_of_further|].
Qed.

(** [validate_data] on a collection with a feature returns these counts. *)
Lemma validate_data_result gdf :
  gdf ≠ [] →
  let score (b : bool) (n : Z) := if b then n else 0%Z in
  let quality_score :=
    (score (bool_decide (count (λ f, negb (invalid f)) gdf = length gdf)) 40
     + score (bool_decide (count empty gdf = 0%nat)) 20
     + score (bool_decide (count isna gdf = 0%nat)) 20
     + score (bool_decide
                (length (List.filter id (duplicated [] gdf)) = 0%nat)) 20)%Z
  in
  validate_data gdf
  = Ok {| total_features := length gdf;
          valid_geometries := count (λ f, negb (invalid f)) gdf;
          invalid_geometries := count invalid gdf;
          empty_geometries := count empty gdf;
          null_geometries := count isna gdf;
          duplicate_geometries :=
            length (List.filter id (duplicated [] gdf));
          crs_defined := false;
          quality_score := quality_score;
          quality_grade := _get_quality_grade quality_score |}.
Proof.
  intros Hgdf score quality_score. subst quality_score score.
  unfold validate_data. destruct gdf as [|f data]; [done|].
  cbn [reraise mbind res_bind bind mret res_ret].
  repeat case_decide; repeat case_bool_decide; first [done|reflexivity].
Qed.

Lemma isna_invalid f : isna f = true → invalid f = true.
Proof. unfold isna, invalid. by destruct (geom f). Qed.

Local Ltac pick := repeat (first [apply list_elem_of_here
                                  | apply list_elem_of_further]).

(** X28: the report of [validate_data].  The counts add up; the score is a
    multiple of 20, so that the grade is never C; and a collection with a
    feature without geometry scores at most 40 and is graded F, since the
    missing geometry counts as invalid as well. *)
Theorem validation_grades data v :
  validate_data data = Ok v →
  total_features v = length data
  ∧ (valid_geometries v + invalid_geometries v = total_features v)%nat
  ∧ (null_geometries v ≤ invalid_geometries v)%nat
  ∧ quality_score v ∈ [0; 20; 40; 60; 80; 100]%Z
  ∧ quality_grade v ∈ ["A"; "B"; "D"; "F"]
  ∧ ((0 < null_geometries v)%nat →
     (quality_score v ≤ 40)%Z ∧ quality_grade v = "F").
Proof.
  destruct (decide (data = [])) as [->|Hdata]; [done|].
  rewrite (validate_data_result data Hdata). intros [= <-].
  cbn [total_features valid_geometries invalid_geometries null_geometries
       quality_score quality_grade].
  clear Hdata. rename data into gdf.
  pose proof (count_split invalid gdf) as Hsplit.
  pose proof (count_le isna invalid gdf isna_invalid) as Hle.
  split_and!; [done|done|done| | |].
  - repeat case_bool_decide; simpl; pick.
  - repeat case_bool_decide; simpl; pick.
  - intros Hnull.
    rewrite (bool_decide_eq_false_2 (count isna gdf = 0%nat)) by lia.
    rewrite (bool_decide_eq_false_2 (count _ gdf = length gdf)) by lia.
    repeat case_bool_decide; simpl; by split.
Qed.

(** X29: [validate_data] gives the full score of 100 exactly when every
    feature has a geometry that is valid and not empty, and no two features
    have the same geometry. *)
Theorem validation_full_score data v :
  validate_data data = Ok v →
  quality_score v = 100%Z
  ↔ Forall (λ f, ∃ g, geom f = Some g ∧ Shapely.is_valid g = true
                      ∧ Shapely.is_empty g = false) data
    ∧ NoDup (map geom data).
Proof.
  destruct (decide (data = [])) as [->|Hdata]; [done|].
  rewrite (validate_data_result data Hdata). intros [= <-].
  cbn [quality_score]. clear Hdata. rename data into gdf.
  pose proof (count_split invalid gdf) as Hsplit.
  pose proof (count_le isna invalid gdf isna_invalid) as Hle.
  pose proof (count_zero invalid gdf) as Hinvalid.
  pose proof (count_zero empty gdf) as Hempty.
  pose proof (duplicated_none [] gdf) as Hdup.
  assert (Forall (λ f, ∃ g, geom f = Some g ∧ Shapely.is_valid g = true
                            ∧ Shapely.is_empty g = false) gdf
          ↔ Forall (λ f, invalid f = false) gdf
            ∧ Forall (λ f, empty f = false) gdf) as ->.
  { rewrite <- Forall_and. apply Forall_iff. intros f'.
    unfold invalid, empty. destruct (geom f') as [g|].
    - rewrite negb_false_iff. split; [by intros (? & [= <-] & ? & ?)|].
      intros [? ?]. eauto.
    - split; [by intros (? & ? & _)|by intros [? _]]. }
  rewrite <- Hinvalid, <- Hempty. split.
  - intros Hscore.
    repeat case_bool_decide; simpl in Hscore; try discriminate.
    split_and!; [lia|done|]. by apply Hdup.
  - intros [[Hi He] Hnodup].
    rewrite !bool_decide_eq_true_2; [done| |lia|done|lia].
    apply Hdup. split; [done|]. by intros ? _ ?%elem_of_nil.
Qed.

End Validation.

Section Composition.
Context `{SH : Shapely.Ops} `{PD : Pandas}.

Lemma count_positive (p : feature → bool) gdf :
  Exists (λ f, p f = true) gdf → (0 < count p gdf)%nat.
Proof.
  unfold count. induction 1 as [f gdf Hf|f gdf _ IH]; simpl.
  - rewrite Hf. simpl. lia.
  - destruct (p f); simpl; lia.
Qed.

Lemma all_present (gdf : list feature) :
  Forall (λ f, is_Some (geom f)) gdf →
  map geom gdf = map Some (omap geom gdf).
Proof.
  induction 1 as [|f gdf [g Hg] _ IH]; [done|]. csimpl.
  rewrite Hg. csimpl. by rewrite IH.
Qed.

(** X30: validating what [clean_data] returned.  When every returned
    feature has a geometry, the collection is reported with no missing and
    no duplicate geometry and scores at least 40.  A feature whose geometry
    [buffer(0)] has emptied is returned without geometry: it is counted as
    missing and the cleaned collection is graded F.  When cleaning has
    removed every feature, [validate_data] raises. *)
Theorem validate_cleaned data self out self' :
  clean_data data self = (Ok out, self') →
  (out = [] →
   ∃ msg, validate_data out
          = Err (Raise Exception ("Data validation failed: " +:+ msg)))
  ∧ (out ≠ [] →
     ∃ v, validate_data out = Ok v
          ∧ total_features v = length out
          ∧ (Forall (λ f, is_Some (geom f)) out →
             null_geometries v = 0%nat
             ∧ duplicate_geometries v = 0%nat
             ∧ (40 ≤ quality_score v)%Z)
          ∧ (Exists (λ f, geom f = None) out →
             (0 < null_geometries v)%nat ∧ quality_grade v = "F")).
Proof.
  intros Hrun.
  assert (NoDup (omap geom out)) as Hnodup.
  { destruct (clean_data_geometries _ _ _ _ Hrun) as (fixed & ? & Hgeom & _).
    rewrite (omap_via_map geom), Hgeom, <- (omap_via_map written).
    by apply omap_written. }
  split; [intros ->; by eexists|]. intros Hout.
  rewrite (validate_data_result out Hout).
  eexists. split; [reflexivity|].
  cbn [total_features null_geometries duplicate_geometries quality_score
       quality_grade].
  clear Hrun Hout. rename out into gdf.
  split_and!; [done| |].
  - intros Hpresent.
    assert (count isna gdf = 0%nat) as Hnull.
    { apply count_zero. eapply Forall_impl; [exact Hpresent|].
      intros f' [g Hg]. unfold isna. by rewrite Hg. }
    assert (length (List.filter id (duplicated [] gdf)) = 0%nat) as Hdup.
    { apply duplicated_none. split; [|by intros ? _ ?%elem_of_nil].
      rewrite (all_present gdf Hpresent).
      change (map Some (omap geom gdf)) with (Some <$> omap geom gdf).
      by apply (NoDup_fmap_2 Some). }
    split_and!; [done..|].
    rewrite (bool_decide_eq_true_2 _ Hnull), (bool_decide_eq_true_2 _ Hdup).
    repeat case_bool_decide; simpl; lia.
  - intros Hmissing.
    assert (0 < count isna gdf)%nat as Hnull.
    { apply count_positive. eapply Exists_impl; [exact Hmissing|].
      intros f' Hf'. unfold isna. by rewrite Hf'. }
    pose proof (count_split invalid gdf) as Hsplit.
    pose proof (count_le isna invalid gdf isna_invalid) as Hle.
    split; [done|].
    rewrite (bool_decide_eq_false_2 (count isna gdf = 0%nat)) by lia.
    rewrite (bool_decide_eq_false_2 (count _ gdf = length gdf)) by lia.
    by repeat case_bool_decide.
Qed.

End Composition.

Lemma clean_data_output_witness :
  ∃ out self',
    clean_data (SH := MoreSamples.line_ops) (PD := Samples.plain_pandas)
               MoreSamples.degenerate (Processor None)
    = (Ok out, self')
    ∧ map geom out = [Some (Shapely.Point 12.4922 41.8902); None]
    ∧ NoDup (omap geom out)
    ∧ Forall (λ f, ∀ k, properties f !! k ≠ Some VNaN) out
    ∧ ∀ f, f ∈ out →
        ∃ f0 g,
          f0 ∈ MoreSamples.degenerate ∧ geom f0 = Some g
          ∧ Shapely.is_empty (Ops := MoreSamples.line_ops) g = false
          ∧ geom f
            = written (SH := MoreSamples.line_ops)
                (Some (if Shapely.is_valid (Ops := MoreSamples.line_ops) g
                       then g
                       else Shapely.buffer (Ops := MoreSamples.line_ops) g 0))
          ∧ (geom f = None →
             Shapely.is_valid (Ops := MoreSamples.line_ops) g = false
             ∧ Shapely.is_empty
                 (Ops := MoreSamples.line_ops)
                 (Shapely.buffer (Ops := MoreSamples.line_ops) g 0) = true).
Proof.
  eexists _, _. split; [vm_compute; reflexivity|].
  split; [reflexivity|].
  eapply (clean_data_output (SH := MoreSamples.line_ops)
                            (PD := Samples.plain_pandas)
                            MoreSamples.degenerate (Processor None)).
  vm_compute. reflexivity.
Defined.

Lemma validation_grades_witness :
  ∃ v,
    validate_data (SH := Samples.point_ops) Samples.dirty = Ok v
    ∧ quality_grade v = "F"
    ∧ total_features v = length Samples.dirty
    ∧ (valid_geometries v + invalid_geometries v = total_features v)%nat
    ∧ (null_geometries v ≤ invalid_geometries v)%nat
    ∧ quality_score v ∈ [0; 20; 40; 60; 80; 100]%Z
    ∧ quality_grade v ∈ ["A"; "B"; "D"; "F"]
    ∧ ((0 < null_geometries v)%nat →
       (quality_score v ≤ 40)%Z ∧ quality_grade v = "F").
Proof.
  eexists. split; [vm_compute; reflexivity|].
  split; [reflexivity|].
  apply (validation_grades (SH := Samples.point_ops) Samples.dirty).
  vm_compute. reflexivity.
Defined.

Lemma validation_full_score_witness :
  ∃ v,
    validate_data (SH := Samples.point_ops)
                  [Feature (Some (Shapely.Point 12.4922 41.8902))
                           {["name" := VStr "Colosseum"]};
                   Feature (Some (Shapely.Point 10.3966 43.7230))
                           {["name" := VStr "Leaning Tower of Pisa"]}]
    = Ok v
    ∧ quality_grade v = "A"
    ∧ (quality_score v = 100%Z
       ↔ Forall (λ f, ∃ g, geom f = Some g
                           ∧ Shapely.is_valid (Ops := Samples.point_ops) g
                             = true
                           ∧ Shapely.is_empty (Ops := Samples.point_ops) g
                             = false)
                [Feature (Some (Shapely.Point 12.4922 41.8902))
                         {["name" := VStr "Colosseum"]};
                 Feature (Some (Shapely.Point 10.3966 43.7230))
                         {["name" := VStr "Leaning Tower of Pisa"]}]
         ∧ NoDup (map geom
                [Feature (Some (Shapely.Point 12.4922 41.8902))
                         {["name" := VStr "Colosseum"]};
                 Feature (Some (Shapely.Point 10.3966 43.7230))
                         {["name" := VStr "Leaning Tower of Pisa"]}])).
Proof.
  eexists. split; [vm_compute; reflexivity|].
  split; [reflexivity|].
  apply (validation_full_score (SH := Samples.point_ops)).
  vm_compute. reflexivity.
Defined.

Lemma validate_cleaned_witness :
  ∃ out self',
    clean_data (SH := MoreSamples.line_ops) (PD := Samples.plain_pandas)
               MoreSamples.degenerate (Processor None)
    = (Ok out, self')
    ∧ Exists (λ f, geom f = None) out
    ∧ (out = [] →
       ∃ msg, validate_data (SH := MoreSamples.line_ops) out
              = Err (Raise Exception ("Data validation failed: " +:+ msg)))
    ∧ (out ≠ [] →
       ∃ v, validate_data (SH := MoreSamples.line_ops) out = Ok v
            ∧ total_features v = length out
            ∧ (Forall (λ f, is_Some (geom f)) out →
               null_geometries v = 0%nat
               ∧ duplicate_geometries v = 0%nat
               ∧ (40 ≤ quality_score v)%Z)
            ∧ (Exists (λ f, geom f = None) out →
               (0 < null_geometries v)%nat ∧ quality_grade v = "F")).
Proof.
  eexists _, _. split; [vm_compute; reflexivity|].
  split; [apply Exists_cons_tl, Exists_cons_hd; reflexivity|].
  eapply (validate_cleaned (SH := MoreSamples.line_ops)
                           (PD := Samples.plain_pandas)
                           MoreSamples.degenerate (Processor None)).
  vm_compute. reflexivity.
Defined.

End DataProcessorMore.
